(** * ao-io-posix: the JNI shim over POSIX file primitives

    A shallow embedding of the native side of ao-io-posix:
    - [aocode_shared.c] (both binding generations): [getErrorType];
    - [jni_util.c]: [newString8859_1] and [getString8859_1Chars];
    - [com_aoapps_io_posix_PosixFile.c]: [chown0], [getStat0],
      [readLink0], [utime0];
    - [com_aoindustries_io_unix_UnixFile.c]: [getStat0];
    - [com_aoapps_io_posix_linux_DevRandom.c]: [addEntropy0].

    C integers are [Z] with the wrap-around of each conversion written out,
    C buffers are [list Z], and the JVM, the C heap and the kernel are an
    explicit [World] threaded through a small state monad. *)

From stdpp Require Import base numbers option list strings gmap.

Local Open Scope Z_scope.

(** ** Machine integers *)

(** Conversion to a signed two's-complement integer of [bits] bits. *)
Definition wrap (bits : Z) (z : Z) : Z :=
  (z + 2 ^ (bits - 1)) `mod` 2 ^ bits - 2 ^ (bits - 1).

Definition to_jint (z : Z) : Z := wrap 32 z.
Definition to_jlong (z : Z) : Z := wrap 64 z.
Definition to_uchar (z : Z) : Z := z `mod` 256.

Definition in_range (bits : Z) (z : Z) : Prop :=
  - 2 ^ (bits - 1) ≤ z < 2 ^ (bits - 1).

Definition is_jint (z : Z) : Prop := in_range 32 z.
Definition is_jlong (z : Z) : Prop := in_range 64 z.
Definition is_jchar (z : Z) : Prop := 0 ≤ z < 65536.

(** ** The platform: what [<errno.h>] and friends provide

    The eighteen error numbers tested by [getErrorType], the signedness of
    [char], the width of [time_t], the sizes of two structures, and the two
    constants handed to [open] and [ioctl] come from the C implementation
    and its system headers, so they are parameters of the development.
    [int] has 32 bits and [size_t] 64. *)
Class Platform := {
  EACCES : Z; EBADF : Z; EEXIST : Z; EFAULT : Z; EINTR : Z; EINVAL : Z;
  EIO : Z; ELOOP : Z; EMLINK : Z; ENAMETOOLONG : Z; ENOENT : Z; ENOMEM : Z;
  ENOSPC : Z; ENOSYS : Z; ENOTDIR : Z; EPERM : Z; EROFS : Z; EXDEV : Z;
  char_is_signed : bool;
  time_t_bits : Z;
  sizeof_struct_stat : Z;
  sizeof_struct_utimbuf : Z;
  O_WRONLY : Z;
  RNDADDENTROPY : Z
}.

(** Conversion to [char]. *)
Definition to_char {plat : Platform} (z : Z) : Z :=
  if char_is_signed then wrap 8 z else z `mod` 256.

(** The error numbers in the order [getErrorType] tests them. *)
Definition errnos {plat : Platform} : list Z :=
  [EACCES; EBADF; EEXIST; EFAULT; EINTR; EINVAL; EIO; ELOOP; EMLINK;
   ENAMETOOLONG; ENOENT; ENOMEM; ENOSPC; ENOSYS; ENOTDIR; EPERM; EROFS; EXDEV].

(** POSIX requires these error numbers to be pairwise distinct. *)
Definition errno_distinct {plat : Platform} : Prop := NoDup errnos.

(** Linux on x86-64 (asm-generic/errno-base.h, errno.h, fcntl.h, random.h). *)
Definition linux_x86_64 : Platform := {|
  EPERM := 1; ENOENT := 2; EINTR := 4; EIO := 5; EBADF := 9; ENOMEM := 12;
  EACCES := 13; EFAULT := 14; EEXIST := 17; EXDEV := 18; ENOTDIR := 20;
  EINVAL := 22; ENOSPC := 28; EROFS := 30; EMLINK := 31; ENAMETOOLONG := 36;
  ENOSYS := 38; ELOOP := 40;
  char_is_signed := true;
  time_t_bits := 64;
  sizeof_struct_stat := 144;
  sizeof_struct_utimbuf := 16;
  O_WRONLY := 1;
  RNDADDENTROPY := 1074287107
|}.

(** ** aocode_shared.h: the exception classes *)

Inductive ExceptionClass : Set :=
  | FILE_NOT_FOUND_EXCEPTION
  | IO_EXCEPTION
  | ILLEGAL_ARGUMENT_EXCEPTION
  | INTERRUPTED_IO_EXCEPTION
  | NO_SUCH_METHOD_EXCEPTION
  | OUT_OF_MEMORY_EXCEPTION
  | RUNTIME_EXCEPTION
  | SECURITY_EXCEPTION.

(** The string each [static const char*] of the header points to. *)
Definition class_name (c : ExceptionClass) : string :=
  match c with
  | FILE_NOT_FOUND_EXCEPTION => "java/io/FileNotFoundException"
  | IO_EXCEPTION => "java/io/IOException"
  | ILLEGAL_ARGUMENT_EXCEPTION => "java/lang/IllegalArgumentException"
  | INTERRUPTED_IO_EXCEPTION => "java/io/InterruptedIOException"
  | NO_SUCH_METHOD_EXCEPTION => "java/lang/NoSuchMethodException"
  | OUT_OF_MEMORY_EXCEPTION => "java/lang/OutOfMemoryError"
  | RUNTIME_EXCEPTION => "java/lang/RuntimeException"
  | SECURITY_EXCEPTION => "java/lang/SecurityException"
  end.

(** The error categories of the specification, each carried by one of the
    exception classes. *)
Inductive ErrorCategory : Set :=
  | SecurityViolation
  | IOFailure
  | InvalidArgument
  | InterruptedIO
  | MethodUnsupported
  | OutOfMemory
  | GenericRuntimeFailure
  | PathNotFound.

Definition category (c : ExceptionClass) : ErrorCategory :=
  match c with
  | FILE_NOT_FOUND_EXCEPTION => PathNotFound
  | IO_EXCEPTION => IOFailure
  | ILLEGAL_ARGUMENT_EXCEPTION => InvalidArgument
  | INTERRUPTED_IO_EXCEPTION => InterruptedIO
  | NO_SUCH_METHOD_EXCEPTION => MethodUnsupported
  | OUT_OF_MEMORY_EXCEPTION => OutOfMemory
  | RUNTIME_EXCEPTION => GenericRuntimeFailure
  | SECURITY_EXCEPTION => SecurityViolation
  end.

(** ** The kernel

    The system calls behind the native methods, as an interface: what each
    call answers is the kernel's business.  [Ok] is a successful call with
    what it yields, [Err e] a call that returns -1 and sets [errno] to [e].
    Paths are the bytes of a C string without its terminator. *)

Inductive sysret (A : Type) : Type :=
  | Ok (a : A)
  | Err (e : Z).
Arguments Ok {A} a.
Arguments Err {A} e.

(** struct stat, the fields [getStat0] reads. *)
Record stat := {
  st_dev : Z; st_ino : Z; st_mode : Z; st_nlink : Z; st_uid : Z; st_gid : Z;
  st_rdev : Z; st_size : Z; st_blksize : Z; st_blocks : Z;
  st_atime : Z; st_mtime : Z; st_ctime : Z
}.

Record utimbuf := { actime : Z; modtime : Z }.

(** struct rand_pool_info of linux/random.h: two ints and the flexible
    array [buf]. *)
Record rand_pool_info := { entropy_count : Z; buf_size : Z; buf : list Z }.

Definition sizeof_struct_rand_pool_info : Z := 8.

Class Kernel (K : Type) := {
  k_lchown : list Z → Z → Z → K → sysret () * K;
  k_lstat : list Z → K → sysret stat;
  (** the whole contents of the symbolic link *)
  k_readlink : list Z → K → sysret (list Z);
  k_utime : list Z → utimbuf → K → sysret () * K;
  (** yields the descriptor *)
  k_open : list Z → Z → K → sysret Z * K;
  k_ioctl : Z → Z → rand_pool_info → K → sysret () * K;
  k_close : Z → K → sysret () * K
}.

(** What crossed the boundary to libc and the kernel, in order. *)
Inductive Event : Type :=
  | EvMalloc (size : Z)
  | EvLchown (path : list Z) (owner group : Z)
  | EvLstat (path : list Z)
  | EvReadlink (path : list Z) (bufsiz : Z)
  | EvUtime (path : list Z) (times : utimbuf)
  | EvOpen (path : list Z) (flags : Z)
  | EvIoctl (fd request : Z) (arg : rand_pool_info)
  | EvClose (fd : Z).

(** ** The JVM side

    A jstring is its UTF-16 code units, a jbyteArray its jbytes. *)

Definition jstring := list Z.
Definition jbyteArray := list Z.

(** The message argument of ThrowNew. *)
Inductive message : Set :=
  | null_message
  | strerror (errnum : Z).

(** The exception pending in the calling thread. *)
Inductive Throwable : Type :=
  | JvmThrown                                  (* raised by the JVM inside a JNI function *)
  | Thrown (cls : string) (msg : message).     (* raised by ThrowNew *)

(** Modelled from the spec: the Java class Stat, which is not among the
    native sources.  It is the value object of the stat record (existence
    flag, device, inode, mode, link count, uid, gid, device identifier,
    size, block size, block count and three millisecond timestamps); its
    constructor and its init method store their fourteen arguments. *)
Record Stat := {
  exists_ : bool;
  device : Z; inode : Z; mode : Z; numberLinks : Z; uid : Z; gid : Z;
  deviceIdentifier : Z; size : Z; blockSize : Z; blockCount : Z;
  accessTime : Z; modifyTime : Z; changeTime : Z
}.

(** Modelled from the spec: the static field Stat.NOT_EXISTS of the Java
    class Stat, the result for a path that does not exist: the existence
    flag is false and every other field is zero. *)
Definition NOT_EXISTS : Stat := {|
  exists_ := false;
  device := 0; inode := 0; mode := 0; numberLinks := 0; uid := 0; gid := 0;
  deviceIdentifier := 0; size := 0; blockSize := 0; blockCount := 0;
  accessTime := 0; modifyTime := 0; changeTime := 0
|}.

(** Every field but the existence flag is zero. *)
Definition all_zero (st : Stat) : Prop :=
  device st = 0 ∧ inode st = 0 ∧ mode st = 0 ∧ numberLinks st = 0 ∧
  uid st = 0 ∧ gid st = 0 ∧ deviceIdentifier st = 0 ∧ size st = 0 ∧
  blockSize st = 0 ∧ blockCount st = 0 ∧
  accessTime st = 0 ∧ modifyTime st = 0 ∧ changeTime st = 0.

Definition JNI_TRUE : bool := true.
Definition JNI_FALSE : bool := false.

(** The fourteen values both generations of [getStat0] draw from a filled
    stat buffer, for the statements below. *)
Definition Stat_of (buff : stat) : Stat := {|
  exists_          := JNI_TRUE;
  device           := to_jlong (st_dev buff);
  inode            := to_jlong (st_ino buff);
  mode             := to_jlong (st_mode buff);
  numberLinks      := to_jint (st_nlink buff);
  uid              := to_jint (st_uid buff);
  gid              := to_jint (st_gid buff);
  deviceIdentifier := to_jlong (st_rdev buff);
  size             := to_jlong (st_size buff);
  blockSize        := to_jint (st_blksize buff);
  blockCount       := to_jlong (st_blocks buff);
  accessTime       := to_jlong (to_jlong (st_atime buff) * 1000);
  modifyTime       := to_jlong (to_jlong (st_mtime buff) * 1000);
  changeTime       := to_jlong (to_jlong (st_ctime buff) * 1000)
|}.

(** ** The world of one native call *)

Record World (K : Type) := mkWorld {
  kernel : K;
  errno : Z;
  (** outcomes of the coming fallible runtime requests (malloc and the JNI
      functions that allocate or resolve), in order; once the script is
      used up every request succeeds *)
  faults : list bool;
  (** the indeterminate contents of fresh memory *)
  garbage : nat → Z;
  pending : option Throwable;
  trace : list Event
}.
Arguments mkWorld {K}.
Arguments kernel {K}.
Arguments errno {K}.
Arguments faults {K}.
Arguments garbage {K}.
Arguments pending {K}.
Arguments trace {K}.

(** The character codes of a text. *)
Definition chars (s : string) : list Z :=
  (λ a, Z.of_N (Ascii.N_of_ascii a)) <$> String.list_ascii_of_string s.

(** What a single-byte buffer can say of a code unit: [getString8859_1Chars]
    keeps it up to 255 and writes '?' (63) above. *)
Definition latin1 (unicode : Z) : Z :=
  if decide (unicode ≤ 255) then unicode else 63.

(** The buffer [getString8859_1Chars] builds: one byte per code unit and
    the terminator. *)
Definition latin1_buffer {plat : Platform} (jstr : list Z) : list Z :=
  ((λ unicode, to_char (latin1 unicode)) <$> jstr) ++ [0].

(** The part of a text before its first NUL code unit. *)
Fixpoint until_nul (s : list Z) : list Z :=
  match s with
  | [] => []
  | c :: s' => if c =? 0 then [] else c :: until_nul s'
  end.

(** The path a system call reads in that buffer. *)
Definition c_path {plat : Platform} (jstr : list Z) : list Z :=
  until_nul ((λ unicode, to_char (latin1 unicode)) <$> jstr).

(** [n] cells of fresh memory. *)
Definition indeterminate (g : nat → Z) (n : Z) : list Z :=
  g <$> seq 0 (Z.to_nat n).

(** The world after more events. *)
Definition log {K} (evs : list Event) (w : World K) : World K :=
  mkWorld (kernel w) (errno w) (faults w) (garbage w) (pending w)
          (trace w ++ evs).

(** State over the world; [None] is undefined behaviour (a read outside a
    buffer or of an uninitialised variable). *)
Definition M (K A : Type) : Type := World K → option (A * World K).

Global Instance M_ret {K} : MRet (M K) := λ A a w, Some (a, w).
Global Instance M_bind {K} : MBind (M K) := λ A B f m w,
  match m w with
  | Some (a, w') => f a w'
  | None => None
  end.

Section runtime.
Context {K : Type} {kern : Kernel K} {plat : Platform}.

Abbreviation M := (M K).

Definition undefined {A} : M A := λ _, None.

Definition get_errno : M Z := λ w, Some (errno w, w).

Definition set_errno (e : Z) : M () := λ w,
  Some ((), mkWorld (kernel w) e (faults w) (garbage w) (pending w) (trace w)).

Definition emit (ev : Event) : M () := λ w,
  Some ((), mkWorld (kernel w) (errno w) (faults w) (garbage w) (pending w)
                    (trace w ++ [ev])).

Definition next_fault : M bool := λ w,
  match faults w with
  | [] => Some (true, w)
  | ok :: rest =>
      Some (ok, mkWorld (kernel w) (errno w) rest (garbage w) (pending w) (trace w))
  end.

Definition set_pending (t : Throwable) : M () := λ w,
  Some ((), mkWorld (kernel w) (errno w) (faults w) (garbage w) (Some t) (trace w)).

Definition fresh (n : Z) : M (list Z) := λ w,
  Some (indeterminate (garbage w) n, w).

(** A system call: run it in the kernel, set [errno] when it fails. *)
Definition syscall {A} (call : K → sysret A * K) : M (sysret A) := λ w,
  let '(r, k) := call (kernel w) in
  let e := match r with Ok _ => errno w | Err e => e end in
  Some (r, mkWorld k e (faults w) (garbage w) (pending w) (trace w)).

(** *** Local variables and arrays *)

(** Reading a local that may not have been assigned. *)
Definition read {A} (var : option A) : M A :=
  match var with Some a => mret a | None => undefined end.

Definition load (a : list Z) (i : Z) : M Z :=
  if decide (0 ≤ i) then read (a !! Z.to_nat i) else undefined.

Definition store (a : list Z) (i : Z) (v : Z) : M (list Z) :=
  if decide (0 ≤ i < Z.of_nat (length a))
  then mret (<[Z.to_nat i := v]> a)
  else undefined.

(** for (i = from; i < from + n; i++) body *)
Fixpoint for_from {S} (i : Z) (n : nat) (body : Z → S → M S) (s : S) : M S :=
  match n with
  | O => mret s
  | S n' => s' ← body i s; for_from (i + 1) n' body s'
  end.

(** for (i = 0; i < len; i++) body *)
Definition for_lt {S} (len : Z) (body : Z → S → M S) (s : S) : M S :=
  for_from 0 (Z.to_nat len) body s.

(** *** libc *)

(** The bytes of a C string: up to, and without, the first zero byte. *)
Fixpoint c_str (s : list Z) : option (list Z) :=
  match s with
  | [] => None
  | c :: s' => if c =? 0 then Some [] else (c ::.) <$> c_str s'
  end.

Definition strlen (s : list Z) : M Z :=
  p ← read (c_str s); mret (Z.of_nat (length p)).

Definition to_size_t (z : Z) : Z := z `mod` 2 ^ 64.

Definition to_time_t (z : Z) : Z := wrap time_t_bits z.

(** [uid_t] and [gid_t] are unsigned and have 32 bits. *)
Definition to_uid_t (z : Z) : Z := z `mod` 2 ^ 32.
Definition to_gid_t (z : Z) : Z := z `mod` 2 ^ 32.

(** A string literal: its characters and the terminator. *)
Definition c_literal (s : string) : list Z := chars s ++ [0].

(** A block of [size] bytes of indeterminate contents, or NULL. *)
Definition malloc (size : Z) : M (option (list Z)) :=
  emit (EvMalloc (to_size_t size));;
  ok ← next_fault;
  if ok : bool then block ← fresh (to_size_t size); mret (Some block)
  else set_errno ENOMEM;; mret None.

Definition free : M () := mret ().

(** The prototype converts the two ids to [uid_t] and [gid_t]. *)
Definition lchown (path : list Z) (owner group : Z) : M Z :=
  p ← read (c_str path);
  emit (EvLchown p (to_uid_t owner) (to_gid_t group));;
  r ← syscall (k_lchown p (to_uid_t owner) (to_gid_t group));
  mret (match r with Ok _ => 0 | Err _ => -1 end).

(** Yields the filled buffer when the call returns 0. *)
Definition lstat (path : list Z) : M (option stat) :=
  p ← read (c_str path);
  emit (EvLstat p);;
  r ← syscall (λ k, (k_lstat p k, k));
  mret (match r with Ok buff => Some buff | Err _ => None end).

(** readlink places at most [bufsiz] bytes of the link's contents in the
    buffer, appends no terminator, and returns how many it placed. *)
Definition readlink (path : list Z) (buffer : list Z) (bufsiz : Z)
    : M (Z * list Z) :=
  p ← read (c_str path);
  emit (EvReadlink p bufsiz);;
  r ← syscall (λ k, (k_readlink p k, k));
  match r with
  | Ok contents =>
      let placed := take (Z.to_nat bufsiz) contents in
      if decide (length placed ≤ length buffer)%nat
      then mret (Z.of_nat (length placed), placed ++ drop (length placed) buffer)
      else undefined
  | Err _ => mret (-1, buffer)
  end.

Definition utime (path : list Z) (times : utimbuf) : M Z :=
  p ← read (c_str path);
  emit (EvUtime p times);;
  r ← syscall (k_utime p times);
  mret (match r with Ok _ => 0 | Err _ => -1 end).

Definition open (path : list Z) (flags : Z) : M Z :=
  p ← read (c_str path);
  emit (EvOpen p flags);;
  r ← syscall (k_open p flags);
  mret (match r with Ok fd => fd | Err _ => -1 end).

Definition ioctl (fd request : Z) (arg : rand_pool_info) : M Z :=
  emit (EvIoctl fd request arg);;
  r ← syscall (k_ioctl fd request arg);
  mret (match r with Ok _ => 0 | Err _ => -1 end).

Definition close (fd : Z) : M Z :=
  emit (EvClose fd);;
  r ← syscall (k_close fd);
  mret (match r with Ok _ => 0 | Err _ => -1 end).

(** *** JNI functions *)

(** A fallible JNI request: on failure the JVM leaves its own throwable
    pending and the function returns NULL. *)
Definition jni_request {A} (a : A) : M (option A) :=
  ok ← next_fault;
  if ok : bool then mret (Some a) else set_pending JvmThrown;; mret None.

Definition FindClass (name : string) : M (option string) := jni_request name.

Definition ThrowNew (cls : string) (msg : message) : M () :=
  set_pending (Thrown cls msg).

Definition GetStringLength (jstr : jstring) : M Z :=
  mret (Z.of_nat (length jstr)).

Definition GetStringCritical (jstr : jstring) : M (option (list Z)) :=
  jni_request jstr.

Definition ReleaseStringCritical : M () := mret ().

Definition NewString (unicode : list Z) (len : Z) : M (option jstring) :=
  if decide (0 ≤ len ≤ Z.of_nat (length unicode))
  then jni_request (take (Z.to_nat len) unicode)
  else undefined.

Definition GetStaticFieldID (cls name sig : string) : M (option string) :=
  jni_request name.

Definition GetMethodID (cls name sig : string) : M (option string) :=
  jni_request name.

Definition NewObject (args : Stat) : M (option Stat) := jni_request args.

(** The up-call to Stat.init: the object now holds the arguments. *)
Definition CallVoidMethod (args : Stat) : M (option Stat) := mret (Some args).

Definition GetArrayLength (array : jbyteArray) : M Z :=
  mret (Z.of_nat (length array)).

Definition GetByteArrayElements (array : jbyteArray) : M (option (list Z)) :=
  jni_request array.

Definition ReleaseByteArrayElements : M () := mret ().

(** ** src/com/aoindustries/io/unix/jni_util.c *)

(** Lines 8-15. *)
Definition JNU_ThrowByName (name : string) (msg : message) : M () :=
  cls ← FindClass name;
  match cls with
  | Some cls => ThrowNew cls msg
  | None => mret ()      (* an exception has already been thrown *)
  end.

(** Lines 17-21. *)
Definition JNU_ThrowOutOfMemoryError (msg : message) : M () :=
  JNU_ThrowByName "java/lang/OutOfMemoryError" msg.

Definition sizeof_jchar : Z := 2.

(** A block seen as an array of jchar. *)
Definition as_jchars (block : list Z) : list Z :=
  take (length block / Z.to_nat sizeof_jchar)%nat block.

(** Lines 24-48: the decoder.  [buf] is the array on the stack, [str1]
    it or the heap block, by the length [strlen] finds. *)
Definition newString8859_1 (str : list Z) : M (option jstring) :=
  n ← strlen str;
  let len := to_jint n in
  buf ← fresh 512;
  str1 ← (if decide (len > 512)
          then block ← malloc (len * sizeof_jchar); mret (as_jchars <$> block)
          else mret (Some buf));
  match str1 with
  | None => JNU_ThrowOutOfMemoryError null_message;; mret None
  | Some str1 =>
      str1 ← for_lt len (λ i str1,
               c ← load str i;
               store str1 i (to_uchar c)) str1;
      result ← NewString str1 len;
      (if decide (len > 512) then free else mret ());;
      mret result
  end.

(** Lines 50-79: the encoder. *)
Definition getString8859_1Chars (jstr : jstring) : M (option (list Z)) :=
  len ← GetStringLength jstr;
  str ← GetStringCritical jstr;
  match str with
  | None => mret None
  | Some str =>
      result ← malloc (to_jint (len + 1));
      match result with
      | None =>
          ReleaseStringCritical;;
          JNU_ThrowOutOfMemoryError null_message;;
          mret None
      | Some result =>
          result ← for_lt len (λ i result,
                     unicode ← load str i;
                     if decide (unicode ≤ 255)
                     then store result i (to_char unicode)
                     else store result i (to_char 63 (* '?' *))) result;
          result ← store result len 0;
          ReleaseStringCritical;;
          mret (Some result)
      end
  end.

(** Lines 81-83. *)
Definition releaseString8859_1Chars : M () := free.

End runtime.


(** ** More of the kernel and of libc

    The system calls of the native methods that create and change files.
    These calls leave no event in the trace: what was called, and with
    what, is read off the kernel they leave. *)

Class KernelFiles (K : Type) := {
  (** mknod(path, mode, dev) *)
  k_mknod : list Z → Z → Z → K → sysret () * K;
  (** chmod(path, mode) *)
  k_chmod : list Z → Z → K → sysret () * K;
  (** symlink(target, linkpath) *)
  k_symlink : list Z → list Z → K → sysret () * K;
  (** link(oldpath, newpath) *)
  k_link : list Z → list Z → K → sysret () * K;
  (** mkstemp(template): the descriptor and the name put in place of the
      template *)
  k_mkstemp : list Z → K → sysret (Z * list Z) * K
}.

(** What [<sys/stat.h>] provides to [mkfifo0]. *)
Class SysStat := { S_IFIFO : Z }.

Definition linux_sys_stat : SysStat := {| S_IFIFO := 4096 |}.

(** com_aoapps_io_posix_PosixFile.h: the constants of the mode word this
    development uses (lines 15, 65, 67). *)
Definition com_aoapps_io_posix_PosixFile_PERMISSION_MASK : Z := 4095.
Definition com_aoapps_io_posix_PosixFile_TYPE_MASK : Z := 61440.
Definition com_aoapps_io_posix_PosixFile_IS_FIFO : Z := 4096.

(** The libc functions over them. *)
Module Libc.

Section more_libc.
Context {K : Type} {kern : Kernel K} {fsk : KernelFiles K} {plat : Platform}.

Definition to_mode_t (z : Z) : Z := z `mod` 2 ^ 32.
Definition to_dev_t (z : Z) : Z := z `mod` 2 ^ 64.

Definition mknod (path : list Z) (mode dev : Z) : M K Z :=
  p ← read (c_str path);
  r ← syscall (k_mknod p (to_mode_t mode) (to_dev_t dev));
  mret (match r with Ok _ => 0 | Err _ => -1 end).

Definition chmod (path : list Z) (mode : Z) : M K Z :=
  p ← read (c_str path);
  r ← syscall (k_chmod p (to_mode_t mode));
  mret (match r with Ok _ => 0 | Err _ => -1 end).

Definition symlink (target linkpath : list Z) : M K Z :=
  t ← read (c_str target);
  l ← read (c_str linkpath);
  r ← syscall (k_symlink t l);
  mret (match r with Ok _ => 0 | Err _ => -1 end).

Definition link (oldpath newpath : list Z) : M K Z :=
  o ← read (c_str oldpath);
  n ← read (c_str newpath);
  r ← syscall (k_link o n);
  mret (match r with Ok _ => 0 | Err _ => -1 end).

(** memcpy(dest, src, n): the first [n] bytes of [src] over those of
    [dest]. *)
Definition memcpy (dest src : list Z) (n : Z) : M K (list Z) :=
  if decide (0 ≤ n ≤ Z.of_nat (length src) ∧ n ≤ Z.of_nat (length dest))
  then mret (take (Z.to_nat n) src ++ drop (Z.to_nat n) dest)
  else undefined.

(** mkstemp overwrites the template in place with the name it made, which
    has the template's length, and returns the descriptor; on failure it
    returns -1. *)
Definition mkstemp (template : list Z) : M K (Z * list Z) :=
  p ← read (c_str template);
  r ← syscall (k_mkstemp p);
  match r with
  | Ok (fd, name) =>
      if decide (length name = length p)
      then mret (fd, name ++ drop (length name) template)
      else undefined
  | Err _ => mret (-1, template)
  end.

End more_libc.

End Libc.

(** ** The newer binding generation (com/aoapps/io/posix) *)
Module Posix.

(** *** src/main/c/com/aoapps/io/posix/aocode_shared.c *)

(** Gets the proper exception type for the provided errno (lines 32-54). *)
Definition getErrorType {plat : Platform} (err : Z) : ExceptionClass :=
  if err =? EACCES then SECURITY_EXCEPTION
  else if err =? EBADF then IO_EXCEPTION
  else if err =? EEXIST then IO_EXCEPTION
  else if err =? EFAULT then RUNTIME_EXCEPTION
  else if err =? EINTR then INTERRUPTED_IO_EXCEPTION
  else if err =? EINVAL then ILLEGAL_ARGUMENT_EXCEPTION
  else if err =? EIO then IO_EXCEPTION
  else if err =? ELOOP then FILE_NOT_FOUND_EXCEPTION
  else if err =? EMLINK then IO_EXCEPTION
  else if err =? ENAMETOOLONG then ILLEGAL_ARGUMENT_EXCEPTION
  else if err =? ENOENT then FILE_NOT_FOUND_EXCEPTION
  else if err =? ENOMEM then OUT_OF_MEMORY_EXCEPTION
  else if err =? ENOSPC then IO_EXCEPTION
  else if err =? ENOSYS then NO_SUCH_METHOD_EXCEPTION
  else if err =? ENOTDIR then IO_EXCEPTION
  else if err =? EPERM then SECURITY_EXCEPTION
  else if err =? EROFS then IO_EXCEPTION
  else if err =? EXDEV then IO_EXCEPTION
  else RUNTIME_EXCEPTION.

Section PosixFile.
Context {K : Type} {kern : Kernel K} {plat : Platform}.

(** *** src/main/c/com/aoapps/io/posix/com_aoapps_io_posix_PosixFile.c

    Each native method returns what it returns to Java; the exception
    it raises, if any, is the [pending] of the world it leaves. *)

(** Method chown0 (lines 45-54). *)
Definition Java_com_aoapps_io_posix_PosixFile_chown0
    (jfilename : jstring) (uid gid : Z) : M K () :=
  filename ← getString8859_1Chars jfilename;
  newExcCls ← match filename with
    | Some filename =>
        r ← lchown filename uid gid;
        newExcCls ← (if decide (r ≠ 0)
                     then e ← get_errno; FindClass (class_name (getErrorType e))
                     else mret None);
        releaseString8859_1Chars;;
        mret newExcCls
    | None => mret None
    end;
  match newExcCls with
  | Some cls => e ← get_errno; ThrowNew cls (strerror e)
  | None => mret ()
  end.

(** Method getStat0 (lines 61-156). *)
Definition Java_com_aoapps_io_posix_PosixFile_getStat0
    (jfilename : jstring) : M K (option Stat) :=
  filename ← getString8859_1Chars jfilename;
  '(newExcCls, stat) ← match filename with
    | Some filename =>
        (* Perform the stat into the stat buffer *)
        buff ← malloc sizeof_struct_stat;
        r ← match buff with
          | Some _ =>
              st ← lstat filename;
              (* the local [exists], and the thirteen locals after it *)
              '(newExcCls, exists', locals) ← match st with
                | Some buff =>
                    mret (None, Some JNI_TRUE, Some {|
                      exists_          := JNI_TRUE;
                      device           := to_jlong (st_dev buff);
                      inode            := to_jlong (st_ino buff);
                      mode             := to_jlong (st_mode buff);
                      numberLinks      := to_jint (st_nlink buff);
                      uid              := to_jint (st_uid buff);
                      gid              := to_jint (st_gid buff);
                      deviceIdentifier := to_jlong (st_rdev buff);
                      size             := to_jlong (st_size buff);
                      blockSize        := to_jint (st_blksize buff);
                      blockCount       := to_jlong (st_blocks buff);
                      accessTime       := to_jlong (to_jlong (st_atime buff) * 1000);
                      modifyTime       := to_jlong (to_jlong (st_mtime buff) * 1000);
                      changeTime       := to_jlong (to_jlong (st_ctime buff) * 1000)
                    |})
                | None =>
                    e ← get_errno;
                    if decide (e = ENOENT ∨ e = ENOTDIR)
                    then mret (None, Some JNI_FALSE, None)
                    else cls ← FindClass (class_name (getErrorType e));
                         mret (cls, None, None)
                end;
              free;;
              stat ← match newExcCls with
                | None =>
                    statClass ← FindClass "com/aoapps/io/posix/Stat";
                    match statClass with
                    | Some statClass =>
                        exists' ← read exists';
                        if decide (exists' = JNI_FALSE) then
                          (* not exists, return the static field *)
                          field ← GetStaticFieldID statClass "NOT_EXISTS"
                                    "Lcom/aoapps/io/posix/Stat;";
                          match field with
                          | Some _ => mret (Some NOT_EXISTS)
                          | None => mret None
                          end
                        else
                          (* exists, return a new object *)
                          constructor ← GetMethodID statClass "<init>"
                                          "(ZJJJIIIJJIJJJJ)V";
                          match constructor with
                          | Some _ =>
                              l ← read locals;
                              NewObject {|
                                exists_ := exists';
                                device := device l; inode := inode l; mode := mode l;
                                numberLinks := numberLinks l; uid := uid l; gid := gid l;
                                deviceIdentifier := deviceIdentifier l; size := size l;
                                blockSize := blockSize l; blockCount := blockCount l;
                                accessTime := accessTime l; modifyTime := modifyTime l;
                                changeTime := changeTime l
                              |}
                          | None => mret None
                          end
                    | None => mret None
                    end
                | Some _ => mret None
                end;
              mret (newExcCls, stat)
          | None =>
              e ← get_errno;
              cls ← FindClass (class_name (getErrorType e));
              mret (cls, None)
          end;
        releaseString8859_1Chars;;
        mret r
    | None => mret (None, None)
    end;
  match newExcCls with
  | Some cls => e ← get_errno; ThrowNew cls (strerror e)
  | None => mret ()
  end;;
  mret stat.

(** Method readLink0 (lines 304-322). *)
Definition Java_com_aoapps_io_posix_PosixFile_readLink0
    (jfilename : jstring) : M K (option jstring) :=
  filename ← getString8859_1Chars jfilename;
  '(newExcCls, jdestination) ← match filename with
    | Some filename =>
        destination ← malloc 4097;
        r ← match destination with
          | Some destination =>
              '(n, destination) ← readlink filename destination 4096;
              let charCount := to_jint n in
              r ← (if decide (charCount ≠ -1) then
                     destination ← store destination charCount 0;
                     jdestination ← newString8859_1 destination;
                     mret (None, jdestination)
                   else
                     e ← get_errno;
                     cls ← FindClass (class_name (getErrorType e));
                     mret (cls, None));
              free;;
              mret r
          | None =>
              e ← get_errno;
              cls ← FindClass (class_name (getErrorType e));
              mret (cls, None)
          end;
        releaseString8859_1Chars;;
        mret r
    | None => mret (None, None)
    end;
  match newExcCls with
  | Some cls => e ← get_errno; ThrowNew cls (strerror e)
  | None => mret ()
  end;;
  mret jdestination.

(** Method utime0 (lines 329-344); the division is C's, towards zero. *)
Definition Java_com_aoapps_io_posix_PosixFile_utime0
    (jfilename : jstring) (atime mtime : Z) : M K () :=
  times ← malloc sizeof_struct_utimbuf;
  newExcCls ← match times with
    | Some _ =>
        filename ← getString8859_1Chars jfilename;
        r ← match filename with
          | Some filename =>
              let times := {| actime := to_time_t (atime `quot` 1000);
                              modtime := to_time_t (mtime `quot` 1000) |} in
              r ← utime filename times;
              newExcCls ← (if decide (r ≠ 0)
                           then e ← get_errno; FindClass (class_name (getErrorType e))
                           else mret None);
              releaseString8859_1Chars;;
              mret newExcCls
          | None => mret None
          end;
        free;;
        mret r
    | None => e ← get_errno; FindClass (class_name (getErrorType e))
    end;
  match newExcCls with
  | Some cls => e ← get_errno; ThrowNew cls (strerror e)
  | None => mret ()
  end.

(** *** src/main/c/com/aoapps/io/posix/linux/com_aoapps_io_posix_linux_DevRandom.c *)

Definition sizeof_char : Z := 1.

(** Method addEntropy0 (lines 42-72); [block] is the allocation, [buf]
    the flexible array behind the two ints of the structure. *)
Definition Java_com_aoapps_io_posix_linux_DevRandom_addEntropy0
    (randomData : jbyteArray) : M K () :=
  (* First, build up the rand_pool_info structure *)
  len ← GetArrayLength randomData;
  rand_info ← malloc (sizeof_struct_rand_pool_info + sizeof_char * len);
  newExcCls ← match rand_info with
    | Some block =>
        let entropy_count := to_jint (len ≪ 3) in
        let buf_size := to_jint len in
        let buf := drop (Z.to_nat sizeof_struct_rand_pool_info) block in
        body ← GetByteArrayElements randomData;
        r ← match body with
          | Some body =>
              buf ← for_lt len (λ c buf,
                      b ← load body c;
                      store buf c (to_char b)) buf;
              ReleaseByteArrayElements;;
              (* Second, add this random data to the kernel *)
              fdout ← open (c_literal "/dev/random") O_WRONLY;
              if decide (fdout > 0) then
                r ← ioctl fdout RNDADDENTROPY
                      {| entropy_count := entropy_count;
                         buf_size := buf_size;
                         buf := buf |};
                newExcCls ← (if decide (r ≠ 0)
                             then e ← get_errno; FindClass (class_name (getErrorType e))
                             else mret None);
                close fdout;;
                mret newExcCls
              else e ← get_errno; FindClass (class_name (getErrorType e))
          | None => e ← get_errno; FindClass (class_name (getErrorType e))
          end;
        free;;
        mret r
    | None => e ← get_errno; FindClass (class_name (getErrorType e))
    end;
  (* Throw any exceptions *)
  match newExcCls with
  | Some cls => e ← get_errno; ThrowNew cls (strerror e)
  | None => mret ()
  end.

End PosixFile.


Section PosixFile_create.
Context {K : Type} {kern : Kernel K} {fsk : KernelFiles K} {plat : Platform}
        {sys_stat : SysStat}.

(** Method mktemp0 (lines 186-209). *)
Definition Java_com_aoapps_io_posix_PosixFile_mktemp0
    (jtemplate : jstring) : M K (option jstring) :=
  template ← getString8859_1Chars jtemplate;
  '(newExcCls, jfilename) ← match template with
    | Some template =>
        n ← strlen template;
        let len := to_jint (n + 1) in
        filename ← malloc len;
        r ← match filename with
          | Some filename =>
              filename ← Libc.memcpy filename template len;
              '(fd, filename) ← Libc.mkstemp filename;
              let fd := to_jint fd in
              r ← (if decide (fd ≠ -1) then
                     c ← close fd;
                     if decide (c = 0) then
                       jfilename ← newString8859_1 filename;
                       mret (None, jfilename)
                     else
                       e ← get_errno;
                       cls ← FindClass (class_name (getErrorType e));
                       mret (cls, None)
                   else
                     e ← get_errno;
                     cls ← FindClass (class_name (getErrorType e));
                     mret (cls, None));
              free;;
              mret r
          | None =>
              e ← get_errno;
              cls ← FindClass (class_name (getErrorType e));
              mret (cls, None)
          end;
        releaseString8859_1Chars;;
        mret r
    | None => mret (None, None)
    end;
  match newExcCls with
  | Some cls => e ← get_errno; ThrowNew cls (strerror e)
  | None => mret ()
  end;;
  mret jfilename.

(** Method mknod0 (lines 216-225). *)
Definition Java_com_aoapps_io_posix_PosixFile_mknod0
    (jfilename : jstring) (mode device : Z) : M K () :=
  filename ← getString8859_1Chars jfilename;
  newExcCls ← match filename with
    | Some filename =>
        r ← Libc.mknod filename mode device;
        newExcCls ← (if decide (r ≠ 0)
                     then e ← get_errno; FindClass (class_name (getErrorType e))
                     else mret None);
        releaseString8859_1Chars;;
        mret newExcCls
    | None => mret None
    end;
  match newExcCls with
  | Some cls => e ← get_errno; ThrowNew cls (strerror e)
  | None => mret ()
  end.

(** Method mkfifo0 (lines 232-241). *)
Definition Java_com_aoapps_io_posix_PosixFile_mkfifo0
    (jfilename : jstring) (mode : Z) : M K () :=
  filename ← getString8859_1Chars jfilename;
  newExcCls ← match filename with
    | Some filename =>
        r ← Libc.mknod filename (Z.lor S_IFIFO mode) 0;
        newExcCls ← (if decide (r ≠ 0)
                     then e ← get_errno; FindClass (class_name (getErrorType e))
                     else mret None);
        releaseString8859_1Chars;;
        mret newExcCls
    | None => mret None
    end;
  match newExcCls with
  | Some cls => e ← get_errno; ThrowNew cls (strerror e)
  | None => mret ()
  end.

(** Method setMode0 (lines 248-257). *)
Definition Java_com_aoapps_io_posix_PosixFile_setMode0
    (jfilename : jstring) (mode : Z) : M K () :=
  filename ← getString8859_1Chars jfilename;
  newExcCls ← match filename with
    | Some filename =>
        r ← Libc.chmod filename mode;
        newExcCls ← (if decide (r ≠ 0)
                     then e ← get_errno; FindClass (class_name (getErrorType e))
                     else mret None);
        releaseString8859_1Chars;;
        mret newExcCls
    | None => mret None
    end;
  match newExcCls with
  | Some cls => e ← get_errno; ThrowNew cls (strerror e)
  | None => mret ()
  end.

(** Method symLink0 (lines 264-277). *)
Definition Java_com_aoapps_io_posix_PosixFile_symLink0
    (jfilename jdestination : jstring) : M K () :=
  filename ← getString8859_1Chars jfilename;
  newExcCls ← match filename with
    | Some filename =>
        destination ← getString8859_1Chars jdestination;
        r ← match destination with
          | Some destination =>
              r ← Libc.symlink destination filename;
              newExcCls ← (if decide (r ≠ 0)
                           then e ← get_errno; FindClass (class_name (getErrorType e))
                           else mret None);
              releaseString8859_1Chars;;
              mret newExcCls
          | None => mret None
          end;
        releaseString8859_1Chars;;
        mret r
    | None => mret None
    end;
  match newExcCls with
  | Some cls => e ← get_errno; ThrowNew cls (strerror e)
  | None => mret ()
  end.

(** Method link0 (lines 284-297). *)
Definition Java_com_aoapps_io_posix_PosixFile_link0
    (jfilename jdestination : jstring) : M K () :=
  filename ← getString8859_1Chars jfilename;
  newExcCls ← match filename with
    | Some filename =>
        destination ← getString8859_1Chars jdestination;
        r ← match destination with
          | Some destination =>
              r ← Libc.link destination filename;
              newExcCls ← (if decide (r ≠ 0)
                           then e ← get_errno; FindClass (class_name (getErrorType e))
                           else mret None);
              releaseString8859_1Chars;;
              mret newExcCls
          | None => mret None
          end;
        releaseString8859_1Chars;;
        mret r
    | None => mret None
    end;
  match newExcCls with
  | Some cls => e ← get_errno; ThrowNew cls (strerror e)
  | None => mret ()
  end.

End PosixFile_create.

(** What a native method leaves pending after a system call: what was
    pending before when the call succeeded, and when it failed with [e] the
    class [getErrorType] gives for [e], with the text of [e]. *)
Definition raised_for {plat : Platform} {A} (r : sysret A)
    (before : option Throwable) : option Throwable :=
  match r with
  | Ok _ => before
  | Err e => Some (Thrown (class_name (getErrorType e)) (strerror e))
  end.

(** Two runs that both return, with the same result, and leave the same
    kernel, errno and pending exception. *)
Definition same_effect {K A} (r r' : option (A * World K)) : Prop :=
  match r, r' with
  | Some (a, w), Some (a', w') =>
      a = a' ∧ kernel w = kernel w' ∧ errno w = errno w' ∧ pending w = pending w'
  | _, _ => False
  end.

End Posix.

(** ** The older binding generation (com/aoindustries/io/unix) *)
Module Unix.

(** *** src/com/aoindustries/io/unix/aocode_shared.c *)

(** Gets the proper exception type for the provided errno (lines 32-54). *)
Definition getErrorType {plat : Platform} (err : Z) : ExceptionClass :=
  if err =? EACCES then SECURITY_EXCEPTION
  else if err =? EBADF then IO_EXCEPTION
  else if err =? EEXIST then IO_EXCEPTION
  else if err =? EFAULT then RUNTIME_EXCEPTION
  else if err =? EINTR then INTERRUPTED_IO_EXCEPTION
  else if err =? EINVAL then ILLEGAL_ARGUMENT_EXCEPTION
  else if err =? EIO then IO_EXCEPTION
  else if err =? ELOOP then FILE_NOT_FOUND_EXCEPTION
  else if err =? EMLINK then IO_EXCEPTION
  else if err =? ENAMETOOLONG then ILLEGAL_ARGUMENT_EXCEPTION
  else if err =? ENOENT then FILE_NOT_FOUND_EXCEPTION
  else if err =? ENOMEM then OUT_OF_MEMORY_EXCEPTION
  else if err =? ENOSPC then IO_EXCEPTION
  else if err =? ENOSYS then NO_SUCH_METHOD_EXCEPTION
  else if err =? ENOTDIR then IO_EXCEPTION
  else if err =? EPERM then SECURITY_EXCEPTION
  else if err =? EROFS then IO_EXCEPTION
  else if err =? EXDEV then IO_EXCEPTION
  else RUNTIME_EXCEPTION.

Section UnixFile.
Context {K : Type} {kern : Kernel K} {plat : Platform}.

(** *** src/com/aoindustries/io/unix/com_aoindustries_io_unix_UnixFile.c *)

(** Method getStat0 (lines 61-147).  It returns nothing: it calls the
    init method of the Stat object [jstat] it was given.  The result
    here is what that object is initialised to, if the call is
    reached. *)
Definition Java_com_aoindustries_io_unix_UnixFile_getStat0
    (jfilename : jstring) : M K (option Stat) :=
  filename ← getString8859_1Chars jfilename;
  '(newExcCls, jstat) ← match filename with
    | Some filename =>
        (* Perform the stat into the stat buffer *)
        buff ← malloc sizeof_struct_stat;
        r ← match buff with
          | Some _ =>
              st ← lstat filename;
              '(newExcCls, locals) ← match st with
                | Some buff =>
                    mret (None, Some {|
                      exists_          := JNI_TRUE;
                      device           := to_jlong (st_dev buff);
                      inode            := to_jlong (st_ino buff);
                      mode             := to_jlong (st_mode buff);
                      numberLinks      := to_jint (st_nlink buff);
                      uid              := to_jint (st_uid buff);
                      gid              := to_jint (st_gid buff);
                      deviceIdentifier := to_jlong (st_rdev buff);
                      size             := to_jlong (st_size buff);
                      blockSize        := to_jint (st_blksize buff);
                      blockCount       := to_jlong (st_blocks buff);
                      accessTime       := to_jlong (to_jlong (st_atime buff) * 1000);
                      modifyTime       := to_jlong (to_jlong (st_mtime buff) * 1000);
                      changeTime       := to_jlong (to_jlong (st_ctime buff) * 1000)
                    |})
                | None =>
                    e ← get_errno;
                    if decide (e = ENOENT ∨ e = ENOTDIR)
                    then mret (None, Some {|
                      exists_          := JNI_FALSE;
                      device           := 0;
                      inode            := 0;
                      mode             := 0;
                      numberLinks      := 0;
                      uid              := 0;
                      gid              := 0;
                      deviceIdentifier := 0;
                      size             := 0;
                      blockSize        := 0;
                      blockCount       := 0;
                      accessTime       := 0;
                      modifyTime       := 0;
                      changeTime       := 0
                    |})
                    else cls ← FindClass (class_name (getErrorType e));
                         mret (cls, None)
                end;
              free;;
              jstat ← match newExcCls with
                | None =>
                    statClass ← FindClass "com/aoindustries/io/unix/Stat";
                    match statClass with
                    | Some statClass =>
                        statInitMethod ← GetMethodID statClass "init"
                          "(Lcom/aoindustries/io/unix/UnixFile;ZJJJIIIJJIJJJJ)V";
                        match statInitMethod with
                        | Some _ => l ← read locals; CallVoidMethod l
                        | None => mret None
                        end
                    | None => mret None
                    end
                | Some _ => mret None
                end;
              mret (newExcCls, jstat)
          | None =>
              e ← get_errno;
              cls ← FindClass (class_name (getErrorType e));
              mret (cls, None)
          end;
        releaseString8859_1Chars;;
        mret r
    | None => mret (None, None)
    end;
  match newExcCls with
  | Some cls => e ← get_errno; ThrowNew cls (strerror e)
  | None => mret ()
  end;;
  mret jstat.

End UnixFile.

End Unix.

(** ** A small file system on which the wrappers run

    One instance of [Kernel]: named nodes with their status, symbolic links
    with their contents, and the entropy requests received so far. *)

Record node := { attrs : stat; link : option (list Z) }.

Record Disk := { files : gmap (list Z) node; pool : list rand_pool_info }.

Section disk.
Context {plat : Platform}.

Definition set_owner (o g : Z) (n : node) : node :=
  let a := attrs n in
  {| attrs := {| st_dev := st_dev a; st_ino := st_ino a; st_mode := st_mode a;
                 st_nlink := st_nlink a; st_uid := o; st_gid := g;
                 st_rdev := st_rdev a; st_size := st_size a;
                 st_blksize := st_blksize a; st_blocks := st_blocks a;
                 st_atime := st_atime a; st_mtime := st_mtime a;
                 st_ctime := st_ctime a |};
     link := link n |}.

Definition set_times (t : utimbuf) (n : node) : node :=
  let a := attrs n in
  {| attrs := {| st_dev := st_dev a; st_ino := st_ino a; st_mode := st_mode a;
                 st_nlink := st_nlink a; st_uid := st_uid a; st_gid := st_gid a;
                 st_rdev := st_rdev a; st_size := st_size a;
                 st_blksize := st_blksize a; st_blocks := st_blocks a;
                 st_atime := actime t; st_mtime := modtime t;
                 st_ctime := st_ctime a |};
     link := link n |}.

Definition disk_update (p : list Z) (f : node → node) (d : Disk) : sysret () * Disk :=
  match files d !! p with
  | Some n => (Ok (), {| files := <[p := f n]> (files d); pool := pool d |})
  | None => (Err ENOENT, d)
  end.

Definition disk_lstat (p : list Z) (d : Disk) : sysret stat :=
  match files d !! p with
  | Some n => Ok (attrs n)
  | None => Err ENOENT
  end.

Definition disk_readlink (p : list Z) (d : Disk) : sysret (list Z) :=
  match files d !! p with
  | Some n => match link n with Some target => Ok target | None => Err EINVAL end
  | None => Err ENOENT
  end.

Definition disk_open (p : list Z) (flags : Z) (d : Disk) : sysret Z * Disk :=
  match files d !! p with
  | Some _ => (Ok 3, d)
  | None => (Err ENOENT, d)
  end.

Definition disk_ioctl (fd request : Z) (arg : rand_pool_info) (d : Disk)
    : sysret () * Disk :=
  if decide (fd = 3 ∧ request = RNDADDENTROPY)
  then (if decide (0 ≤ entropy_count arg)
        then (Ok (), {| files := files d; pool := pool d ++ [arg] |})
        else (Err EINVAL, d))
  else (Err EBADF, d).

Definition disk_close (fd : Z) (d : Disk) : sysret () * Disk :=
  if decide (fd = 3) then (Ok (), d) else (Err EBADF, d).

Global Instance disk_kernel : Kernel Disk := {|
  k_lchown p o g := disk_update p (set_owner o g);
  k_lstat := disk_lstat;
  k_readlink := disk_readlink;
  k_utime p t := disk_update p (set_times t);
  k_open := disk_open;
  k_ioctl := disk_ioctl;
  k_close := disk_close
|}.

Definition plain_file : node := {|
  attrs := {| st_dev := 2049; st_ino := 131; st_mode := 33188; st_nlink := 1;
              st_uid := 1000; st_gid := 1000; st_rdev := 0; st_size := 12;
              st_blksize := 4096; st_blocks := 8;
              st_atime := 1600000000; st_mtime := 1600000001;
              st_ctime := 1600000002 |};
  link := None |}.

Definition symlink_to (target : list Z) : node := {|
  attrs := {| st_dev := 2049; st_ino := 132; st_mode := 41471; st_nlink := 1;
              st_uid := 1000; st_gid := 1000; st_rdev := 0;
              st_size := Z.of_nat (length target);
              st_blksize := 4096; st_blocks := 0;
              st_atime := 1600000000; st_mtime := 1600000001;
              st_ctime := 1600000002 |};
  link := Some target |}.

(** A disk holding /etc/motd, the link /etc/mtab and /dev/random. *)
Definition disk0 : Disk := {|
  files := <[chars "/etc/motd" := plain_file]>
           (<[chars "/etc/mtab" := symlink_to (chars "../proc/self/mounts")]>
           (<[chars "/dev/random" := plain_file]> ∅));
  pool := []
|}.

(** A native call entered with nothing pending and no failure scripted. *)
Definition world0 (d : Disk) : World Disk := {|
  kernel := d; errno := 0; faults := []; garbage := λ i, Z.of_nat i `mod` 7 - 3;
  pending := None; trace := []
|}.

End disk.


(** The same file system with the calls that create and change files. *)
Section disk_files.
Context {plat : Platform}.

Definition disk_create (p : list Z) (n : node) (d : Disk) : sysret () * Disk :=
  match files d !! p with
  | Some _ => (Err EEXIST, d)
  | None => (Ok (), {| files := <[p := n]> (files d); pool := pool d |})
  end.

Definition node_of_mode (mode dev : Z) : node := {|
  attrs := {| st_dev := 2049; st_ino := 133; st_mode := mode; st_nlink := 1;
              st_uid := 0; st_gid := 0; st_rdev := dev; st_size := 0;
              st_blksize := 4096; st_blocks := 0;
              st_atime := 1600000000; st_mtime := 1600000000;
              st_ctime := 1600000000 |};
  link := None |}.

Definition set_mode (mode : Z) (n : node) : node :=
  let a := attrs n in
  {| attrs := {| st_dev := st_dev a; st_ino := st_ino a;
                 st_mode := Z.lor (Z.land (st_mode a) 61440) (Z.land mode 4095);
                 st_nlink := st_nlink a; st_uid := st_uid a; st_gid := st_gid a;
                 st_rdev := st_rdev a; st_size := st_size a;
                 st_blksize := st_blksize a; st_blocks := st_blocks a;
                 st_atime := st_atime a; st_mtime := st_mtime a;
                 st_ctime := st_ctime a |};
     link := link n |}.

Definition disk_link (oldpath newpath : list Z) (d : Disk) : sysret () * Disk :=
  match files d !! oldpath with
  | Some n => disk_create newpath n d
  | None => (Err ENOENT, d)
  end.

(** The six characters that take the place of XXXXXX. *)
Definition disk_suffix : list Z := chars "q7Zk2m".

Definition disk_mkstemp (template : list Z) (d : Disk) : sysret (Z * list Z) * Disk :=
  let stem := take (length template - 6) template in
  if decide (drop (length template - 6) template = chars "XXXXXX")
  then match disk_create (stem ++ disk_suffix) plain_file d with
       | (Ok _, d') => (Ok (3, stem ++ disk_suffix), d')
       | (Err e, d') => (Err e, d')
       end
  else (Err EINVAL, d).

Global Instance disk_kernel_files : KernelFiles Disk := {|
  k_mknod p mode dev := disk_create p (node_of_mode mode dev);
  k_chmod p mode := disk_update p (set_mode mode);
  k_symlink target linkpath := disk_create linkpath (symlink_to target);
  k_link := disk_link;
  k_mkstemp := disk_mkstemp
|}.

(** A native call entered while the runtime will answer its next requests
    from [script]: [false] is a request that fails. *)
Definition world_with (script : list bool) (d : Disk) : World Disk := {|
  kernel := d; errno := 0; faults := script; garbage := λ i, Z.of_nat i `mod` 7 - 3;
  pending := None; trace := []
|}.

End disk_files.

(** ** A kernel that answers from a table

    The state is the table and the number of calls made; the calls the
    table does not list fail with EIO. *)

Record Table := {
  on_lstat : sysret stat;
  on_open : sysret Z;
  on_ioctl : sysret ();
  on_close : sysret ();
  on_mkstemp : sysret (Z * list Z)
}.

Record Counted := { answers : Table; calls : nat }.

Section table.
Context {plat : Platform}.

Definition answer {A} (r : Table → sysret A) (c : Counted) : sysret A * Counted :=
  (r (answers c), {| answers := answers c; calls := S (calls c) |}).

Global Instance table_kernel : Kernel Counted := {|
  k_lchown _ _ _ := answer (λ _, Err EIO);
  k_lstat _ c := on_lstat (answers c);
  k_readlink _ _ := Err EIO;
  k_utime _ _ := answer (λ _, Err EIO);
  k_open _ _ := answer on_open;
  k_ioctl _ _ _ := answer on_ioctl;
  k_close _ := answer on_close
|}.

Global Instance table_kernel_files : KernelFiles Counted := {|
  k_mknod _ _ _ := answer (λ _, Err EIO);
  k_chmod _ _ := answer (λ _, Err EIO);
  k_symlink _ _ := answer (λ _, Err EIO);
  k_link _ _ := answer (λ _, Err EIO);
  k_mkstemp _ := answer on_mkstemp
|}.

(** A table of failures: the device opens as descriptor 4, a temporary
    file is made, and nothing else works. *)
Definition failures : Table := {|
  on_lstat := Err EACCES;
  on_open := Ok 4;
  on_ioctl := Err EPERM;
  on_close := Err EIO;
  on_mkstemp := Ok (4, chars "/tmp/f.q7Zk2m")
|}.

(** A table on which the device opens as descriptor 0. *)
Definition descriptor_zero : Table := {|
  on_lstat := Err EACCES;
  on_open := Ok 0;
  on_ioctl := Ok ();
  on_close := Ok ();
  on_mkstemp := Err EACCES
|}.

(** A table on which every path is a file of the user and group
    4294967294. *)
Definition owned_by_nobody : Table := {|
  on_lstat := Ok (attrs (set_owner 4294967294 4294967294 plain_file));
  on_open := Err EACCES;
  on_ioctl := Err EBADF;
  on_close := Err EBADF;
  on_mkstemp := Err EACCES
|}.

(** A native call entered on that kernel. *)
Definition table_world (tb : Table) (script : list bool) : World Counted := {|
  kernel := {| answers := tb; calls := 0 |}; errno := 0; faults := script;
  garbage := λ _, 0; pending := None; trace := []
|}.

End table.

(** * Properties *)

Arguments wrap : simpl never.
Arguments to_jint : simpl never.
Arguments to_jlong : simpl never.
Arguments to_char : simpl never.
Arguments to_uchar : simpl never.
Arguments to_size_t : simpl never.
Arguments to_time_t : simpl never.
Arguments indeterminate : simpl never.
Arguments chars : simpl never.
Arguments c_path : simpl never.
Arguments latin1_buffer : simpl never.
Arguments Z.to_nat : simpl never.
Arguments Z.of_nat : simpl never.
Arguments Z.mul : simpl never.
Arguments Z.add : simpl never.
Arguments Z.shiftl : simpl never.
Arguments Z.quot : simpl never.

(** ** Machine integers *)

Lemma wrap_small (bits z : Z) : 0 < bits → in_range bits z → wrap bits z = z.
Proof.
  unfold in_range, wrap. intros Hb Hz.
  assert (2 ^ bits = 2 * 2 ^ (bits - 1)) as ->.
  { rewrite <- Z.pow_succ_r by lia. f_equal. lia. }
  rewrite Z.mod_small; lia.
Qed.

Lemma to_jint_small (z : Z) : is_jint z → to_jint z = z.
Proof. by apply wrap_small. Qed.

Lemma to_jlong_small (z : Z) : is_jlong z → to_jlong z = z.
Proof. by apply wrap_small. Qed.

Section chars.
Context {plat : Platform}.

(** Read as unsigned, a [char] made from a value is that value modulo 256. *)
Lemma to_uchar_to_char_mod (z : Z) : to_uchar (to_char z) = to_uchar z.
Proof.
  unfold to_uchar, to_char, wrap. destruct char_is_signed.
  - change (2 ^ (8 - 1)) with 128. change (2 ^ 8) with 256.
    Z.to_euclidean_division_equations. lia.
  - apply Zmod_mod.
Qed.

Lemma to_uchar_to_char (u : Z) : 0 ≤ u ≤ 255 → to_uchar (to_char u) = u.
Proof.
  intros Hu. rewrite to_uchar_to_char_mod. unfold to_uchar.
  apply Z.mod_small. lia.
Qed.

Lemma to_char_eq_0 (u : Z) : 0 ≤ u ≤ 255 → to_char u = 0 ↔ u = 0.
Proof.
  intros Hu. split.
  - intros H0. rewrite <- (to_uchar_to_char u) by done. by rewrite H0.
  - intros ->. unfold to_char. by destruct char_is_signed.
Qed.

Lemma to_char_question : to_char 63 = 63.
Proof. unfold to_char. by destruct char_is_signed. Qed.

End chars.

Lemma length_indeterminate (g : nat → Z) (n : Z) :
  length (indeterminate g n) = Z.to_nat n.
Proof. unfold indeterminate. by rewrite length_fmap, length_seq. Qed.

(** ** Running the monad *)

Section running.
Context {K : Type} {kern : Kernel K} {plat : Platform}.

Lemma bind_run {A B} (m : M K A) (k : A → M K B) (w w' : World K) (a : A) :
  m w = Some (a, w') → (m ≫= k) w = k a w'.
Proof. intros Hm. unfold mbind, M_bind. by rewrite Hm. Qed.

Lemma bind_assoc_run {A B C} (m : M K A) (f : A → M K B) (g : B → M K C)
    (w : World K) :
  ((m ≫= f) ≫= g) w = (m ≫= λ a, f a ≫= g) w.
Proof. unfold mbind, M_bind. by destruct (m w) as [[a w']|]. Qed.

Lemma load_run (a : list Z) (i : nat) (c : Z) (w : World K) :
  a !! i = Some c → load a (Z.of_nat i) w = Some (c, w).
Proof.
  intros Hc. unfold load. rewrite decide_True by lia.
  by rewrite Nat2Z.id, Hc.
Qed.

Lemma store_run (a : list Z) (i : nat) (v : Z) (w : World K) :
  (i < length a)%nat → store a (Z.of_nat i) v w = Some (<[i := v]> a, w).
Proof.
  intros Hi. unfold store. rewrite decide_True by lia. by rewrite Nat2Z.id.
Qed.

(** A loop that fills [dst] cell by cell from [src] through [f]. *)
Lemma for_from_fill (body : Z → list Z → M K (list Z)) (f : Z → Z) (src : list Z) :
  (∀ (j : nat) (a : list Z) (w : World K) (c : Z),
      src !! j = Some c → (j < length a)%nat →
      body (Z.of_nat j) a w = Some (<[j := f c]> a, w)) →
  ∀ (n i : nat) (dst : list Z) (w : World K),
    (i + n ≤ length src)%nat → (i + n ≤ length dst)%nat →
    for_from (Z.of_nat i) n body dst w
    = Some (take i dst ++ (f <$> take n (drop i src)) ++ drop (i + n) dst, w).
Proof.
  intros Hbody. induction n as [|n IH]; intros i dst w Hs Hd.
  - rewrite Nat.add_0_r, take_0. cbn. by rewrite take_drop.
  - destruct (lookup_lt_is_Some_2 src i) as [c Hc]; [lia|].
    cbn [for_from]. erewrite bind_run by (apply Hbody; [done|lia]).
    replace (Z.of_nat i + 1) with (Z.of_nat (S i)) by lia.
    rewrite IH by (rewrite ?length_insert; lia). f_equal. f_equal.
    rewrite (drop_S src c i Hc). cbn [take fmap list_fmap].
    rewrite drop_insert_lt by lia.
    replace (S i + n)%nat with (i + S n)%nat by lia.
    rewrite (take_S_r (<[i:=f c]> dst) i (f c)).
    2:{ apply list_lookup_insert_eq. lia. }
    rewrite take_insert_ge by lia. by rewrite <- app_assoc.
Qed.

Lemma for_lt_fill (body : Z → list Z → M K (list Z)) (f : Z → Z) (src dst : list Z)
    (n : nat) (w : World K) :
  (∀ (j : nat) (a : list Z) (w : World K) (c : Z),
      src !! j = Some c → (j < length a)%nat →
      body (Z.of_nat j) a w = Some (<[j := f c]> a, w)) →
  (n ≤ length src)%nat → (n ≤ length dst)%nat →
  for_lt (Z.of_nat n) body dst w = Some ((f <$> take n src) ++ drop n dst, w).
Proof.
  intros Hbody Hs Hd. unfold for_lt. rewrite Nat2Z.id.
  change 0 with (Z.of_nat 0).
  by rewrite (for_from_fill body f src Hbody) by (cbn; lia).
Qed.

(** ** C strings *)

Lemma c_str_app (p r : list Z) : c_str (p ++ (0 :: r)) = Some (until_nul p).
Proof.
  induction p as [|c p IH]; [done|]. cbn.
  destruct (Z.eqb_spec c 0); [done|]. by rewrite IH.
Qed.

Lemma c_str_Some (s p : list Z) :
  c_str s = Some p → (0 ∉ p) ∧ (∃ r, s = p ++ (0 :: r)).
Proof.
  revert p. induction s as [|c s IH]; intros p; [done|]. cbn.
  destruct (Z.eqb_spec c 0) as [->|Hc].
  - intros [= <-]. split; [apply not_elem_of_nil | by exists s].
  - destruct (c_str s) as [q|]; [|done]. intros [= <-].
    destruct (IH q eq_refl) as [Hq [r ->]].
    split; [|by exists r]. apply not_elem_of_cons. split; [congruence|done].
Qed.

Lemma c_str_until_nul (s : list Z) : c_str (s ++ [0]) = Some (until_nul s).
Proof. apply c_str_app. Qed.

Lemma until_nul_id (s : list Z) : 0 ∉ s → until_nul s = s.
Proof.
  induction s as [|c s IH]; intros Hs; [done|].
  apply not_elem_of_cons in Hs as [Hc Hs]. cbn.
  destruct (Z.eqb_spec c 0); [congruence|]. by rewrite IH.
Qed.

Lemma until_nul_length (s : list Z) : (length (until_nul s) ≤ length s)%nat.
Proof.
  induction s as [|c s IH]; cbn; [lia|].
  destruct (Z.eqb_spec c 0); cbn; lia.
Qed.

Lemma until_nul_shorter (s : list Z) :
  0 ∈ s → (length (until_nul s) < length s)%nat.
Proof.
  induction s as [|c s IH]; intros Hs; [by apply elem_of_nil in Hs|].
  cbn. destruct (Z.eqb_spec c 0); cbn; [lia|].
  apply elem_of_cons in Hs as [?|Hs]; [congruence|]. specialize (IH Hs). lia.
Qed.

Lemma until_nul_subseteq (s : list Z) : until_nul s ⊆ s.
Proof.
  induction s as [|c s IH]; cbn; [done|].
  destruct (Z.eqb_spec c 0); [apply list_subseteq_nil|].
  intros x [->|Hx]%elem_of_cons; [left|right; by apply IH].
Qed.

Lemma until_nul_lookup (s : list Z) : 0 ∈ s → s !! length (until_nul s) = Some 0.
Proof.
  induction s as [|c s IH]; intros Hs; [by apply elem_of_nil in Hs|].
  cbn. destruct (Z.eqb_spec c 0) as [->|Hc]; [done|]. cbn.
  apply elem_of_cons in Hs as [?|Hs]; [congruence|]. by apply IH.
Qed.

Lemma until_nul_fmap (f : Z → Z) (s : list Z) :
  Forall (λ c, f c = 0 ↔ c = 0) s → until_nul (f <$> s) = f <$> until_nul s.
Proof.
  intros Hs. induction Hs as [|c s Hc Hs IH]; [done|]. cbn.
  destruct (Z.eqb_spec (f c) 0) as [Hf|Hf], (Z.eqb_spec c 0) as [Hn|Hn];
    try done; try tauto.
  by rewrite IH.
Qed.

End running.

(** ** The classifier *)

Lemma class_name_inj (c d : ExceptionClass) : class_name c = class_name d → c = d.
Proof. by destruct c, d. Qed.

Lemma linux_errno_distinct : @errno_distinct linux_x86_64.
Proof. apply (bool_decide_unpack _). by vm_compute. Qed.

Section classifier.
Context {plat : Platform}.

(** Pairwise distinctness, unpacked for [congruence]. *)
Ltac unpack_distinct Hd :=
  unfold errno_distinct, errnos in Hd;
  repeat (apply NoDup_cons in Hd as [? Hd]);
  repeat match goal with
         | Hn : _ ∉ (_ :: _) |- _ => apply not_elem_of_cons in Hn as [? Hn]
         end.

Ltac run_chain :=
  unfold Posix.getErrorType;
  repeat match goal with
         | |- context [ ?a =? ?b ] =>
             destruct (Z.eqb_spec a b); try congruence
         end.

Lemma getErrorType_listed (err : Z) (c : ExceptionClass) :
  errno_distinct →
  (err, c) ∈ [ (EACCES, SECURITY_EXCEPTION); (EPERM, SECURITY_EXCEPTION);
               (EBADF, IO_EXCEPTION); (EEXIST, IO_EXCEPTION); (EIO, IO_EXCEPTION);
               (EMLINK, IO_EXCEPTION); (ENOSPC, IO_EXCEPTION);
               (ENOTDIR, IO_EXCEPTION); (EROFS, IO_EXCEPTION); (EXDEV, IO_EXCEPTION);
               (EFAULT, RUNTIME_EXCEPTION);
               (EINTR, INTERRUPTED_IO_EXCEPTION);
               (EINVAL, ILLEGAL_ARGUMENT_EXCEPTION);
               (ENAMETOOLONG, ILLEGAL_ARGUMENT_EXCEPTION);
               (ELOOP, FILE_NOT_FOUND_EXCEPTION); (ENOENT, FILE_NOT_FOUND_EXCEPTION);
               (ENOMEM, OUT_OF_MEMORY_EXCEPTION);
               (ENOSYS, NO_SUCH_METHOD_EXCEPTION) ] →
  Posix.getErrorType err = c.
Proof.
  intros Hd Hin. unpack_distinct Hd.
  repeat (apply elem_of_cons in Hin as [Hin|Hin];
          [ injection Hin as -> ->; run_chain | ]).
  by apply elem_of_nil in Hin.
Qed.

Lemma getErrorType_unlisted (err : Z) :
  err ∉ errnos → Posix.getErrorType err = RUNTIME_EXCEPTION.
Proof.
  unfold errnos. intros Hn.
  repeat (apply not_elem_of_cons in Hn as [? Hn]).
  run_chain.
Qed.

End classifier.

(** One step of a run: the first action of a bind computes to its result. *)
Ltac tidy := cbn [kernel errno faults garbage pending trace].
Ltac step := rewrite ?bind_assoc_run; erewrite bind_run by reflexivity; tidy.
Ltac steps := repeat step.
Tactic Notation "step_with" tactic3(tac) :=
  rewrite ?bind_assoc_run; erewrite bind_run by tac; tidy.
Tactic Notation "step_by" uconstr(lem) :=
  rewrite ?bind_assoc_run; erewrite bind_run by (eapply lem; tidy; eauto; try lia); tidy.

Section jni_util.
Context {K : Type} {kern : Kernel K} {plat : Platform}.

Lemma malloc_size (n : Z) : 0 ≤ n < 2 ^ 31 → to_size_t (to_jint n) = n.
Proof.
  intros Hn. rewrite to_jint_small by (unfold is_jint, in_range; lia).
  unfold to_size_t. rewrite Z.mod_small; lia.
Qed.

Lemma getString8859_1Chars_run (jstr : jstring) (w : World K) :
  faults w = [] →
  Z.of_nat (length jstr) < 2 ^ 31 - 1 →
  getString8859_1Chars jstr w
  = Some (Some (latin1_buffer jstr),
          log [EvMalloc (Z.of_nat (length jstr) + 1)] w).
Proof.
  destruct w as [k e fs g p t]. cbn. intros -> Hlen.
  unfold getString8859_1Chars. steps.
  rewrite malloc_size by lia.
  erewrite bind_run.
  2:{ apply (for_lt_fill _ (λ unicode, to_char (latin1 unicode))).
      - intros j a w c Hc Hj. erewrite bind_run by (by apply load_run).
        unfold latin1. destruct (decide (c ≤ 255)); by apply store_run.
      - done.
      - rewrite length_indeterminate. lia. }
  rewrite firstn_all.
  assert (∃ x, drop (length jstr) (indeterminate g (Z.of_nat (length jstr) + 1)) = [x])
    as [x ->].
  { pose proof (length_drop (indeterminate g (Z.of_nat (length jstr) + 1))
                  (length jstr)) as Hd.
    rewrite length_indeterminate in Hd.
    destruct (drop _ _) as [|x [|y l]]; cbn in Hd; try lia. by exists x. }
  erewrite bind_run.
  2:{ apply store_run. rewrite length_app, length_fmap. cbn. lia. }
  step. unfold log, latin1_buffer. cbn. do 3 f_equal.
  rewrite <- (length_fmap (λ unicode, to_char (latin1 unicode)) jstr) at 1.
  rewrite insert_app_r_alt by lia. by rewrite Nat.sub_diag.
Qed.

Lemma newString8859_1_run (str p : list Z) (w : World K) :
  c_str str = Some p →
  faults w = [] →
  Z.of_nat (length p) < 2 ^ 31 →
  newString8859_1 str w
  = Some (Some (to_uchar <$> p),
          if decide (Z.of_nat (length p) > 512)
          then log [EvMalloc (Z.of_nat (length p) * 2)] w else w).
Proof.
  destruct w as [k e fs g ex t]. cbn. intros Hp -> Hlen.
  apply c_str_Some in Hp as Hstr. destruct Hstr as [_ [r ->]].
  unfold newString8859_1, strlen. rewrite Hp. steps.
  rewrite to_jint_small by (unfold is_jint, in_range; lia).
  assert (∀ (dst : list Z) (w : World K), (length p ≤ length dst)%nat →
    for_lt (Z.of_nat (length p))
      (λ i str1, c ← load (p ++ 0 :: r) i; store str1 i (to_uchar c)) dst w
    = Some ((to_uchar <$> p) ++ drop (length p) dst, w)) as Hloop.
  { intros dst w Hd.
    rewrite (for_lt_fill _ to_uchar (p ++ 0 :: r)); [|  | |done].
    - by rewrite take_app_length.
    - intros j a w' c Hc Hj. erewrite bind_run by (by apply load_run).
      by apply store_run.
    - rewrite length_app. lia. }
  destruct (decide (Z.of_nat (length p) > 512)) as [Hbig|Hsmall].
  - steps. cbn [fmap option_fmap option_map].
    erewrite bind_run.
    2:{ apply Hloop. unfold as_jchars. rewrite length_take, length_indeterminate.
        unfold to_size_t, sizeof_jchar. rewrite Z.mod_small by lia.
        replace (Z.to_nat (Z.of_nat (length p) * 2)) with (length p * 2)%nat by lia.
        rewrite Nat.div_mul by done. lia. }
    unfold NewString. rewrite decide_True.
    2:{ rewrite length_app, length_fmap. lia. }
    steps. unfold log. cbn. rewrite Nat2Z.id, take_app_length'.
    2:{ by rewrite length_fmap. }
    unfold to_size_t, sizeof_jchar. by rewrite Z.mod_small by lia.
  - steps.
    erewrite bind_run.
    2:{ apply Hloop. rewrite length_indeterminate. lia. }
    unfold NewString. rewrite decide_True.
    2:{ rewrite length_app, length_fmap. lia. }
    steps. cbn. rewrite Nat2Z.id, take_app_length'; [done|].
    by rewrite length_fmap.
Qed.

End jni_util.

Ltac finish := steps; unfold log; tidy; rewrite <- ?app_assoc; reflexivity.

Section wrappers.
Context {K : Type} {kern : Kernel K} {plat : Platform}.

Lemma c_str_latin1_buffer (jstr : jstring) :
  c_str (latin1_buffer jstr) = Some (c_path jstr).
Proof. apply c_str_until_nul. Qed.

(** What both generations of [getStat0] do once [lstat] was called, in a
    world where no request fails. *)
Lemma Posix_getStat0_run (jfilename : jstring) (w : World K) :
  faults w = [] →
  Z.of_nat (length jfilename) < 2 ^ 31 - 1 →
  let events := [EvMalloc (Z.of_nat (length jfilename) + 1);
                 EvMalloc (to_size_t sizeof_struct_stat);
                 EvLstat (c_path jfilename)] in
  Posix.Java_com_aoapps_io_posix_PosixFile_getStat0 jfilename w
  = Some (match k_lstat (c_path jfilename) (kernel w) with
          | Ok buff => (Some (Stat_of buff), log events w)
          | Err e =>
              if decide (e = ENOENT ∨ e = ENOTDIR)
              then (Some NOT_EXISTS,
                    mkWorld (kernel w) e [] (garbage w) (pending w) (trace w ++ events))
              else (None,
                    mkWorld (kernel w) e [] (garbage w)
                      (Some (Thrown (class_name (Posix.getErrorType e)) (strerror e)))
                      (trace w ++ events))
          end).
Proof.
  destruct w as [k e fs g p t]. tidy. intros -> Hlen.
  unfold Posix.Java_com_aoapps_io_posix_PosixFile_getStat0.
  step_by getString8859_1Chars_run. unfold log; tidy.
  step. unfold lstat. rewrite c_str_latin1_buffer. do 3 step.
  destruct (k_lstat (c_path jfilename) k) as [buff|e'].
  - finish.
  - do 2 step. destruct (decide (e' = ENOENT ∨ e' = ENOTDIR)); finish.
Qed.

Lemma Unix_getStat0_run (jfilename : jstring) (w : World K) :
  faults w = [] →
  Z.of_nat (length jfilename) < 2 ^ 31 - 1 →
  let events := [EvMalloc (Z.of_nat (length jfilename) + 1);
                 EvMalloc (to_size_t sizeof_struct_stat);
                 EvLstat (c_path jfilename)] in
  Unix.Java_com_aoindustries_io_unix_UnixFile_getStat0 jfilename w
  = Some (match k_lstat (c_path jfilename) (kernel w) with
          | Ok buff => (Some (Stat_of buff), log events w)
          | Err e =>
              if decide (e = ENOENT ∨ e = ENOTDIR)
              then (Some NOT_EXISTS,
                    mkWorld (kernel w) e [] (garbage w) (pending w) (trace w ++ events))
              else (None,
                    mkWorld (kernel w) e [] (garbage w)
                      (Some (Thrown (class_name (Unix.getErrorType e)) (strerror e)))
                      (trace w ++ events))
          end).
Proof.
  destruct w as [k e fs g p t]. tidy. intros -> Hlen.
  unfold Unix.Java_com_aoindustries_io_unix_UnixFile_getStat0.
  step_by getString8859_1Chars_run. unfold log; tidy.
  step. unfold lstat. rewrite c_str_latin1_buffer. do 3 step.
  destruct (k_lstat (c_path jfilename) k) as [buff|e'].
  - finish.
  - do 2 step. destruct (decide (e' = ENOENT ∨ e' = ENOTDIR)); finish.
Qed.

Lemma chown0_run (jfilename : jstring) (uid gid : Z) (w : World K) :
  faults w = [] →
  Z.of_nat (length jfilename) < 2 ^ 31 - 1 →
  let events := [EvMalloc (Z.of_nat (length jfilename) + 1);
                 EvLchown (c_path jfilename) (to_uid_t uid) (to_gid_t gid)] in
  Posix.Java_com_aoapps_io_posix_PosixFile_chown0 jfilename uid gid w
  = Some ((),
          match k_lchown (c_path jfilename) (to_uid_t uid) (to_gid_t gid)
                  (kernel w) with
          | (Ok _, k') =>
              mkWorld k' (errno w) [] (garbage w) (pending w) (trace w ++ events)
          | (Err e, k') =>
              mkWorld k' e [] (garbage w)
                (Some (Thrown (class_name (Posix.getErrorType e)) (strerror e)))
                (trace w ++ events)
          end).
Proof.
  destruct w as [k e fs g p t]. tidy. intros -> Hlen.
  unfold Posix.Java_com_aoapps_io_posix_PosixFile_chown0.
  step_by getString8859_1Chars_run. unfold log; tidy.
  unfold lchown. rewrite c_str_latin1_buffer. do 2 step.
  unfold syscall. rewrite bind_assoc_run. unfold mbind at 1, M_bind at 1. tidy.
  destruct (k_lchown (c_path jfilename) _ _ k) as [[[]|e'] k']; finish.
Qed.

Lemma utime0_run (jfilename : jstring) (atime mtime : Z) (w : World K) :
  faults w = [] →
  Z.of_nat (length jfilename) < 2 ^ 31 - 1 →
  let times := {| actime := to_time_t (atime `quot` 1000);
                  modtime := to_time_t (mtime `quot` 1000) |} in
  let events := [EvMalloc (to_size_t sizeof_struct_utimbuf);
                 EvMalloc (Z.of_nat (length jfilename) + 1);
                 EvUtime (c_path jfilename) times] in
  Posix.Java_com_aoapps_io_posix_PosixFile_utime0 jfilename atime mtime w
  = Some ((),
          match k_utime (c_path jfilename) times (kernel w) with
          | (Ok _, k') =>
              mkWorld k' (errno w) [] (garbage w) (pending w) (trace w ++ events)
          | (Err e, k') =>
              mkWorld k' e [] (garbage w)
                (Some (Thrown (class_name (Posix.getErrorType e)) (strerror e)))
                (trace w ++ events)
          end).
Proof.
  destruct w as [k e fs g p t]. tidy. intros -> Hlen.
  unfold Posix.Java_com_aoapps_io_posix_PosixFile_utime0. step.
  step_by getString8859_1Chars_run. unfold log; tidy.
  unfold utime. rewrite c_str_latin1_buffer. do 2 step.
  unfold syscall. rewrite bind_assoc_run. unfold mbind at 1, M_bind at 1. tidy.
  destruct (k_utime (c_path jfilename) _ k) as [[[]|e'] k']; finish.
Qed.

Lemma readLink0_run (jfilename : jstring) (target : list Z) (w : World K) :
  faults w = [] →
  Z.of_nat (length jfilename) < 2 ^ 31 - 1 →
  k_readlink (c_path jfilename) (kernel w) = Ok target →
  let placed := take (Z.to_nat 4096) target in
  let len := Z.of_nat (length (until_nul placed)) in
  Posix.Java_com_aoapps_io_posix_PosixFile_readLink0 jfilename w
  = Some (Some (to_uchar <$> until_nul placed),
          log ([EvMalloc (Z.of_nat (length jfilename) + 1);
                EvMalloc 4097;
                EvReadlink (c_path jfilename) 4096]
               ++ (if decide (len > 512) then [EvMalloc (len * 2)] else []))
              w).
Proof.
  destruct w as [k e fs g p t]. tidy. intros -> Hlen Hk.
  set (placed := take (Z.to_nat 4096) target).
  assert (length placed ≤ Z.to_nat 4096)%nat as Hplaced.
  { unfold placed. rewrite length_take. lia. }
  pose proof (until_nul_length placed) as Hprefix.
  unfold Posix.Java_com_aoapps_io_posix_PosixFile_readLink0.
  step_by getString8859_1Chars_run. unfold log; tidy.
  step. change (to_size_t 4097) with 4097.
  unfold readlink. rewrite c_str_latin1_buffer. do 3 step. rewrite Hk.
  fold placed. rewrite decide_True by (rewrite length_indeterminate; lia).
  step. rewrite to_jint_small by (unfold is_jint, in_range; lia).
  rewrite decide_True by lia.
  assert (∃ x tail, drop (length placed) (indeterminate g 4097) = x :: tail)
    as (x & tail & Hdrop).
  { pose proof (length_drop (indeterminate g 4097) (length placed)) as Hd.
    rewrite length_indeterminate in Hd.
    destruct (drop _ _) as [|x tail]; cbn in Hd; [lia|]. by exists x, tail. }
  rewrite Hdrop.
  step_with (apply store_run; rewrite length_app; cbn; lia).
  rewrite insert_app_r_alt by lia. rewrite Nat.sub_diag. cbn [insert list_insert].
  step_with (by apply (newString8859_1_run _ (until_nul placed));
               [apply c_str_app| |tidy; lia]).
  destruct (decide (Z.of_nat (length (until_nul placed)) > 512)); finish.
Qed.

Lemma readLink0_error (jfilename : jstring) (e : Z) (w : World K) :
  faults w = [] →
  Z.of_nat (length jfilename) < 2 ^ 31 - 1 →
  k_readlink (c_path jfilename) (kernel w) = Err e →
  Posix.Java_com_aoapps_io_posix_PosixFile_readLink0 jfilename w
  = Some (None,
          mkWorld (kernel w) e [] (garbage w)
            (Some (Thrown (class_name (Posix.getErrorType e)) (strerror e)))
            (trace w ++ [EvMalloc (Z.of_nat (length jfilename) + 1);
                         EvMalloc 4097;
                         EvReadlink (c_path jfilename) 4096])).
Proof.
  destruct w as [k e0 fs g p t]. tidy. intros -> Hlen Hk.
  unfold Posix.Java_com_aoapps_io_posix_PosixFile_readLink0.
  step_by getString8859_1Chars_run. unfold log; tidy.
  step. change (to_size_t 4097) with 4097.
  unfold readlink. rewrite c_str_latin1_buffer. do 3 step. rewrite Hk.
  step. change (to_jint (-1)) with (-1). rewrite decide_False by lia.
  finish.
Qed.

(** The control request [addEntropy0] hands to the kernel. *)
Lemma addEntropy0_run (randomData : jbyteArray) (fd : Z) (k1 : K) (w : World K) :
  faults w = [] →
  Z.of_nat (length randomData) < 2 ^ 31 →
  k_open (chars "/dev/random") O_WRONLY (kernel w) = (Ok fd, k1) →
  fd > 0 →
  let len := Z.of_nat (length randomData) in
  ∃ w', Posix.Java_com_aoapps_io_posix_linux_DevRandom_addEntropy0 randomData w = Some ((), w') ∧
        trace w' = trace w ++
          [EvMalloc (sizeof_struct_rand_pool_info + len);
           EvOpen (chars "/dev/random") O_WRONLY;
           EvIoctl fd RNDADDENTROPY
             {| entropy_count := to_jint (len ≪ 3);
                buf_size := len;
                buf := to_char <$> randomData |};
           EvClose fd].
Proof.
  destruct w as [k e fs g p t]. tidy. intros -> Hlen Hk Hfd.
  set (len := Z.of_nat (length randomData)).
  unfold Posix.Java_com_aoapps_io_posix_linux_DevRandom_addEntropy0. do 2 step. fold len.
  unfold Posix.sizeof_char. rewrite Z.mul_1_l.
  assert (to_size_t (sizeof_struct_rand_pool_info + len)
          = sizeof_struct_rand_pool_info + len) as ->.
  { unfold to_size_t, sizeof_struct_rand_pool_info.
    rewrite Z.mod_small; lia. }
  step.
  rewrite ?bind_assoc_run. erewrite bind_run.
  2:{ unfold len. apply (for_lt_fill _ to_char randomData); [|done|].
      - intros j a w c Hc Hj. erewrite bind_run by (by apply load_run).
        by apply store_run.
      - rewrite length_drop, length_indeterminate.
        unfold sizeof_struct_rand_pool_info. lia. }
  rewrite firstn_all, (drop_ge (drop _ _)).
  2:{ rewrite length_drop, length_indeterminate.
      unfold sizeof_struct_rand_pool_info. lia. }
  rewrite app_nil_r. step.
  unfold open. change (c_str (c_literal "/dev/random")) with (Some (chars "/dev/random")).
  do 2 step.
  unfold syscall. rewrite bind_assoc_run. unfold mbind at 1, M_bind at 1. tidy.
  rewrite Hk. step. rewrite decide_True by done.
  rewrite (to_jint_small len) by (unfold is_jint, in_range; lia).
  unfold ioctl, close. step.
  unfold syscall. rewrite bind_assoc_run. unfold mbind at 1, M_bind at 1. tidy.
  destruct (k_ioctl fd RNDADDENTROPY _ k1) as [[[]|e1] k2].
  - steps.
    unfold syscall. rewrite bind_assoc_run. unfold mbind at 1, M_bind at 1. tidy.
    destruct (k_close fd k2) as [[[]|e2] k3];
      steps; eexists; (split; [reflexivity|]); tidy; by rewrite <- !app_assoc.
  - steps.
    unfold syscall. rewrite bind_assoc_run. unfold mbind at 1, M_bind at 1. tidy.
    destruct (k_close fd k2) as [[[]|e2] k3];
      steps; eexists; (split; [reflexivity|]); tidy; by rewrite <- !app_assoc.
Qed.

End wrappers.

(** ** Reading a run backwards *)

Section inversion.
Context {K : Type} {kern : Kernel K} {plat : Platform}.

Lemma bind_inv {A B} (m : M K A) (k : A → M K B) (w w' : World K) (b : B) :
  (m ≫= k) w = Some (b, w') →
  ∃ a w1, m w = Some (a, w1) ∧ k a w1 = Some (b, w').
Proof.
  unfold mbind, M_bind. destruct (m w) as [[a w1]|]; [|done]. by exists a, w1.
Qed.

Lemma mret_inv {A} (a b : A) (w w' : World K) :
  (mret a : M K A) w = Some (b, w') → a = b ∧ w = w'.
Proof. by intros [= -> ->]. Qed.

Lemma read_inv {A} (var : option A) (a : A) (w w' : World K) :
  read var w = Some (a, w') → var = Some a.
Proof. destruct var; [|done]. by intros [= -> _]. Qed.

Lemma jni_request_inv {A} (a b : A) (w w' : World K) :
  jni_request a w = Some (Some b, w') → a = b.
Proof.
  unfold jni_request. intros (ok & w1 & _ & Hrest)%bind_inv.
  destruct ok.
  - by apply mret_inv in Hrest as [[= ->] _].
  - apply bind_inv in Hrest as (? & ? & _ & Hrest).
    by apply mret_inv in Hrest as [? _].
Qed.

End inversion.

Ltac invert_run :=
  repeat match goal with
    | H : (_ ≫= _) _ = Some _ |- _ =>
        let H' := fresh "Hrun" in
        apply bind_inv in H as (? & ? & H' & H)
    | H : mret _ _ = Some _ |- _ => apply mret_inv in H as [? ?]; simplify_eq
    | H : undefined _ = Some _ |- _ => discriminate H
    | H : (match ?x with _ => _ end) _ = Some _ |- _ => destruct x eqn:?
    end.

Section stat_result.
Context {K : Type} {kern : Kernel K} {plat : Platform}.

Lemma Posix_getStat0_result (jfilename : jstring) (st : Stat) (w w' : World K) :
  Posix.Java_com_aoapps_io_posix_PosixFile_getStat0 jfilename w = Some (Some st, w') →
  exists_ st = false → st = NOT_EXISTS.
Proof.
  unfold Posix.Java_com_aoapps_io_posix_PosixFile_getStat0. intros Hrun Hex. invert_run; [done|].
  match goal with
  | Hnew : NewObject _ _ = Some _ |- _ => apply jni_request_inv in Hnew as <-
  end.
  cbn in Hex. unfold JNI_FALSE in *. congruence.
Qed.

Lemma Unix_getStat0_result (jfilename : jstring) (st : Stat) (w w' : World K) :
  Unix.Java_com_aoindustries_io_unix_UnixFile_getStat0 jfilename w = Some (Some st, w') →
  exists_ st = false → all_zero st.
Proof.
  unfold Unix.Java_com_aoindustries_io_unix_UnixFile_getStat0. intros Hrun Hex. invert_run.
  all: match goal with
       | Hread : read _ _ = Some _ |- _ => apply read_inv in Hread as [= <-]
       end.
  all: match goal with
       | Hcall : CallVoidMethod _ _ = Some _ |- _ =>
           apply mret_inv in Hcall as [[= <-] _]
       end.
  - done.
  - by repeat split.
Qed.

End stat_result.

(** * The statements of the specification *)

Section claims_classifier.
Context {plat : Platform}.

(** C1: the error classifier (getErrorType of the newer generation, read
    through the category each exception class carries) is a total
    function on error codes: EACCES and EPERM give SecurityViolation;
    EBADF, EEXIST, EIO, EMLINK, ENOSPC, ENOTDIR, EROFS and EXDEV give
    IOFailure; EFAULT gives GenericRuntimeFailure; EINTR gives
    InterruptedIO; EINVAL and ENAMETOOLONG give InvalidArgument; ELOOP and
    ENOENT give PathNotFound; ENOMEM gives OutOfMemory; ENOSYS gives
    MethodUnsupported; every other code gives GenericRuntimeFailure.  The
    eighteen error numbers are those of any platform on which they are
    pairwise distinct, as POSIX requires. *)
Theorem getErrorType_classifies (err : Z) :
  errno_distinct →
  (∃ c, category (Posix.getErrorType err) = c) ∧
  (err = EACCES ∨ err = EPERM →
     category (Posix.getErrorType err) = SecurityViolation) ∧
  (err ∈ [EBADF; EEXIST; EIO; EMLINK; ENOSPC; ENOTDIR; EROFS; EXDEV] →
     category (Posix.getErrorType err) = IOFailure) ∧
  (err = EFAULT → category (Posix.getErrorType err) = GenericRuntimeFailure) ∧
  (err = EINTR → category (Posix.getErrorType err) = InterruptedIO) ∧
  (err = EINVAL ∨ err = ENAMETOOLONG →
     category (Posix.getErrorType err) = InvalidArgument) ∧
  (err = ELOOP ∨ err = ENOENT →
     category (Posix.getErrorType err) = PathNotFound) ∧
  (err = ENOMEM → category (Posix.getErrorType err) = OutOfMemory) ∧
  (err = ENOSYS → category (Posix.getErrorType err) = MethodUnsupported) ∧
  (err ∉ errnos → category (Posix.getErrorType err) = GenericRuntimeFailure).
Proof.
  intros Hd.
  pose proof (λ c, getErrorType_listed err c Hd) as Hlisted.
  split; [by eexists|].
  repeat split.
  - intros [Heq|Heq]; rewrite (Hlisted SECURITY_EXCEPTION); subst; set_solver.
  - intros Hin. rewrite (Hlisted IO_EXCEPTION); [done|].
    repeat (apply elem_of_cons in Hin as [->|Hin]; [set_solver|]).
    by apply elem_of_nil in Hin.
  - intros Heq. rewrite (Hlisted RUNTIME_EXCEPTION); subst; set_solver.
  - intros Heq. rewrite (Hlisted INTERRUPTED_IO_EXCEPTION); subst; set_solver.
  - intros [Heq|Heq]; rewrite (Hlisted ILLEGAL_ARGUMENT_EXCEPTION); subst; set_solver.
  - intros [Heq|Heq]; rewrite (Hlisted FILE_NOT_FOUND_EXCEPTION); subst; set_solver.
  - intros Heq. rewrite (Hlisted OUT_OF_MEMORY_EXCEPTION); subst; set_solver.
  - intros Heq. rewrite (Hlisted NO_SUCH_METHOD_EXCEPTION); subst; set_solver.
  - intros Hn. by rewrite getErrorType_unlisted.
Qed.

(** C2: for every error code the two copies of getErrorType, the one of
    the newer generation (aoapps) and the one of the older generation
    (aoindustries), return the same exception class. *)
Theorem getErrorType_generations_agree (err : Z) :
  Posix.getErrorType err = Unix.getErrorType err.
Proof.
  unfold Posix.getErrorType, Unix.getErrorType.
  repeat match goal with
         | |- context [ ?a =? ?b ] => destruct (a =? b); [reflexivity|]
         end.
  reflexivity.
Qed.

End claims_classifier.

Section claims.
Context {K : Type} {kern : Kernel K} {plat : Platform}.

(** C3: for every string whose code units all lie between 1 and 255 (no
    NUL, nothing above Latin-1), decoding the encoding yields the string
    again: newString8859_1 applied to the buffer of getString8859_1Chars
    returns it, with no exception pending.  The runtime requests of the
    two functions are taken to succeed and the length to leave room for
    the terminator in a jint. *)
Theorem decode_encode_latin1 (s : jstring) (w : World K) :
  faults w = [] →
  pending w = None →
  Z.of_nat (length s) < 2 ^ 31 - 1 →
  Forall (λ unicode, 1 ≤ unicode ≤ 255) s →
  ∃ buffer w1 w2,
    getString8859_1Chars s w = Some (Some buffer, w1) ∧
    newString8859_1 buffer w1 = Some (Some s, w2) ∧
    pending w2 = None.
Proof.
  intros Hf Hp Hlen Hs.
  assert (c_path s = (λ unicode, to_char (latin1 unicode)) <$> s) as Hpath.
  { unfold c_path. apply until_nul_id. intros Hin.
    apply list_elem_of_fmap in Hin as (c & Hc & Hin).
    rewrite Forall_forall in Hs. specialize (Hs c Hin). cbn beta in Hs.
    unfold latin1 in Hc. rewrite decide_True in Hc by lia.
    symmetry in Hc. apply (proj1 (to_char_eq_0 c ltac:(lia))) in Hc. lia. }
  assert (to_uchar <$> c_path s = s) as Hround.
  { rewrite Hpath, <- list_fmap_compose.
    rewrite <- (list_fmap_id s) at 2. apply Forall_fmap_ext_1.
    eapply Forall_impl; [exact Hs|]. intros c Hc. simpl in Hc. cbn.
    unfold latin1. rewrite decide_True by lia. apply to_uchar_to_char. lia. }
  eexists _, _, _. split; [by apply getString8859_1Chars_run|].
  rewrite (newString8859_1_run _ (c_path s)), Hround.
  - split; [done|]. by destruct (decide _).
  - apply c_str_latin1_buffer.
  - done.
  - rewrite Hpath, length_fmap. lia.
Qed.

(** C4: for every path, when the lstat call behind the stat operation
    fails with ENOENT or with ENOTDIR, the operation completes with no
    exception pending (neither PathNotFound nor any other class) and
    returns the result for a missing path, whose existence flag is false;
    the two error codes are treated alike.  The older generation does the
    same, handing init a false existence flag.  The runtime requests are
    taken to succeed. *)
Theorem getStat0_missing_path (jfilename : jstring) (e : Z) (w : World K) :
  faults w = [] →
  pending w = None →
  Z.of_nat (length jfilename) < 2 ^ 31 - 1 →
  k_lstat (c_path jfilename) (kernel w) = Err e →
  e = ENOENT ∨ e = ENOTDIR →
  (∃ st w',
     Posix.Java_com_aoapps_io_posix_PosixFile_getStat0 jfilename w
     = Some (Some st, w') ∧
     st = NOT_EXISTS ∧
     exists_ st = false ∧
     pending w' = None ∧
     EvLstat (c_path jfilename) ∈ trace w') ∧
  (∃ st w',
     Unix.Java_com_aoindustries_io_unix_UnixFile_getStat0 jfilename w
     = Some (Some st, w') ∧
     exists_ st = false ∧
     pending w' = None ∧
     EvLstat (c_path jfilename) ∈ trace w').
Proof.
  intros Hf Hp Hlen Hk He. split.
  - rewrite Posix_getStat0_run, Hk by done.
    rewrite decide_True by done.
    eexists _, _. split; [done|]. repeat split; [done|]. cbn.
    apply elem_of_app. right. repeat constructor.
  - rewrite Unix_getStat0_run, Hk by done.
    rewrite decide_True by done.
    eexists _, _. split; [done|]. repeat split; [done|]. cbn.
    apply elem_of_app. right. repeat constructor.
Qed.

(** In every run of the model that returns a result, in either
    generation, a result whose existence flag is false has device, inode,
    mode, link count, uid, gid, device identifier, size, block size, block
    count and the three timestamps all zero.  The runs that use a local
    no branch assigned are not among them: they are undefined. *)
Theorem getStat0_not_exists_all_zero (jfilename : jstring) (st : Stat)
    (w w' : World K) :
  Posix.Java_com_aoapps_io_posix_PosixFile_getStat0 jfilename w = Some (Some st, w') ∨
  Unix.Java_com_aoindustries_io_unix_UnixFile_getStat0 jfilename w = Some (Some st, w') →
  exists_ st = false →
  all_zero st.
Proof.
  intros [Hrun|Hrun] Hex.
  - rewrite (Posix_getStat0_result _ _ _ _ Hrun Hex). by repeat split.
  - by eapply Unix_getStat0_result.
Qed.

(** C6: for every pair of millisecond timestamps, the set-timestamps
    operation hands atime/1000 and mtime/1000 (C division, which drops
    the sub-second part) to the utime call; when the kernel then reports
    those seconds for the path, the stat operation reads each timestamp
    back as the seconds times 1000, that is, as the input with its
    sub-second part removed.  time_t is taken to hold 64 bits. *)
Theorem utime0_truncates_to_seconds (jfilename : jstring) (atime mtime : Z)
    (w : World K) :
  faults w = [] →
  pending w = None →
  Z.of_nat (length jfilename) < 2 ^ 31 - 1 →
  is_jlong atime → is_jlong mtime →
  64 ≤ time_t_bits →
  let times := {| actime := atime `quot` 1000; modtime := mtime `quot` 1000 |} in
  ∃ w1,
    Posix.Java_com_aoapps_io_posix_PosixFile_utime0 jfilename atime mtime w = Some ((), w1) ∧
    EvUtime (c_path jfilename) times ∈ trace w1 ∧
    ∀ (w2 : World K) (buff : stat),
      faults w2 = [] →
      k_lstat (c_path jfilename) (kernel w2) = Ok buff →
      st_atime buff = actime times →
      st_mtime buff = modtime times →
      ∃ st w3,
        Posix.Java_com_aoapps_io_posix_PosixFile_getStat0 jfilename w2 = Some (Some st, w3) ∧
        accessTime st = 1000 * (atime `quot` 1000) ∧
        modifyTime st = 1000 * (mtime `quot` 1000) ∧
        accessTime st = atime - atime `rem` 1000 ∧
        modifyTime st = mtime - mtime `rem` 1000.
Proof.
  intros Hf Hp Hlen Ha Hm Hbits times.
  assert (∀ z, is_jlong z →
            to_time_t (z `quot` 1000) = z `quot` 1000 ∧
            to_jlong (to_jlong (z `quot` 1000) * 1000) = 1000 * (z `quot` 1000) ∧
            1000 * (z `quot` 1000) = z - z `rem` 1000) as Hquot.
  { intros z Hz. unfold is_jlong, in_range in Hz.
    change (2 ^ (64 - 1)) with 9223372036854775808 in Hz.
    assert (z = 1000 * (z `quot` 1000) + z `rem` 1000 ∧
            -1000 < z `rem` 1000 < 1000 ∧
            (0 ≤ z → 0 ≤ z `rem` 1000) ∧ (z ≤ 0 → z `rem` 1000 ≤ 0))
      as (Hqr & Hr & Hpos & Hneg)
      by (Z.to_euclidean_division_equations; lia).
    assert (is_jlong (z `quot` 1000)) as Hq.
    { unfold is_jlong, in_range.
      change (2 ^ (64 - 1)) with 9223372036854775808. lia. }
    split; [|split; [|lia]].
    - apply wrap_small; [lia|]. unfold in_range.
      assert (2 ^ (64 - 1) ≤ 2 ^ (time_t_bits - 1))
        by (apply Z.pow_le_mono_r; lia).
      unfold is_jlong, in_range in Hq. lia.
    - rewrite (to_jlong_small _ Hq). rewrite to_jlong_small; [lia|].
      unfold is_jlong, in_range.
      change (2 ^ (64 - 1)) with 9223372036854775808. lia. }
  destruct (Hquot atime Ha) as (Ha1 & Ha2 & Ha3).
  destruct (Hquot mtime Hm) as (Hm1 & Hm2 & Hm3).
  rewrite utime0_run by done. rewrite Ha1, Hm1. fold times.
  eexists. split; [done|]. split.
  - destruct (k_utime _ _ _) as [[[]|e] k']; cbn;
      apply elem_of_app; right; repeat constructor.
  - intros w2 buff Hf2 Hk Hat Hmt.
    rewrite Posix_getStat0_run, Hk by done.
    eexists _, _. split; [done|]. cbn.
    rewrite Hat, Hmt. cbn. by rewrite Ha2, Hm2, <- Ha3, <- Hm3.
Qed.

(** C7: for every path, the read-symbolic-link operation allocates 4097
    bytes and gives readlink a bound of 4096; when the call succeeds it
    returns exactly the bytes the call placed, which are the link's
    contents cut to 4096 bytes: never more than 4096, never padded, the
    whole target when it fits, and a longer target cut short with no
    exception pending.  Link contents hold no zero byte, and the runtime
    requests are taken to succeed. *)
Theorem readLink0_bounded (jfilename : jstring) (target : list Z) (w : World K) :
  faults w = [] →
  pending w = None →
  Z.of_nat (length jfilename) < 2 ^ 31 - 1 →
  k_readlink (c_path jfilename) (kernel w) = Ok target →
  0 ∉ target →
  let placed := take (Z.to_nat 4096) target in
  ∃ w',
    Posix.Java_com_aoapps_io_posix_PosixFile_readLink0 jfilename w = Some (Some (to_uchar <$> placed), w') ∧
    pending w' = None ∧
    EvMalloc 4097 ∈ trace w' ∧
    EvReadlink (c_path jfilename) 4096 ∈ trace w' ∧
    Z.of_nat (length (to_uchar <$> placed)) = Z.of_nat (length target) `min` 4096 ∧
    (Z.of_nat (length target) ≤ 4096 → placed = target) ∧
    (Z.of_nat (length target) > 4096 →
       Z.of_nat (length (to_uchar <$> placed)) = 4096).
Proof.
  intros Hf Hp Hlen Hk Hnul placed.
  rewrite (readLink0_run _ target) by done. fold placed.
  rewrite (until_nul_id placed).
  2:{ intros Hin. apply Hnul. by apply (subseteq_take (Z.to_nat 4096) target). }
  eexists. split; [done|].
  assert (length placed = Nat.min (Z.to_nat 4096) (length target)) as Hlength
    by apply length_take.
  repeat split.
  - done.
  - cbn. apply elem_of_app. right. repeat constructor.
  - cbn. apply elem_of_app. right. repeat constructor.
  - rewrite length_fmap. lia.
  - intros Hfit. apply take_ge. lia.
  - intros Hlong. rewrite length_fmap. lia.
Qed.

(** C9: for every string, getString8859_1Chars produces a buffer of
    exactly length+1 bytes that holds, for each code unit up to 255, the
    byte of the same value and, for each code unit above 255, the byte
    '?' (63), and that ends in a zero byte; no exception is pending for
    that, and the enclosing operations (chown0, getStat0 of both
    generations, readLink0, utime0) go on to their system call with the
    path read from that buffer (chown0 with its two ids converted to
    the unsigned uid_t and gid_t). *)
Theorem getString8859_1Chars_lossy (jstr : jstring) (w : World K) :
  faults w = [] →
  pending w = None →
  Z.of_nat (length jstr) < 2 ^ 31 - 1 →
  Forall is_jchar jstr →
  ∃ result w',
    getString8859_1Chars jstr w = Some (Some result, w') ∧
    length result = S (length jstr) ∧
    EvMalloc (Z.of_nat (length jstr) + 1) ∈ trace w' ∧
    (∀ (i : nat) (unicode : Z), jstr !! i = Some unicode →
       ∃ byte, result !! i = Some byte ∧
               to_uchar byte = if decide (unicode ≤ 255) then unicode else 63) ∧
    result !! length jstr = Some 0 ∧
    pending w' = None ∧
    (∀ uid gid, ∃ w'',
       Posix.Java_com_aoapps_io_posix_PosixFile_chown0 jstr uid gid w = Some ((), w'') ∧
       EvLchown (c_path jstr) (to_uid_t uid) (to_gid_t gid) ∈ trace w'') ∧
    (∃ r w'', Posix.Java_com_aoapps_io_posix_PosixFile_getStat0 jstr w = Some (r, w'') ∧
              EvLstat (c_path jstr) ∈ trace w'') ∧
    (∃ r w'', Unix.Java_com_aoindustries_io_unix_UnixFile_getStat0 jstr w = Some (r, w'') ∧
              EvLstat (c_path jstr) ∈ trace w'') ∧
    (∃ r w'', Posix.Java_com_aoapps_io_posix_PosixFile_readLink0 jstr w = Some (r, w'') ∧
              EvReadlink (c_path jstr) 4096 ∈ trace w'') ∧
    (∀ atime mtime, ∃ w'' times,
       Posix.Java_com_aoapps_io_posix_PosixFile_utime0 jstr atime mtime w = Some ((), w'') ∧
       EvUtime (c_path jstr) times ∈ trace w'').
Proof.
  intros Hf Hp Hlen Hs.
  eexists _, _. split; [by apply getString8859_1Chars_run|].
  unfold latin1_buffer.
  split; [rewrite length_app, length_fmap; cbn; lia|].
  split; [cbn; apply elem_of_app; right; repeat constructor|].
  split.
  { intros i unicode Hi. eexists. split.
    - rewrite lookup_app_l by (rewrite length_fmap; by eapply lookup_lt_Some).
      unfold jstring in *. by rewrite list_lookup_fmap, Hi.
    - rewrite Forall_forall in Hs.
      assert (is_jchar unicode) as Hu by (eapply Hs, list_elem_of_lookup_2, Hi).
      unfold is_jchar in Hu. unfold latin1.
      destruct (decide (unicode ≤ 255));
        [apply to_uchar_to_char; lia | by rewrite to_char_question]. }
  split.
  { rewrite lookup_app_r by (rewrite length_fmap; lia).
    by rewrite length_fmap, Nat.sub_diag. }
  split; [done|].
  split; [|split; [|split; [|split]]].
  - intros uid gid. rewrite chown0_run by done. eexists. split; [done|].
    destruct (k_lchown _ _ _ _) as [[[]|e] k']; cbn;
      apply elem_of_app; right; repeat constructor.
  - rewrite Posix_getStat0_run by done.
    destruct (k_lstat _ _) as [buff|e]; [|destruct (decide _)];
      eexists _, _; (split; [done|]); cbn;
      apply elem_of_app; right; repeat constructor.
  - rewrite Unix_getStat0_run by done.
    destruct (k_lstat _ _) as [buff|e]; [|destruct (decide _)];
      eexists _, _; (split; [done|]); cbn;
      apply elem_of_app; right; repeat constructor.
  - destruct (k_readlink (c_path jstr) (kernel w)) as [target|e] eqn:Hk.
    + rewrite (readLink0_run _ target) by done.
      eexists _, _. split; [done|]. cbn.
      apply elem_of_app. right. repeat constructor.
    + rewrite (readLink0_error _ e) by done.
      eexists _, _. split; [done|]. cbn.
      apply elem_of_app. right. repeat constructor.
  - intros atime mtime. rewrite utime0_run by done. eexists _, _. split; [done|].
    destruct (k_utime _ _ _) as [[[]|e] k']; cbn;
      apply elem_of_app; right; repeat constructor.
Qed.

(** The request of addEntropy0 once /dev/random is open: its payload is
    a byte-for-byte copy of the buffer, its size field is len, and its
    entropy credit, len<<3 in a 32-bit signed int, is the bit-length
    8 × len whenever len is below 2^28. *)
Theorem addEntropy0_request (randomData : jbyteArray) (fd : Z) (k1 : K)
    (w : World K) :
  faults w = [] →
  Z.of_nat (length randomData) < 2 ^ 31 →
  k_open (chars "/dev/random") O_WRONLY (kernel w) = (Ok fd, k1) →
  fd > 0 →
  let len := Z.of_nat (length randomData) in
  ∃ w' info,
    Posix.Java_com_aoapps_io_posix_linux_DevRandom_addEntropy0 randomData w
    = Some ((), w') ∧
    EvIoctl fd RNDADDENTROPY info ∈ trace w' ∧
    to_uchar <$> buf info = to_uchar <$> randomData ∧
    buf_size info = len ∧
    entropy_count info = wrap 32 (8 * len) ∧
    (len < 2 ^ 28 → entropy_count info = 8 * len).
Proof.
  intros Hf Hlen Hk Hfd len.
  destruct (addEntropy0_run randomData fd k1 w Hf Hlen Hk Hfd) as (w' & Hrun & Ht).
  eexists w', _. split; [done|]. split.
  { rewrite Ht. apply elem_of_app. right. repeat constructor. }
  cbn [buf buf_size entropy_count]. fold len.
  assert (to_jint (len ≪ 3) = wrap 32 (8 * len)) as ->.
  { unfold to_jint. f_equal. rewrite Z.shiftl_mul_pow2 by lia. lia. }
  repeat split.
  - rewrite <- list_fmap_compose. apply list_fmap_ext.
    intros i b _. apply to_uchar_to_char_mod.
  - intros Hsmall. apply wrap_small; [lia|]. unfold in_range.
    change (2 ^ (32 - 1)) with 2147483648. lia.
Qed.

(** C10, as amended: for every string that contains the code unit 0, the
    buffer of getString8859_1Chars holds that 0 as an interior byte, so
    the C string a system call or newString8859_1 reads in it is the
    encoding of the part of the string before its first NUL;
    decode(encode(s)) is that part with every code unit above 255 read
    back as '?' (the part itself when it is Latin-1), it is never s, and
    no exception is pending. *)
Theorem decode_encode_stops_at_nul (s : jstring) (w : World K) :
  faults w = [] →
  pending w = None →
  Z.of_nat (length s) < 2 ^ 31 - 1 →
  Forall is_jchar s →
  0 ∈ s →
  let prefix := until_nul s in
  ∃ buffer w1 w2,
    getString8859_1Chars s w = Some (Some buffer, w1) ∧
    (length prefix < length s)%nat ∧
    buffer !! length prefix = Some 0 ∧
    c_str buffer = Some ((λ unicode, to_char (latin1 unicode)) <$> prefix) ∧
    newString8859_1 buffer w1 = Some (Some (latin1 <$> prefix), w2) ∧
    latin1 <$> prefix ≠ s ∧
    (Forall (λ unicode, unicode ≤ 255) prefix → latin1 <$> prefix = prefix) ∧
    pending w2 = None.
Proof.
  intros Hf Hp Hlen Hs Hnul prefix.
  pose proof (until_nul_shorter s Hnul) as Hshort. fold prefix in Hshort.
  assert (c_path s = (λ unicode, to_char (latin1 unicode)) <$> prefix) as Hpath.
  { unfold c_path. apply until_nul_fmap.
    eapply Forall_impl; [exact Hs|]. intros c Hc. unfold is_jchar in Hc.
    unfold latin1. destruct (decide (c ≤ 255)).
    - apply to_char_eq_0. lia.
    - rewrite to_char_question. lia. }
  assert (to_uchar <$> c_path s = latin1 <$> prefix) as Hround.
  { rewrite Hpath, <- list_fmap_compose. apply Forall_fmap_ext_1.
    apply Forall_forall. intros c Hc. cbn.
    assert (is_jchar c) as Hj.
    { rewrite Forall_forall in Hs. apply Hs.
      apply (until_nul_subseteq s). exact Hc. }
    unfold is_jchar in Hj. apply to_uchar_to_char. unfold latin1.
    destruct (decide (c ≤ 255)); lia. }
  eexists _, _, _. split; [by apply getString8859_1Chars_run|].
  split; [done|]. split.
  { unfold latin1_buffer.
    rewrite lookup_app_l by (rewrite length_fmap; lia).
    rewrite list_lookup_fmap. unfold prefix.
    rewrite (until_nul_lookup s Hnul). cbn. change (latin1 0) with 0.
    f_equal. by apply to_char_eq_0. }
  split; [by rewrite c_str_latin1_buffer, Hpath|].
  rewrite (newString8859_1_run _ (c_path s)), Hround.
  - split; [done|]. split.
    { intros Heq. apply (f_equal length) in Heq.
      rewrite length_fmap in Heq. lia. }
    split; [|by destruct (decide _)].
    intros Hlatin. rewrite <- (list_fmap_id prefix) at 2.
    apply Forall_fmap_ext_1. eapply Forall_impl; [exact Hlatin|].
    intros c Hc. simpl in Hc. unfold latin1. by rewrite decide_True.
  - apply c_str_latin1_buffer.
  - done.
  - rewrite Hpath, length_fmap. lia.
Qed.

End claims.

(** * The statements on Linux, run on the small file system *)

#[local] Existing Instance linux_x86_64.

Lemma getErrorType_classifies_linux :
  @errno_distinct linux_x86_64 ∧
  category (Posix.getErrorType 13) = SecurityViolation ∧
  category (Posix.getErrorType 2) = PathNotFound ∧
  category (Posix.getErrorType 20) = IOFailure ∧
  category (Posix.getErrorType 11) = GenericRuntimeFailure.
Proof.
  split; [exact linux_errno_distinct|].
  split; [|split; [|split]].
  - apply (getErrorType_classifies 13 linux_errno_distinct). by left.
  - apply (getErrorType_classifies 2 linux_errno_distinct). by right.
  - apply (getErrorType_classifies 20 linux_errno_distinct).
    apply (bool_decide_unpack _). by vm_compute.
  - apply (getErrorType_classifies 11 linux_errno_distinct).
    apply (bool_decide_unpack _). by vm_compute.
Defined.

Lemma decode_encode_latin1_example :
  (faults (world0 disk0) = [] ∧ pending (world0 disk0) = None ∧
   Z.of_nat (length [72; 233; 255; 1]) < 2 ^ 31 - 1 ∧
   Forall (λ unicode, 1 ≤ unicode ≤ 255) [72; 233; 255; 1]) ∧
  ∃ buffer w1 w2,
    getString8859_1Chars [72; 233; 255; 1] (world0 disk0) = Some (Some buffer, w1) ∧
    newString8859_1 buffer w1 = Some (Some [72; 233; 255; 1], w2) ∧
    pending w2 = None.
Proof.
  assert (Forall (λ unicode, 1 ≤ unicode ≤ 255) [72; 233; 255; 1]) as Hs
    by (repeat constructor; lia).
  split; [by repeat split|].
  by apply (decode_encode_latin1 [72; 233; 255; 1] (world0 disk0)).
Defined.

Lemma getStat0_missing_path_example :
  (faults (world0 disk0) = [] ∧ pending (world0 disk0) = None ∧
   Z.of_nat (length (chars "/etc/nope")) < 2 ^ 31 - 1 ∧
   k_lstat (c_path (chars "/etc/nope")) (kernel (world0 disk0)) = Err ENOENT ∧
   (ENOENT = ENOENT ∨ ENOENT = ENOTDIR)) ∧
  ∃ st w',
    Posix.Java_com_aoapps_io_posix_PosixFile_getStat0
      (chars "/etc/nope") (world0 disk0) = Some (Some st, w') ∧
    st = NOT_EXISTS ∧
    exists_ st = false ∧
    pending w' = None ∧
    EvLstat (c_path (chars "/etc/nope")) ∈ trace w'.
Proof.
  assert (k_lstat (c_path (chars "/etc/nope")) (kernel (world0 disk0)) = Err ENOENT)
    as Hk by (vm_compute; reflexivity).
  split; [repeat split; try done; by left|].
  destruct (getStat0_missing_path (chars "/etc/nope") ENOENT (world0 disk0))
    as [Hposix _]; try done. by left.
Defined.

Lemma getStat0_not_exists_all_zero_example :
  ∃ st w',
    (Posix.Java_com_aoapps_io_posix_PosixFile_getStat0
       (chars "/etc/nope") (world0 disk0) = Some (Some st, w') ∨
     Unix.Java_com_aoindustries_io_unix_UnixFile_getStat0
       (chars "/etc/nope") (world0 disk0) = Some (Some st, w')) ∧
    exists_ st = false ∧
    all_zero st.
Proof.
  assert (Unix.Java_com_aoindustries_io_unix_UnixFile_getStat0
            (chars "/etc/nope") (world0 disk0)
          = Some (Some NOT_EXISTS,
                  mkWorld disk0 ENOENT [] (garbage (world0 disk0)) None
                    [EvMalloc 10; EvMalloc 144; EvLstat (chars "/etc/nope")]))
    as Hrun by (vm_compute; reflexivity).
  eexists _, _. split; [right; exact Hrun|]. split; [reflexivity|].
  eapply (getStat0_not_exists_all_zero (chars "/etc/nope") _ (world0 disk0)).
  - right. exact Hrun.
  - reflexivity.
Defined.

Lemma utime0_truncates_to_seconds_example :
  (faults (world0 disk0) = [] ∧ pending (world0 disk0) = None ∧
   Z.of_nat (length (chars "/etc/motd")) < 2 ^ 31 - 1 ∧
   is_jlong 1700000000123 ∧ is_jlong 1700000000456 ∧ 64 ≤ time_t_bits) ∧
  ∃ w1 buff st w3,
    Posix.Java_com_aoapps_io_posix_PosixFile_utime0
      (chars "/etc/motd") 1700000000123 1700000000456 (world0 disk0)
    = Some ((), w1) ∧
    (faults w1 = [] ∧
     k_lstat (c_path (chars "/etc/motd")) (kernel w1) = Ok buff ∧
     st_atime buff = 1700000000123 `quot` 1000 ∧
     st_mtime buff = 1700000000456 `quot` 1000) ∧
    Posix.Java_com_aoapps_io_posix_PosixFile_getStat0 (chars "/etc/motd") w1
    = Some (Some st, w3) ∧
    accessTime st = 1700000000000 ∧
    modifyTime st = 1700000000000.
Proof.
  assert (is_jlong 1700000000123 ∧ is_jlong 1700000000456) as [Ha Hm]
    by (unfold is_jlong, in_range; lia).
  assert (64 ≤ time_t_bits) as Hbits by (cbn; lia).
  split; [by repeat split|].
  destruct (utime0_truncates_to_seconds (chars "/etc/motd")
              1700000000123 1700000000456 (world0 disk0))
    as (w1 & Hrun & _ & Hback); try done.
  assert (∃ buff, faults w1 = [] ∧
                  k_lstat (c_path (chars "/etc/motd")) (kernel w1) = Ok buff ∧
                  st_atime buff = 1700000000123 `quot` 1000 ∧
                  st_mtime buff = 1700000000456 `quot` 1000)
    as (buff & Hf1 & Hk & Hat & Hmt).
  { vm_compute in Hrun. injection Hrun as <-. eexists.
    split; [reflexivity|]. split; [vm_compute; reflexivity|]. by split. }
  destruct (Hback w1 buff Hf1 Hk Hat Hmt) as (st & w3 & Hstat & Hacc & Hmod & _).
  exists w1, buff, st, w3. by repeat split.
Defined.

Lemma readLink0_bounded_example :
  (faults (world0 disk0) = [] ∧ pending (world0 disk0) = None ∧
   Z.of_nat (length (chars "/etc/mtab")) < 2 ^ 31 - 1 ∧
   k_readlink (c_path (chars "/etc/mtab")) (kernel (world0 disk0))
   = Ok (chars "../proc/self/mounts") ∧
   0 ∉ chars "../proc/self/mounts") ∧
  ∃ w',
    Posix.Java_com_aoapps_io_posix_PosixFile_readLink0
      (chars "/etc/mtab") (world0 disk0)
    = Some (Some (chars "../proc/self/mounts"), w') ∧
    pending w' = None.
Proof.
  assert (k_readlink (c_path (chars "/etc/mtab")) (kernel (world0 disk0))
          = Ok (chars "../proc/self/mounts")) as Hk
    by (vm_compute; reflexivity).
  assert (0 ∉ chars "../proc/self/mounts") as Hnul
    by (apply (bool_decide_unpack _); by vm_compute).
  split; [by repeat split|].
  destruct (readLink0_bounded (chars "/etc/mtab") (chars "../proc/self/mounts")
              (world0 disk0)) as (w' & Hrun & Hp & _); try done.
  exists w'. split; [|done]. rewrite Hrun. by vm_compute.
Defined.

Lemma addEntropy0_request_example :
  (faults (world0 disk0) = [] ∧ Z.of_nat (length [1; 2; -3]) < 2 ^ 31 ∧
   k_open (chars "/dev/random") O_WRONLY (kernel (world0 disk0)) = (Ok 3, disk0) ∧
   3 > 0) ∧
  ∃ w' info,
    Posix.Java_com_aoapps_io_posix_linux_DevRandom_addEntropy0
      [1; 2; -3] (world0 disk0) = Some ((), w') ∧
    EvIoctl 3 RNDADDENTROPY info ∈ trace w' ∧
    to_uchar <$> buf info = [1; 2; 253] ∧
    buf_size info = 3 ∧
    entropy_count info = 24.
Proof.
  assert (k_open (chars "/dev/random") O_WRONLY (kernel (world0 disk0))
          = (Ok 3, disk0)) as Hk
    by (vm_compute; reflexivity).
  split; [by repeat split|].
  destruct (addEntropy0_request [1; 2; -3] 3 disk0 (world0 disk0))
    as (w' & info & Hrun & Hev & Hbuf & Hsize & _ & Hcredit); try done.
  exists w', info. repeat split; try done. by apply Hcredit.
Defined.

Lemma getString8859_1Chars_lossy_example :
  (faults (world0 disk0) = [] ∧ pending (world0 disk0) = None ∧
   Z.of_nat (length [47; 300; 200; 65]) < 2 ^ 31 - 1 ∧
   Forall is_jchar [47; 300; 200; 65]) ∧
  ∃ result w',
    getString8859_1Chars [47; 300; 200; 65] (world0 disk0) = Some (Some result, w') ∧
    to_uchar <$> result = [47; 63; 200; 65; 0] ∧
    pending w' = None ∧
    ∃ w'',
      Posix.Java_com_aoapps_io_posix_PosixFile_chown0
        [47; 300; 200; 65] (-2) 0 (world0 disk0) = Some ((), w'') ∧
      EvLchown (c_path [47; 300; 200; 65]) 4294967294 0 ∈ trace w''.
Proof.
  assert (Forall is_jchar [47; 300; 200; 65]) as Hs
    by (repeat constructor; unfold is_jchar; lia).
  split; [by repeat split|].
  destruct (getString8859_1Chars_lossy [47; 300; 200; 65] (world0 disk0))
    as (result & w' & Hrun & _ & _ & _ & _ & Hp & Hchown & _); try done.
  exists result, w'. split; [done|]. split; [|split; [done|exact (Hchown (-2) 0)]].
  vm_compute in Hrun. injection Hrun as <- _. reflexivity.
Defined.

Lemma decode_encode_stops_at_nul_example :
  (faults (world0 disk0) = [] ∧ pending (world0 disk0) = None ∧
   Z.of_nat (length [47; 0; 65]) < 2 ^ 31 - 1 ∧
   Forall is_jchar [47; 0; 65] ∧ 0 ∈ [47; 0; 65]) ∧
  ∃ buffer w1 w2,
    getString8859_1Chars [47; 0; 65] (world0 disk0) = Some (Some buffer, w1) ∧
    newString8859_1 buffer w1 = Some (Some [47], w2) ∧
    pending w2 = None.
Proof.
  assert (Forall is_jchar [47; 0; 65]) as Hs
    by (repeat constructor; unfold is_jchar; lia).
  assert (0 ∈ [47; 0; 65]) as Hnul by (apply (bool_decide_unpack _); by vm_compute).
  split; [by repeat split|].
  destruct (decode_encode_stops_at_nul [47; 0; 65] (world0 disk0))
    as (buffer & w1 & w2 & Hrun & _ & _ & _ & Hback & _ & _ & Hp); try done.
  by exists buffer, w1, w2.
Defined.

(** ** Where the code does not do what the specification states *)


(** C8: addEntropy0 on a buffer of 2^28 bytes.  The credit is computed as
    len<<3 in a 32-bit signed int; 2^28<<3 is 2^31, which that int cannot
    hold, and the request carries -2^31 instead of the bit-length. *)
Lemma addEntropy0_credit_wraps :
  ∃ w' info,
    Posix.Java_com_aoapps_io_posix_linux_DevRandom_addEntropy0
      (replicate (Z.to_nat 268435456) 0) (world0 disk0) = Some ((), w') ∧
    EvIoctl 3 RNDADDENTROPY info ∈ trace w' ∧
    buf info = replicate (Z.to_nat 268435456) 0 ∧
    buf_size info = 268435456 ∧
    entropy_count info = -2147483648 ∧
    entropy_count info ≠ 8 * Z.of_nat (length (replicate (Z.to_nat 268435456) 0)).
Proof.
  set (randomData := replicate (Z.to_nat 268435456) 0).
  assert (Z.of_nat (length randomData) = 268435456) as Hlen.
  { unfold randomData. rewrite length_replicate. by rewrite Z2Nat.id. }
  destruct (addEntropy0_run randomData 3 disk0 (world0 disk0)) as (w' & Hrun & Ht).
  - reflexivity.
  - rewrite Hlen. done.
  - vm_compute. reflexivity.
  - done.
  - rewrite Hlen in Ht.
    eexists w', _. split; [exact Hrun|]. split.
    { rewrite Ht. apply elem_of_app. right. repeat constructor. }
    cbn [buf buf_size entropy_count]. rewrite Hlen. split; [|split; [|split]].
    + unfold randomData. by rewrite fmap_replicate.
    + reflexivity.
    + reflexivity.
    + change (to_jint (268435456 ≪ 3)) with (-2147483648). lia.
Qed.

(** C10 as worded makes decode(encode(s)) the part of s before its first
    NUL.  For the two code units 256, 0 that part is the code unit 256,
    and decode(encode(s)) is '?'. *)
Lemma decode_encode_nul_not_prefix :
  ∃ buffer w1 w2,
    getString8859_1Chars [256; 0] (world0 disk0) = Some (Some buffer, w1) ∧
    newString8859_1 buffer w1 = Some (Some [63], w2) ∧
    until_nul [256; 0] = [256] ∧
    [63] ≠ until_nul [256; 0].
Proof.
  eexists _, _, _.
  split; [vm_compute; reflexivity|].
  split; [vm_compute; reflexivity|].
  split; [reflexivity|]. by vm_compute.
Qed.

(** * Further properties of the native methods *)

(** The system call at the head of a run: expose the kernel's answer. *)
Ltac enter_syscall :=
  unfold syscall; rewrite bind_assoc_run; unfold mbind at 1, M_bind at 1; tidy.

Section fault_scripts.
Context {K : Type} {kern : Kernel K} {plat : Platform}.

(** The encoder when its two requests are scripted to succeed. *)
Lemma getString8859_1Chars_ok (jstr : jstring) (k : K) (e : Z) (fs : list bool)
    (g : nat → Z) (p : option Throwable) (t : list Event) :
  Z.of_nat (length jstr) < 2 ^ 31 - 1 →
  getString8859_1Chars jstr (mkWorld k e (true :: true :: fs) g p t)
  = Some (Some (latin1_buffer jstr),
          mkWorld k e fs g p (t ++ [EvMalloc (Z.of_nat (length jstr) + 1)])).
Proof.
  intros Hlen. unfold getString8859_1Chars. steps.
  rewrite malloc_size by lia.
  erewrite bind_run.
  2:{ apply (for_lt_fill _ (λ unicode, to_char (latin1 unicode))).
      - intros j a w c Hc Hj. erewrite bind_run by (by apply load_run).
        unfold latin1. destruct (decide (c ≤ 255)); by apply store_run.
      - done.
      - rewrite length_indeterminate. lia. }
  rewrite firstn_all.
  assert (∃ x, drop (length jstr) (indeterminate g (Z.of_nat (length jstr) + 1)) = [x])
    as [x ->].
  { pose proof (length_drop (indeterminate g (Z.of_nat (length jstr) + 1))
                  (length jstr)) as Hd.
    rewrite length_indeterminate in Hd.
    destruct (drop _ _) as [|x [|y l]]; cbn in Hd; try lia. by exists x. }
  erewrite bind_run.
  2:{ apply store_run. rewrite length_app, length_fmap. cbn. lia. }
  step. unfold latin1_buffer. cbn. do 3 f_equal.
  rewrite <- (length_fmap (λ unicode, to_char (latin1 unicode)) jstr) at 1.
  rewrite insert_app_r_alt by lia. by rewrite Nat.sub_diag.
Qed.

(** The encoder when malloc is scripted to fail. *)
Lemma getString8859_1Chars_no_memory (jstr : jstring) (k : K) (e : Z)
    (g : nat → Z) (p : option Throwable) (t : list Event) :
  Z.of_nat (length jstr) < 2 ^ 31 - 1 →
  getString8859_1Chars jstr (mkWorld k e [true; false] g p t)
  = Some (None,
          mkWorld k ENOMEM [] g
            (Some (Thrown "java/lang/OutOfMemoryError" null_message))
            (t ++ [EvMalloc (Z.of_nat (length jstr) + 1)])).
Proof.
  intros Hlen. unfold getString8859_1Chars. steps.
  rewrite malloc_size by lia. reflexivity.
Qed.

(** X1: when the string's characters cannot be had, the encoder returns
    NULL with the JVM's own exception pending and asks for no memory; when
    malloc fails, it returns NULL with java/lang/OutOfMemoryError pending
    (null message) and errno ENOMEM; in neither case is a buffer handed
    out. *)
Theorem getString8859_1Chars_failure (jstr : jstring) (w : World K) :
  Z.of_nat (length jstr) < 2 ^ 31 - 1 →
  (faults w = [false] →
     ∃ w', getString8859_1Chars jstr w = Some (None, w') ∧
           pending w' = Some JvmThrown ∧ trace w' = trace w) ∧
  (faults w = [true; false] →
     ∃ w', getString8859_1Chars jstr w = Some (None, w') ∧
           pending w' = Some (Thrown "java/lang/OutOfMemoryError" null_message) ∧
           errno w' = ENOMEM ∧
           trace w' = trace w ++ [EvMalloc (Z.of_nat (length jstr) + 1)]).
Proof.
  intros Hlen. destruct w as [k e fs g p t]. tidy. split; intros ->.
  - eexists. split; [reflexivity|]. by split.
  - rewrite getString8859_1Chars_no_memory by done.
    eexists. split; [reflexivity|]. by repeat split.
Qed.

End fault_scripts.

Section one_call.
Context {K : Type} {kern : Kernel K} {fsk : KernelFiles K} {plat : Platform}
        {sys_stat : SysStat}.

Lemma mknod0_run (jfilename : jstring) (mode device : Z) (w : World K) :
  faults w = [] →
  Z.of_nat (length jfilename) < 2 ^ 31 - 1 →
  Posix.Java_com_aoapps_io_posix_PosixFile_mknod0 jfilename mode device w
  = Some ((),
          match k_mknod (c_path jfilename) (Libc.to_mode_t mode)
                  (Libc.to_dev_t device) (kernel w) with
          | (Ok _, k') =>
              mkWorld k' (errno w) [] (garbage w) (pending w)
                (trace w ++ [EvMalloc (Z.of_nat (length jfilename) + 1)])
          | (Err e, k') =>
              mkWorld k' e [] (garbage w)
                (Some (Thrown (class_name (Posix.getErrorType e)) (strerror e)))
                (trace w ++ [EvMalloc (Z.of_nat (length jfilename) + 1)])
          end).
Proof.
  destruct w as [k e fs g p t]. tidy. intros -> Hlen.
  unfold Posix.Java_com_aoapps_io_posix_PosixFile_mknod0.
  step_by getString8859_1Chars_run. unfold log; tidy.
  unfold Libc.mknod. rewrite c_str_latin1_buffer. step. enter_syscall.
  destruct (k_mknod (c_path jfilename) _ _ k) as [[[]|e'] k']; finish.
Qed.

Lemma mkfifo0_run (jfilename : jstring) (mode : Z) (w : World K) :
  faults w = [] →
  Z.of_nat (length jfilename) < 2 ^ 31 - 1 →
  Posix.Java_com_aoapps_io_posix_PosixFile_mkfifo0 jfilename mode w
  = Some ((),
          match k_mknod (c_path jfilename) (Libc.to_mode_t (Z.lor S_IFIFO mode))
                  (Libc.to_dev_t 0) (kernel w) with
          | (Ok _, k') =>
              mkWorld k' (errno w) [] (garbage w) (pending w)
                (trace w ++ [EvMalloc (Z.of_nat (length jfilename) + 1)])
          | (Err e, k') =>
              mkWorld k' e [] (garbage w)
                (Some (Thrown (class_name (Posix.getErrorType e)) (strerror e)))
                (trace w ++ [EvMalloc (Z.of_nat (length jfilename) + 1)])
          end).
Proof.
  destruct w as [k e fs g p t]. tidy. intros -> Hlen.
  unfold Posix.Java_com_aoapps_io_posix_PosixFile_mkfifo0.
  step_by getString8859_1Chars_run. unfold log; tidy.
  unfold Libc.mknod. rewrite c_str_latin1_buffer. step. enter_syscall.
  destruct (k_mknod (c_path jfilename) _ _ k) as [[[]|e'] k']; finish.
Qed.

Lemma setMode0_run (jfilename : jstring) (mode : Z) (w : World K) :
  faults w = [] →
  Z.of_nat (length jfilename) < 2 ^ 31 - 1 →
  Posix.Java_com_aoapps_io_posix_PosixFile_setMode0 jfilename mode w
  = Some ((),
          match k_chmod (c_path jfilename) (Libc.to_mode_t mode) (kernel w) with
          | (Ok _, k') =>
              mkWorld k' (errno w) [] (garbage w) (pending w)
                (trace w ++ [EvMalloc (Z.of_nat (length jfilename) + 1)])
          | (Err e, k') =>
              mkWorld k' e [] (garbage w)
                (Some (Thrown (class_name (Posix.getErrorType e)) (strerror e)))
                (trace w ++ [EvMalloc (Z.of_nat (length jfilename) + 1)])
          end).
Proof.
  destruct w as [k e fs g p t]. tidy. intros -> Hlen.
  unfold Posix.Java_com_aoapps_io_posix_PosixFile_setMode0.
  step_by getString8859_1Chars_run. unfold log; tidy.
  unfold Libc.chmod. rewrite c_str_latin1_buffer. step. enter_syscall.
  destruct (k_chmod (c_path jfilename) _ k) as [[[]|e'] k']; finish.
Qed.

Lemma symLink0_run (jfilename jdestination : jstring) (w : World K) :
  faults w = [] →
  Z.of_nat (length jfilename) < 2 ^ 31 - 1 →
  Z.of_nat (length jdestination) < 2 ^ 31 - 1 →
  let events := [EvMalloc (Z.of_nat (length jfilename) + 1);
                 EvMalloc (Z.of_nat (length jdestination) + 1)] in
  Posix.Java_com_aoapps_io_posix_PosixFile_symLink0 jfilename jdestination w
  = Some ((),
          match k_symlink (c_path jdestination) (c_path jfilename) (kernel w) with
          | (Ok _, k') =>
              mkWorld k' (errno w) [] (garbage w) (pending w) (trace w ++ events)
          | (Err e, k') =>
              mkWorld k' e [] (garbage w)
                (Some (Thrown (class_name (Posix.getErrorType e)) (strerror e)))
                (trace w ++ events)
          end).
Proof.
  destruct w as [k e fs g p t]. tidy. intros -> Hlen Hlen'.
  unfold Posix.Java_com_aoapps_io_posix_PosixFile_symLink0.
  step_by getString8859_1Chars_run. unfold log; tidy.
  step_by getString8859_1Chars_run. unfold log; tidy.
  unfold Libc.symlink. rewrite !c_str_latin1_buffer. do 2 step. enter_syscall.
  destruct (k_symlink _ _ k) as [[[]|e'] k']; finish.
Qed.

Lemma link0_run (jfilename jdestination : jstring) (w : World K) :
  faults w = [] →
  Z.of_nat (length jfilename) < 2 ^ 31 - 1 →
  Z.of_nat (length jdestination) < 2 ^ 31 - 1 →
  let events := [EvMalloc (Z.of_nat (length jfilename) + 1);
                 EvMalloc (Z.of_nat (length jdestination) + 1)] in
  Posix.Java_com_aoapps_io_posix_PosixFile_link0 jfilename jdestination w
  = Some ((),
          match k_link (c_path jdestination) (c_path jfilename) (kernel w) with
          | (Ok _, k') =>
              mkWorld k' (errno w) [] (garbage w) (pending w) (trace w ++ events)
          | (Err e, k') =>
              mkWorld k' e [] (garbage w)
                (Some (Thrown (class_name (Posix.getErrorType e)) (strerror e)))
                (trace w ++ events)
          end).
Proof.
  destruct w as [k e fs g p t]. tidy. intros -> Hlen Hlen'.
  unfold Posix.Java_com_aoapps_io_posix_PosixFile_link0.
  step_by getString8859_1Chars_run. unfold log; tidy.
  step_by getString8859_1Chars_run. unfold log; tidy.
  unfold Libc.link. rewrite !c_str_latin1_buffer. do 2 step. enter_syscall.
  destruct (k_link _ _ k) as [[[]|e'] k']; finish.
Qed.

(** X2: chown0 makes exactly the call lchown(path, uid, gid) on the encoded
    path, the two jint ids converted to the unsigned 32-bit uid_t and
    gid_t: an id that is not negative is unchanged, a negative one reaches
    the kernel 2^32 higher (-2 as 4294967294).  It raises nothing when the
    call succeeds and, when it fails with errno e, the exception class
    getErrorType gives for e with the text of e. *)
Theorem chown0_outcome (jfilename : jstring) (uid gid : Z) (w : World K) :
  faults w = [] →
  Z.of_nat (length jfilename) < 2 ^ 31 - 1 →
  ∃ owner group w',
    Posix.Java_com_aoapps_io_posix_PosixFile_chown0 jfilename uid gid w
    = Some ((), w') ∧
    owner = uid `mod` 2 ^ 32 ∧ group = gid `mod` 2 ^ 32 ∧
    (is_jint uid → owner = if decide (0 ≤ uid) then uid else uid + 2 ^ 32) ∧
    (is_jint gid → group = if decide (0 ≤ gid) then gid else gid + 2 ^ 32) ∧
    kernel w' = (k_lchown (c_path jfilename) owner group (kernel w)).2 ∧
    pending w'
    = Posix.raised_for (k_lchown (c_path jfilename) owner group (kernel w)).1
        (pending w).
Proof.
  intros Hf Hlen. rewrite chown0_run by done.
  assert (∀ id, is_jint id →
            id `mod` 2 ^ 32 = if decide (0 ≤ id) then id else id + 2 ^ 32) as Hid.
  { unfold is_jint, in_range. change (2 ^ (32 - 1)) with 2147483648.
    intros id Hi. destruct (decide (0 ≤ id)).
    - apply Z.mod_small. lia.
    - rewrite <- (Z.mod_add id 1) by lia. apply Z.mod_small. lia. }
  eexists _, _, _. split; [reflexivity|].
  split; [reflexivity|]. split; [reflexivity|].
  split; [apply Hid|]. split; [apply Hid|].
  unfold to_uid_t, to_gid_t.
  destruct (k_lchown _ _ _ _) as [[[]|e] k']; done.
Qed.

(** X3: utime0 makes exactly one utime call on the encoded path; it raises
    nothing when the call succeeds and, when it fails with errno e, the
    exception class getErrorType gives for e with the text of e. *)
Theorem utime0_outcome (jfilename : jstring) (atime mtime : Z) (w : World K) :
  faults w = [] →
  Z.of_nat (length jfilename) < 2 ^ 31 - 1 →
  let times := {| actime := to_time_t (atime `quot` 1000);
                  modtime := to_time_t (mtime `quot` 1000) |} in
  ∃ w',
    Posix.Java_com_aoapps_io_posix_PosixFile_utime0 jfilename atime mtime w
    = Some ((), w') ∧
    kernel w' = (k_utime (c_path jfilename) times (kernel w)).2 ∧
    pending w' = Posix.raised_for (k_utime (c_path jfilename) times (kernel w)).1 (pending w).
Proof.
  intros Hf Hlen times. rewrite utime0_run by done. fold times.
  eexists. split; [reflexivity|].
  destruct (k_utime _ _ _) as [[[]|e] k']; done.
Qed.

(** X4: mknod0 makes exactly the call mknod(path, mode, device), the mode
    reduced to the 32 bits of mode_t and the device to the 64 bits of
    dev_t (both unchanged when they fit); it raises nothing on success and
    the class of the errno on failure. *)
Theorem mknod0_outcome (jfilename : jstring) (mode device : Z) (w : World K) :
  faults w = [] →
  Z.of_nat (length jfilename) < 2 ^ 31 - 1 →
  ∃ m d w',
    Posix.Java_com_aoapps_io_posix_PosixFile_mknod0 jfilename mode device w
    = Some ((), w') ∧
    m = mode `mod` 2 ^ 32 ∧ d = device `mod` 2 ^ 64 ∧
    (0 ≤ mode < 2 ^ 32 → m = mode) ∧ (0 ≤ device < 2 ^ 64 → d = device) ∧
    kernel w' = (k_mknod (c_path jfilename) m d (kernel w)).2 ∧
    pending w' = Posix.raised_for (k_mknod (c_path jfilename) m d (kernel w)).1 (pending w).
Proof.
  intros Hf Hlen. rewrite mknod0_run by done.
  eexists _, _, _. split; [reflexivity|].
  split; [reflexivity|]. split; [reflexivity|].
  split; [intros; by apply Z.mod_small|].
  split; [intros; by apply Z.mod_small|].
  unfold Libc.to_mode_t, Libc.to_dev_t.
  destruct (k_mknod _ _ _ _) as [[[]|e] k']; done.
Qed.

(** X5: setMode0 makes exactly the call chmod(path, mode), the mode reduced
    to the 32 bits of mode_t; it raises nothing on success and the class of
    the errno on failure. *)
Theorem setMode0_outcome (jfilename : jstring) (mode : Z) (w : World K) :
  faults w = [] →
  Z.of_nat (length jfilename) < 2 ^ 31 - 1 →
  ∃ m w',
    Posix.Java_com_aoapps_io_posix_PosixFile_setMode0 jfilename mode w
    = Some ((), w') ∧
    m = mode `mod` 2 ^ 32 ∧
    (0 ≤ mode < 2 ^ 32 → m = mode) ∧
    kernel w' = (k_chmod (c_path jfilename) m (kernel w)).2 ∧
    pending w' = Posix.raised_for (k_chmod (c_path jfilename) m (kernel w)).1 (pending w).
Proof.
  intros Hf Hlen. rewrite setMode0_run by done.
  eexists _, _. split; [reflexivity|].
  split; [reflexivity|]. split; [intros; by apply Z.mod_small|].
  unfold Libc.to_mode_t.
  destruct (k_chmod _ _ _) as [[[]|e] k']; done.
Qed.

(** X6: symLink0 calls symlink with the second string as the target and the
    first as the place of the new link; link0 calls link with the second
    string as the existing path and the first as the new one.  Each raises
    nothing on success and the class of the errno on failure. *)
Theorem symLink0_link0_outcome (jfilename jdestination : jstring) (w : World K) :
  faults w = [] →
  Z.of_nat (length jfilename) < 2 ^ 31 - 1 →
  Z.of_nat (length jdestination) < 2 ^ 31 - 1 →
  (∃ w',
     Posix.Java_com_aoapps_io_posix_PosixFile_symLink0 jfilename jdestination w
     = Some ((), w') ∧
     kernel w'
     = (k_symlink (c_path jdestination) (c_path jfilename) (kernel w)).2 ∧
     pending w'
     = Posix.raised_for
         (k_symlink (c_path jdestination) (c_path jfilename) (kernel w)).1 (pending w)) ∧
  (∃ w',
     Posix.Java_com_aoapps_io_posix_PosixFile_link0 jfilename jdestination w
     = Some ((), w') ∧
     kernel w'
     = (k_link (c_path jdestination) (c_path jfilename) (kernel w)).2 ∧
     pending w'
     = Posix.raised_for
         (k_link (c_path jdestination) (c_path jfilename) (kernel w)).1 (pending w)).
Proof.
  intros Hf Hlen Hlen'. split.
  - rewrite symLink0_run by done. eexists. split; [reflexivity|].
    destruct (k_symlink _ _ _) as [[[]|e] k']; done.
  - rewrite link0_run by done. eexists. split; [reflexivity|].
    destruct (k_link _ _ _) as [[[]|e] k']; done.
Qed.

End one_call.

Section early_exits.
Context {K : Type} {kern : Kernel K} {fsk : KernelFiles K} {plat : Platform}
        {sys_stat : SysStat}.

Lemma land_type_bits (x : Z) :
  Z.land (Libc.to_mode_t x) com_aoapps_io_posix_PosixFile_TYPE_MASK
  = Z.land x com_aoapps_io_posix_PosixFile_TYPE_MASK.
Proof.
  unfold Libc.to_mode_t. rewrite <- Z.land_ones by lia.
  by rewrite <- Z.land_assoc.
Qed.

Lemma land_permission_bits (x : Z) :
  Z.land (Libc.to_mode_t x) com_aoapps_io_posix_PosixFile_PERMISSION_MASK
  = Z.land x com_aoapps_io_posix_PosixFile_PERMISSION_MASK.
Proof.
  unfold Libc.to_mode_t. rewrite <- Z.land_ones by lia.
  by rewrite <- Z.land_assoc.
Qed.

Lemma permission_bits_only (mode : Z) :
  0 ≤ mode ≤ com_aoapps_io_posix_PosixFile_PERMISSION_MASK →
  Z.land mode com_aoapps_io_posix_PosixFile_PERMISSION_MASK = mode ∧
  Z.land mode com_aoapps_io_posix_PosixFile_TYPE_MASK = 0.
Proof.
  unfold com_aoapps_io_posix_PosixFile_PERMISSION_MASK,
    com_aoapps_io_posix_PosixFile_TYPE_MASK. intros Hm. split.
  - change 4095 with (Z.ones 12). rewrite Z.land_ones by lia.
    apply Z.mod_small. lia.
  - apply Z.bits_inj'. intros n Hn. rewrite Z.land_spec, Z.bits_0.
    destruct (decide (n < 12)).
    + change 61440 with (15 * 2 ^ 12).
      rewrite (Z.mul_pow2_bits_low 15 12 n) by lia. apply andb_false_r.
    + rewrite (Z.bits_above_log2 mode n); [done|lia|].
      destruct (decide (mode = 0)) as [->|]; [cbn; lia|].
      apply Z.log2_lt_pow2; [lia|].
      assert (2 ^ 12 ≤ 2 ^ n) by (apply Z.pow_le_mono_r; lia). lia.
Qed.

(** X7: mkfifo0 calls mknod with device 0 and the caller's mode or-ed with
    S_IFIFO: the permission bits are the caller's, the type bits are the
    caller's with the FIFO bit added.  For a mode that is only permission
    bits the node type is exactly FIFO. *)
Theorem mkfifo0_mode (jfilename : jstring) (mode : Z) (w : World K) :
  faults w = [] →
  Z.of_nat (length jfilename) < 2 ^ 31 - 1 →
  S_IFIFO = com_aoapps_io_posix_PosixFile_IS_FIFO →
  ∃ m w',
    Posix.Java_com_aoapps_io_posix_PosixFile_mkfifo0 jfilename mode w
    = Some ((), w') ∧
    m = Z.lor S_IFIFO mode `mod` 2 ^ 32 ∧
    kernel w' = (k_mknod (c_path jfilename) m 0 (kernel w)).2 ∧
    pending w'
    = Posix.raised_for (k_mknod (c_path jfilename) m 0 (kernel w)).1 (pending w) ∧
    Z.land m com_aoapps_io_posix_PosixFile_PERMISSION_MASK
    = Z.land mode com_aoapps_io_posix_PosixFile_PERMISSION_MASK ∧
    Z.land m com_aoapps_io_posix_PosixFile_TYPE_MASK
    = Z.lor com_aoapps_io_posix_PosixFile_IS_FIFO
        (Z.land mode com_aoapps_io_posix_PosixFile_TYPE_MASK) ∧
    (0 ≤ mode ≤ com_aoapps_io_posix_PosixFile_PERMISSION_MASK →
     Z.land m com_aoapps_io_posix_PosixFile_PERMISSION_MASK = mode ∧
     Z.land m com_aoapps_io_posix_PosixFile_TYPE_MASK
     = com_aoapps_io_posix_PosixFile_IS_FIFO).
Proof.
  intros Hf Hlen Hfifo. rewrite mkfifo0_run by done.
  exists (Libc.to_mode_t (Z.lor S_IFIFO mode)). eexists.
  split; [reflexivity|]. split; [reflexivity|].
  change (Libc.to_dev_t 0) with 0.
  split; [by destruct (k_mknod _ _ _ _) as [[[]|e] k']|].
  split; [destruct (k_mknod _ _ _ _) as [[[]|e] k']; done|].
  rewrite land_type_bits, land_permission_bits, Hfifo, !Z.land_lor_distr_l.
  change (Z.land com_aoapps_io_posix_PosixFile_IS_FIFO
            com_aoapps_io_posix_PosixFile_PERMISSION_MASK) with 0.
  change (Z.land com_aoapps_io_posix_PosixFile_IS_FIFO
            com_aoapps_io_posix_PosixFile_TYPE_MASK)
    with com_aoapps_io_posix_PosixFile_IS_FIFO.
  rewrite Z.lor_0_l. split; [done|]. split; [done|].
  intros [-> ->]%permission_bits_only. by rewrite Z.lor_0_r.
Qed.

(** X8: when the encoder returns NULL for the path, every native method that
    encodes its path first returns at once, NULL where it returns an object:
    it makes no call, allocates nothing more and raises nothing of its own,
    so the world is the one the encoder left. *)
Theorem path_not_encoded (jfilename other : jstring) (a b : Z) (w w' : World K) :
  getString8859_1Chars jfilename w = Some (None, w') →
  Posix.Java_com_aoapps_io_posix_PosixFile_chown0 jfilename a b w = Some ((), w') ∧
  Posix.Java_com_aoapps_io_posix_PosixFile_getStat0 jfilename w = Some (None, w') ∧
  Unix.Java_com_aoindustries_io_unix_UnixFile_getStat0 jfilename w = Some (None, w') ∧
  Posix.Java_com_aoapps_io_posix_PosixFile_mktemp0 jfilename w = Some (None, w') ∧
  Posix.Java_com_aoapps_io_posix_PosixFile_mknod0 jfilename a b w = Some ((), w') ∧
  Posix.Java_com_aoapps_io_posix_PosixFile_mkfifo0 jfilename a w = Some ((), w') ∧
  Posix.Java_com_aoapps_io_posix_PosixFile_setMode0 jfilename a w = Some ((), w') ∧
  Posix.Java_com_aoapps_io_posix_PosixFile_symLink0 jfilename other w = Some ((), w') ∧
  Posix.Java_com_aoapps_io_posix_PosixFile_link0 jfilename other w = Some ((), w') ∧
  Posix.Java_com_aoapps_io_posix_PosixFile_readLink0 jfilename w = Some (None, w').
Proof.
  intros Hnull.
  repeat split;
    first [ progress unfold Posix.Java_com_aoapps_io_posix_PosixFile_chown0
          | progress unfold Posix.Java_com_aoapps_io_posix_PosixFile_getStat0
          | progress unfold Unix.Java_com_aoindustries_io_unix_UnixFile_getStat0
          | progress unfold Posix.Java_com_aoapps_io_posix_PosixFile_mktemp0
          | progress unfold Posix.Java_com_aoapps_io_posix_PosixFile_mknod0
          | progress unfold Posix.Java_com_aoapps_io_posix_PosixFile_mkfifo0
          | progress unfold Posix.Java_com_aoapps_io_posix_PosixFile_setMode0
          | progress unfold Posix.Java_com_aoapps_io_posix_PosixFile_symLink0
          | progress unfold Posix.Java_com_aoapps_io_posix_PosixFile_link0
          | progress unfold Posix.Java_com_aoapps_io_posix_PosixFile_readLink0 ];
    rewrite ?bind_assoc_run; erewrite bind_run by exact Hnull; reflexivity.
Qed.

End early_exits.

Section no_memory.
Context {K : Type} {kern : Kernel K} {fsk : KernelFiles K} {plat : Platform}
        {sys_stat : SysStat}.

Lemma getErrorType_ENOMEM :
  errno_distinct → Posix.getErrorType ENOMEM = OUT_OF_MEMORY_EXCEPTION.
Proof. intros Hd. apply getErrorType_listed; [done|]. set_solver. Qed.

Lemma Unix_getErrorType_eq (err : Z) : Unix.getErrorType err = Posix.getErrorType err.
Proof. reflexivity. Qed.

Lemma length_c_path (jstr : jstring) : (length (c_path jstr) ≤ length jstr)%nat.
Proof.
  unfold c_path. etrans; [apply until_nul_length|]. by rewrite length_fmap.
Qed.

(** X9: symLink0 and link0 encode their second string after the first; when
    that second encoding returns NULL they return at once, without a call,
    leaving the world of the encoder. *)
Theorem second_path_not_encoded (jfilename jdestination : jstring)
    (filename : list Z) (w w1 w2 : World K) :
  getString8859_1Chars jfilename w = Some (Some filename, w1) →
  getString8859_1Chars jdestination w1 = Some (None, w2) →
  Posix.Java_com_aoapps_io_posix_PosixFile_symLink0 jfilename jdestination w
  = Some ((), w2) ∧
  Posix.Java_com_aoapps_io_posix_PosixFile_link0 jfilename jdestination w
  = Some ((), w2).
Proof.
  intros H1 H2.
  unfold Posix.Java_com_aoapps_io_posix_PosixFile_symLink0,
    Posix.Java_com_aoapps_io_posix_PosixFile_link0.
  split; rewrite ?bind_assoc_run; erewrite bind_run by exact H1; tidy;
    rewrite ?bind_assoc_run; erewrite bind_run by exact H2; reflexivity.
Qed.

(** X10: when the buffer a native method allocates after encoding its path
    cannot be had (the stat buffer of getStat0, the 4097 bytes of readLink0,
    the copy of the template of mktemp0), the method returns NULL with
    OutOfMemoryError raised, its text that of ENOMEM, and the kernel was
    never called. *)
Theorem buffer_not_allocated (jfilename : jstring) (w : World K) :
  errno_distinct →
  faults w = [true; true; false] →
  Z.of_nat (length jfilename) < 2 ^ 31 - 1 →
  let out_of_memory size :=
    mkWorld (kernel w) ENOMEM [] (garbage w)
      (Some (Thrown "java/lang/OutOfMemoryError" (strerror ENOMEM)))
      (trace w ++ [EvMalloc (Z.of_nat (length jfilename) + 1); EvMalloc size]) in
  Posix.Java_com_aoapps_io_posix_PosixFile_getStat0 jfilename w
  = Some (None, out_of_memory (to_size_t sizeof_struct_stat)) ∧
  Unix.Java_com_aoindustries_io_unix_UnixFile_getStat0 jfilename w
  = Some (None, out_of_memory (to_size_t sizeof_struct_stat)) ∧
  Posix.Java_com_aoapps_io_posix_PosixFile_readLink0 jfilename w
  = Some (None, out_of_memory 4097) ∧
  Posix.Java_com_aoapps_io_posix_PosixFile_mktemp0 jfilename w
  = Some (None, out_of_memory (Z.of_nat (length (c_path jfilename)) + 1)).
Proof.
  destruct w as [k e fs g p t]. tidy. intros Hd -> Hlen.
  pose proof (length_c_path jfilename) as Hpath.
  repeat split.
  - unfold Posix.Java_com_aoapps_io_posix_PosixFile_getStat0.
    step_by getString8859_1Chars_ok. do 3 step.
    rewrite getErrorType_ENOMEM by done. finish.
  - unfold Unix.Java_com_aoindustries_io_unix_UnixFile_getStat0.
    step_by getString8859_1Chars_ok. do 3 step.
    rewrite Unix_getErrorType_eq, getErrorType_ENOMEM by done. finish.
  - unfold Posix.Java_com_aoapps_io_posix_PosixFile_readLink0.
    step_by getString8859_1Chars_ok. do 3 step.
    rewrite getErrorType_ENOMEM by done. finish.
  - unfold Posix.Java_com_aoapps_io_posix_PosixFile_mktemp0.
    step_by getString8859_1Chars_ok.
    unfold strlen. rewrite c_str_latin1_buffer. do 3 step.
    rewrite malloc_size by lia. do 2 step.
    rewrite getErrorType_ENOMEM by done. finish.
Qed.

(** X11: utime0 and addEntropy0 allocate their structure before anything
    else; when that fails they raise OutOfMemoryError with the text of
    ENOMEM and do nothing else: utime0 does not even encode the path, and
    addEntropy0 does not open the device. *)
Theorem structure_not_allocated (jfilename : jstring) (atime mtime : Z)
    (randomData : jbyteArray) (w : World K) :
  errno_distinct →
  faults w = [false] →
  let out_of_memory size :=
    mkWorld (kernel w) ENOMEM [] (garbage w)
      (Some (Thrown "java/lang/OutOfMemoryError" (strerror ENOMEM)))
      (trace w ++ [EvMalloc (to_size_t size)]) in
  Posix.Java_com_aoapps_io_posix_PosixFile_utime0 jfilename atime mtime w
  = Some ((), out_of_memory sizeof_struct_utimbuf) ∧
  Posix.Java_com_aoapps_io_posix_linux_DevRandom_addEntropy0 randomData w
  = Some ((), out_of_memory
                (sizeof_struct_rand_pool_info + Z.of_nat (length randomData))).
Proof.
  destruct w as [k e fs g p t]. tidy. intros Hd ->. split.
  - unfold Posix.Java_com_aoapps_io_posix_PosixFile_utime0. do 2 step.
    rewrite getErrorType_ENOMEM by done. finish.
  - unfold Posix.Java_com_aoapps_io_posix_linux_DevRandom_addEntropy0. do 3 step.
    rewrite getErrorType_ENOMEM by done.
    unfold Posix.sizeof_char. rewrite Z.mul_1_l. finish.
Qed.

End no_memory.

Section strings.
Context {K : Type} {kern : Kernel K} {plat : Platform}.

Lemma to_char_to_uchar (z : Z) : to_char (to_uchar z) = to_char z.
Proof.
  unfold to_char, to_uchar, wrap. destruct char_is_signed.
  - change (2 ^ 8) with 256. by rewrite Z.add_mod_idemp_l.
  - by rewrite Z.mod_mod.
Qed.

Lemma to_uchar_range (z : Z) : 0 ≤ to_uchar z ≤ 255.
Proof. unfold to_uchar. pose proof (Z.mod_pos_bound z 256). lia. Qed.

Lemma decode_loop (p r dst : list Z) (w : World K) :
  (length p ≤ length dst)%nat →
  for_lt (Z.of_nat (length p))
    (λ i str1, c ← load (p ++ 0 :: r) i; store str1 i (to_uchar c)) dst w
  = Some ((to_uchar <$> p) ++ drop (length p) dst, w).
Proof.
  intros Hd.
  rewrite (for_lt_fill _ to_uchar (p ++ 0 :: r)); [| | |done].
  - by rewrite take_app_length.
  - intros j a w' c Hc Hj. erewrite bind_run by (by apply load_run).
    by apply store_run.
  - rewrite length_app. lia.
Qed.

(** X12: the decoder reads each char of the C string as an unsigned char: the
    string it returns has one code unit per byte before the terminator,
    each the byte modulo 256 and so within 0..255, whether the work array
    is the one on the stack or, for more than 512 bytes, from the heap;
    only then does it allocate, two bytes per code unit. *)
Theorem newString8859_1_unsigned (str p : list Z) (w : World K) :
  c_str str = Some p →
  faults w = [] →
  Z.of_nat (length p) < 2 ^ 31 →
  ∃ s w',
    newString8859_1 str w = Some (Some s, w') ∧
    s = (λ c, c `mod` 256) <$> p ∧
    length s = length p ∧
    Forall (λ unicode, 0 ≤ unicode ≤ 255) s ∧
    kernel w' = kernel w ∧ pending w' = pending w ∧
    trace w' = trace w ++ (if decide (Z.of_nat (length p) > 512)
                           then [EvMalloc (Z.of_nat (length p) * 2)] else []).
Proof.
  intros Hp Hf Hlen. rewrite (newString8859_1_run str p) by done.
  eexists _, _. split; [reflexivity|]. split; [done|].
  split; [by rewrite length_fmap|].
  split; [apply Forall_fmap, Forall_forall; intros c _; apply to_uchar_range|].
  destruct (decide _); unfold log; tidy; by rewrite ?app_nil_r.
Qed.

(** X13: the decoder returns NULL in two ways.  For more than 512 bytes, when
    the heap has no room it raises OutOfMemoryError with no message, and
    creates no string.  Otherwise, when the JVM cannot create the string,
    it returns NULL with the JVM's own exception and raises nothing
    itself. *)
Theorem newString8859_1_failure (str p : list Z) (w : World K) :
  c_str str = Some p →
  faults w = [false] →
  Z.of_nat (length p) < 2 ^ 31 →
  ∃ w',
    newString8859_1 str w = Some (None, w') ∧
    kernel w' = kernel w ∧
    if decide (Z.of_nat (length p) > 512)
    then pending w' = Some (Thrown "java/lang/OutOfMemoryError" null_message) ∧
         errno w' = ENOMEM ∧
         trace w' = trace w ++ [EvMalloc (Z.of_nat (length p) * 2)]
    else pending w' = Some JvmThrown ∧ errno w' = errno w ∧ trace w' = trace w.
Proof.
  destruct w as [k e fs g ex t]. tidy. intros Hp -> Hlen.
  apply c_str_Some in Hp as Hstr. destruct Hstr as [_ [r ->]].
  unfold newString8859_1, strlen. rewrite Hp. steps.
  rewrite to_jint_small by (unfold is_jint, in_range; lia).
  destruct (decide (Z.of_nat (length p) > 512)) as [Hbig|Hsmall].
  - steps. cbn [fmap option_fmap option_map]. steps.
    eexists. split; [reflexivity|]. tidy.
    unfold to_size_t, sizeof_jchar. by rewrite Z.mod_small by lia.
  - steps.
    erewrite bind_run by (apply decode_loop; rewrite length_indeterminate; lia).
    unfold NewString. rewrite decide_True.
    2:{ rewrite length_app, length_fmap. lia. }
    steps. eexists. split; [reflexivity|]. done.
Qed.

(** X14: encoding what the decoder made of a C string gives the C string
    back: for every NUL-terminated buffer of char values, the buffer the
    encoder builds from the decoded string is the bytes before the
    terminator and a terminator.  So a name read from the system (the
    target of a link) can be handed back to it unchanged. *)
Theorem encode_decode_bytes (p r : list Z) (w : World K) :
  faults w = [] →
  0 ∉ p →
  Forall (λ c, to_char c = c) p →
  Z.of_nat (length p) < 2 ^ 31 - 1 →
  ∃ s w1 w2,
    newString8859_1 (p ++ 0 :: r) w = Some (Some s, w1) ∧
    s = (λ c, c `mod` 256) <$> p ∧
    getString8859_1Chars s w1 = Some (Some (p ++ [0]), w2) ∧
    c_path s = p ∧
    kernel w2 = kernel w ∧ pending w2 = pending w.
Proof.
  intros Hf Hnul Hchars Hlen.
  assert (c_str (p ++ 0 :: r) = Some p) as Hp.
  { by rewrite c_str_app, until_nul_id. }
  assert ((λ unicode, to_char (latin1 unicode)) <$> (to_uchar <$> p) = p) as Hback.
  { rewrite <- list_fmap_compose. rewrite <- (list_fmap_id p) at 2.
    apply Forall_fmap_ext_1. eapply Forall_impl; [exact Hchars|].
    intros c Hc. simpl in Hc. cbn. pose proof (to_uchar_range c).
    unfold latin1. rewrite decide_True by lia. by rewrite to_char_to_uchar. }
  rewrite (newString8859_1_run _ p) by (done || lia).
  eexists _, _, _. split; [reflexivity|]. split; [reflexivity|].
  rewrite getString8859_1Chars_run.
  - unfold latin1_buffer, c_path. rewrite Hback, until_nul_id by done.
    split; [reflexivity|]. split; [done|].
    destruct (decide _); by unfold log; tidy.
  - by destruct (decide _).
  - rewrite length_fmap. lia.
Qed.

End strings.

Section status.
Context {K : Type} {kern : Kernel K} {plat : Platform}.

Lemma wrap_high (bits z : Z) :
  0 < bits → 2 ^ (bits - 1) ≤ z < 2 ^ bits → wrap bits z = z - 2 ^ bits.
Proof.
  intros Hb Hz. unfold wrap.
  assert (2 ^ bits = 2 * 2 ^ (bits - 1)) as Hpow.
  { rewrite <- Z.pow_succ_r by lia. f_equal. lia. }
  rewrite <- (Z.mod_add _ (-1)) by lia.
  rewrite Z.mod_small; lia.
Qed.

Lemma seconds_to_millis (t : Z) :
  is_jlong (t * 1000) → to_jlong (to_jlong t * 1000) = t * 1000.
Proof.
  unfold is_jlong, in_range. intros Ht.
  rewrite (to_jlong_small t) by (unfold is_jlong, in_range; lia).
  by apply to_jlong_small.
Qed.

(** X15: for a path that exists, getStat0 returns a Stat with the existence
    flag set and raises nothing.  Each field is the field of the stat
    buffer converted to its Java type: unchanged when it fits, the times
    multiplied by 1000 when the product fits, and a user or group id from
    2^31 up (uid_t is unsigned) turned into the negative number 2^32
    below it. *)
Theorem getStat0_existing (jfilename : jstring) (buff : stat) (w : World K) :
  faults w = [] →
  Z.of_nat (length jfilename) < 2 ^ 31 - 1 →
  k_lstat (c_path jfilename) (kernel w) = Ok buff →
  ∃ st w',
    Posix.Java_com_aoapps_io_posix_PosixFile_getStat0 jfilename w
    = Some (Some st, w') ∧
    exists_ st = true ∧
    kernel w' = kernel w ∧ pending w' = pending w ∧
    (is_jlong (st_dev buff) → device st = st_dev buff) ∧
    (is_jlong (st_ino buff) → inode st = st_ino buff) ∧
    (is_jlong (st_mode buff) → mode st = st_mode buff) ∧
    (is_jint (st_nlink buff) → numberLinks st = st_nlink buff) ∧
    (is_jlong (st_rdev buff) → deviceIdentifier st = st_rdev buff) ∧
    (is_jlong (st_size buff) → size st = st_size buff) ∧
    (is_jint (st_blksize buff) → blockSize st = st_blksize buff) ∧
    (is_jlong (st_blocks buff) → blockCount st = st_blocks buff) ∧
    (0 ≤ st_uid buff < 2 ^ 32 →
     uid st = if decide (st_uid buff < 2 ^ 31) then st_uid buff
              else st_uid buff - 2 ^ 32) ∧
    (0 ≤ st_gid buff < 2 ^ 32 →
     gid st = if decide (st_gid buff < 2 ^ 31) then st_gid buff
              else st_gid buff - 2 ^ 32) ∧
    (is_jlong (st_atime buff * 1000) → accessTime st = st_atime buff * 1000) ∧
    (is_jlong (st_mtime buff * 1000) → modifyTime st = st_mtime buff * 1000) ∧
    (is_jlong (st_ctime buff * 1000) → changeTime st = st_ctime buff * 1000).
Proof.
  intros Hf Hlen Hk. rewrite Posix_getStat0_run, Hk by done.
  assert (∀ id, 0 ≤ id < 2 ^ 32 →
            to_jint id = if decide (id < 2 ^ 31) then id else id - 2 ^ 32) as Hid.
  { intros id Hi. destruct (decide _).
    - apply to_jint_small. unfold is_jint, in_range. lia.
    - apply wrap_high; lia. }
  eexists _, _. split; [reflexivity|]. unfold Stat_of, log. cbn.
  repeat split;
    first [ apply to_jlong_small | apply to_jint_small
          | apply seconds_to_millis | apply Hid ].
Qed.

(** X16: when lstat fails for another reason than a missing path (not ENOENT,
    not ENOTDIR), getStat0 returns NULL and raises the class getErrorType
    gives for the errno, with the text of the errno; so do both
    generations. *)
Theorem getStat0_other_error (jfilename : jstring) (e : Z) (w : World K) :
  faults w = [] →
  Z.of_nat (length jfilename) < 2 ^ 31 - 1 →
  k_lstat (c_path jfilename) (kernel w) = Err e →
  e ≠ ENOENT → e ≠ ENOTDIR →
  ∃ w',
    Posix.Java_com_aoapps_io_posix_PosixFile_getStat0 jfilename w = Some (None, w') ∧
    Unix.Java_com_aoindustries_io_unix_UnixFile_getStat0 jfilename w = Some (None, w') ∧
    pending w' = Some (Thrown (class_name (Posix.getErrorType e)) (strerror e)) ∧
    errno w' = e ∧ kernel w' = kernel w.
Proof.
  intros Hf Hlen Hk H1 H2.
  rewrite Posix_getStat0_run, Unix_getStat0_run, Hk by done.
  rewrite !decide_False by (intros [?|?]; done).
  eexists. split; [reflexivity|]. split; [reflexivity|]. done.
Qed.

(** X17: when no request to the runtime fails, the two generations of
    getStat0 return the same Stat value and leave the same world, whatever
    lstat answers. *)
Theorem getStat0_generations_agree (jfilename : jstring) (w : World K) :
  faults w = [] →
  Z.of_nat (length jfilename) < 2 ^ 31 - 1 →
  ∃ r,
    Posix.Java_com_aoapps_io_posix_PosixFile_getStat0 jfilename w = Some r ∧
    Unix.Java_com_aoindustries_io_unix_UnixFile_getStat0 jfilename w = Some r.
Proof.
  intros Hf Hlen. rewrite Posix_getStat0_run, Unix_getStat0_run by done.
  eexists. split; reflexivity.
Qed.

(** X18: when lstat fails with another error than ENOENT or ENOTDIR and the
    JVM cannot find the exception class, newExcCls stays NULL; if the JVM
    then finds the Stat class, both generations go on to use the locals
    (exists and the rest) that no branch has assigned: the behaviour is
    undefined. *)
Theorem getStat0_unassigned_locals (jfilename : jstring) (e : Z) (w : World K) :
  faults w = [true; true; true; false] →
  Z.of_nat (length jfilename) < 2 ^ 31 - 1 →
  k_lstat (c_path jfilename) (kernel w) = Err e →
  e ≠ ENOENT → e ≠ ENOTDIR →
  Posix.Java_com_aoapps_io_posix_PosixFile_getStat0 jfilename w = None ∧
  Unix.Java_com_aoindustries_io_unix_UnixFile_getStat0 jfilename w = None.
Proof.
  destruct w as [k e0 fs g p t]. tidy. intros -> Hlen Hk H1 H2. split.
  - unfold Posix.Java_com_aoapps_io_posix_PosixFile_getStat0.
    step_by getString8859_1Chars_ok.
    step. unfold lstat. rewrite c_str_latin1_buffer. do 3 step. rewrite Hk.
    do 2 step. rewrite decide_False by (intros [?|?]; done).
    steps. reflexivity.
  - unfold Unix.Java_com_aoindustries_io_unix_UnixFile_getStat0.
    step_by getString8859_1Chars_ok.
    step. unfold lstat. rewrite c_str_latin1_buffer. do 3 step. rewrite Hk.
    do 2 step. rewrite decide_False by (intros [?|?]; done).
    steps. reflexivity.
Qed.

(** X19: for a path that exists, when the JVM fails to find the Stat class,
    or its constructor, or to create the object, getStat0 returns NULL and
    raises nothing itself: what is pending is the JVM's own exception. *)
Theorem getStat0_jvm_failure (jfilename : jstring) (buff : stat) (w : World K) :
  faults w = [true; true; true; false] ∨
  faults w = [true; true; true; true; false] ∨
  faults w = [true; true; true; true; true; false] →
  Z.of_nat (length jfilename) < 2 ^ 31 - 1 →
  k_lstat (c_path jfilename) (kernel w) = Ok buff →
  ∃ w',
    Posix.Java_com_aoapps_io_posix_PosixFile_getStat0 jfilename w = Some (None, w') ∧
    pending w' = Some JvmThrown ∧ kernel w' = kernel w ∧ errno w' = errno w.
Proof.
  destruct w as [k e0 fs g p t]. tidy. intros Hf Hlen Hk.
  unfold Posix.Java_com_aoapps_io_posix_PosixFile_getStat0.
  destruct Hf as [->|[->| ->]];
    (step_by getString8859_1Chars_ok;
     step; unfold lstat; rewrite c_str_latin1_buffer; do 3 step; rewrite Hk;
     steps; eexists; split; [reflexivity|done]).
Qed.

(** X20: when readlink fails, readLink0 returns NULL and raises the class
    getErrorType gives for the errno with the text of the errno; the
    decoder is not run. *)
Theorem readLink0_failure (jfilename : jstring) (e : Z) (w : World K) :
  faults w = [] →
  Z.of_nat (length jfilename) < 2 ^ 31 - 1 →
  k_readlink (c_path jfilename) (kernel w) = Err e →
  ∃ w',
    Posix.Java_com_aoapps_io_posix_PosixFile_readLink0 jfilename w = Some (None, w') ∧
    pending w' = Some (Thrown (class_name (Posix.getErrorType e)) (strerror e)) ∧
    errno w' = e ∧ kernel w' = kernel w ∧
    trace w' = trace w ++ [EvMalloc (Z.of_nat (length jfilename) + 1);
                           EvMalloc 4097;
                           EvReadlink (c_path jfilename) 4096].
Proof.
  intros Hf Hlen Hk. rewrite (readLink0_error jfilename e) by done.
  eexists. split; [reflexivity|]. done.
Qed.

End status.

Section descriptors.
Context {K : Type} {kern : Kernel K} {fsk : KernelFiles K} {plat : Platform}
        {sys_stat : SysStat}.

Lemma take_terminated (s : list Z) :
  take (S (length (until_nul s))) (s ++ [0]) = until_nul s ++ [0].
Proof.
  induction s as [|c s IH]; [done|]. cbn.
  destruct (Z.eqb_spec c 0) as [->|]; [done|]. cbn. by rewrite IH.
Qed.

Lemma until_nul_idemp (s : list Z) : until_nul (until_nul s) = until_nul s.
Proof.
  induction s as [|c s IH]; [done|]. cbn.
  destruct (Z.eqb_spec c 0) as [->|Hc]; [done|]. cbn.
  destruct (Z.eqb_spec c 0); [done|]. by rewrite IH.
Qed.

Lemma take_c_path (jstr : jstring) :
  take (S (length (c_path jstr))) (latin1_buffer jstr) = c_path jstr ++ [0].
Proof. apply take_terminated. Qed.

Lemma c_str_c_path (jstr : jstring) (r : list Z) :
  c_str (c_path jstr ++ 0 :: r) = Some (c_path jstr).
Proof. unfold c_path. by rewrite c_str_app, until_nul_idemp. Qed.

(** [mktemp0] up to the answer of [mkstemp]: the template is encoded, its
    bytes up to and with the terminator are copied to a block of that
    size, and [mkstemp] is given the copy. *)
Ltac enter_mktemp0 jtemplate :=
  pose proof (length_c_path jtemplate);
  unfold Posix.Java_com_aoapps_io_posix_PosixFile_mktemp0;
  step_by getString8859_1Chars_run; unfold log; tidy;
  unfold strlen; rewrite c_str_latin1_buffer; do 3 step;
  rewrite malloc_size by lia;
  rewrite to_jint_small by (unfold is_jint, in_range; lia);
  unfold Libc.memcpy; rewrite decide_True
    by (rewrite length_indeterminate; unfold latin1_buffer;
        rewrite length_app, length_fmap; cbn; lia);
  step;
  rewrite drop_ge by (rewrite length_indeterminate; lia); rewrite app_nil_r;
  replace (Z.to_nat (Z.of_nat (length (c_path jtemplate)) + 1))
    with (S (length (c_path jtemplate))) by lia;
  rewrite take_c_path;
  unfold Libc.mkstemp; rewrite c_str_c_path; step;
  enter_syscall.

(** X21: when mkstemp makes the file and the descriptor closes, mktemp0
    returns the name mkstemp wrote over the copy of the template, decoded,
    and raises nothing.  The template handed to mkstemp is the encoded
    string up to its first NUL; the descriptor is closed before the name is
    decoded. *)
Theorem mktemp0_returns_name (jtemplate : jstring) (fd : Z) (name : list Z)
    (k1 k2 : K) (w : World K) :
  faults w = [] →
  Z.of_nat (length jtemplate) < 2 ^ 31 - 1 →
  k_mkstemp (c_path jtemplate) (kernel w) = (Ok (fd, name), k1) →
  length name = length (c_path jtemplate) →
  is_jint fd → fd ≠ -1 →
  k_close fd k1 = (Ok (), k2) →
  ∃ w',
    Posix.Java_com_aoapps_io_posix_PosixFile_mktemp0 jtemplate w
    = Some (Some (to_uchar <$> until_nul name), w') ∧
    kernel w' = k2 ∧ pending w' = pending w ∧
    ∃ decoding,
      trace w' = trace w ++ [EvMalloc (Z.of_nat (length jtemplate) + 1);
                             EvMalloc (Z.of_nat (length (c_path jtemplate)) + 1);
                             EvClose fd] ++ decoding.
Proof.
  destruct w as [k e fs g p t]. tidy. intros -> Hlen Hk Hname Hfd Hfd' Hc.
  enter_mktemp0 jtemplate.
  rewrite Hk. rewrite decide_True by done. step.
  rewrite (to_jint_small fd) by done. rewrite decide_True by done.
  rewrite Hname, drop_app_length.
  unfold close. step. enter_syscall. rewrite Hc. step.
  rewrite decide_True by done.
  pose proof (until_nul_length name).
  step_with (by apply (newString8859_1_run _ (until_nul name));
               [apply c_str_until_nul| |tidy; lia]).
  destruct (decide (Z.of_nat (length (until_nul name)) > 512));
    steps; (eexists; split; [reflexivity|]); unfold log; tidy;
    (split; [done|]); (split; [done|]); eexists; rewrite <- !app_assoc;
    reflexivity.
Qed.

(** X22: mktemp0 returns NULL and raises the class of the errno when mkstemp
    fails, and then closes nothing; and also when mkstemp made the file but
    closing its descriptor fails: the error raised is that of close, and
    the file stays (the kernel is the one close left, nothing is
    unlinked). *)
Theorem mktemp0_failure (jtemplate : jstring) (w : World K) :
  faults w = [] →
  Z.of_nat (length jtemplate) < 2 ^ 31 - 1 →
  let allocations := [EvMalloc (Z.of_nat (length jtemplate) + 1);
                      EvMalloc (Z.of_nat (length (c_path jtemplate)) + 1)] in
  let raised e := Some (Thrown (class_name (Posix.getErrorType e)) (strerror e)) in
  (∀ e k1,
     k_mkstemp (c_path jtemplate) (kernel w) = (Err e, k1) →
     Posix.Java_com_aoapps_io_posix_PosixFile_mktemp0 jtemplate w
     = Some (None, mkWorld k1 e [] (garbage w) (raised e)
                     (trace w ++ allocations))) ∧
  (∀ fd name k1 e k2,
     k_mkstemp (c_path jtemplate) (kernel w) = (Ok (fd, name), k1) →
     length name = length (c_path jtemplate) →
     is_jint fd → fd ≠ -1 →
     k_close fd k1 = (Err e, k2) →
     Posix.Java_com_aoapps_io_posix_PosixFile_mktemp0 jtemplate w
     = Some (None, mkWorld k2 e [] (garbage w) (raised e)
                     (trace w ++ allocations ++ [EvClose fd]))).
Proof.
  destruct w as [k e0 fs g p t]. tidy. intros -> Hlen. split.
  - intros e k1 Hk. enter_mktemp0 jtemplate. rewrite Hk. step.
    change (to_jint (-1)) with (-1). rewrite decide_False by lia. finish.
  - intros fd name k1 e k2 Hk Hname Hfd Hfd' Hc. enter_mktemp0 jtemplate.
    rewrite Hk. rewrite decide_True by done. step.
    rewrite (to_jint_small fd) by done. rewrite decide_True by done.
    unfold close. step. enter_syscall. rewrite Hc. step.
    rewrite decide_False by lia. finish.
Qed.

(** The structure [addEntropy0] hands to the kernel. *)
Lemma addEntropy0_filled (randomData : jbyteArray) (g : nat → Z) (w : World K) :
  Z.of_nat (length randomData) < 2 ^ 31 →
  for_lt (Z.of_nat (length randomData))
    (λ c buf, b ← load randomData c; store buf c (to_char b))
    (drop (Z.to_nat sizeof_struct_rand_pool_info)
       (indeterminate g
          (sizeof_struct_rand_pool_info + Z.of_nat (length randomData)))) w
  = Some (to_char <$> randomData, w).
Proof.
  intros Hlen.
  rewrite (for_lt_fill _ to_char randomData); [| |done|].
  - rewrite firstn_all, (drop_ge (drop _ _)); [by rewrite app_nil_r|].
    rewrite length_drop, length_indeterminate.
    unfold sizeof_struct_rand_pool_info. lia.
  - intros j a w' c Hc Hj. erewrite bind_run by (by apply load_run).
    by apply store_run.
  - rewrite length_drop, length_indeterminate.
    unfold sizeof_struct_rand_pool_info. lia.
Qed.

(** [addEntropy0] up to the answer of [open]. *)
Ltac enter_addEntropy0 randomData :=
  unfold Posix.Java_com_aoapps_io_posix_linux_DevRandom_addEntropy0; do 2 step;
  unfold Posix.sizeof_char; rewrite Z.mul_1_l;
  replace (to_size_t (sizeof_struct_rand_pool_info + Z.of_nat (length randomData)))
    with (sizeof_struct_rand_pool_info + Z.of_nat (length randomData))
    by (unfold to_size_t, sizeof_struct_rand_pool_info;
        rewrite Z.mod_small; lia);
  step;
  rewrite ?bind_assoc_run; erewrite bind_run by (by apply addEntropy0_filled);
  step;
  unfold open;
  change (c_str (c_literal "/dev/random")) with (Some (chars "/dev/random"));
  do 2 step; enter_syscall.

(** X23: when /dev/random cannot be opened, addEntropy0 raises the class of
    the errno and sends nothing.  It takes every descriptor that is not
    above 0 for a failure: if open answers descriptor 0, the exception is
    made from whatever errno held before the call, and the descriptor is
    neither used nor closed. *)
Theorem addEntropy0_not_opened (randomData : jbyteArray) (r : sysret Z)
    (k1 : K) (w : World K) :
  faults w = [] →
  Z.of_nat (length randomData) < 2 ^ 31 →
  k_open (chars "/dev/random") O_WRONLY (kernel w) = (r, k1) →
  match r with Ok fd => fd ≤ 0 | Err _ => True end →
  let e := match r with Ok _ => errno w | Err e => e end in
  Posix.Java_com_aoapps_io_posix_linux_DevRandom_addEntropy0 randomData w
  = Some ((), mkWorld k1 e [] (garbage w)
                (Some (Thrown (class_name (Posix.getErrorType e)) (strerror e)))
                (trace w ++
                 [EvMalloc (sizeof_struct_rand_pool_info
                            + Z.of_nat (length randomData));
                  EvOpen (chars "/dev/random") O_WRONLY])).
Proof.
  destruct w as [k e0 fs g p t]. tidy. intros -> Hlen Hk Hr.
  enter_addEntropy0 randomData. rewrite Hk.
  destruct r as [fd|e]; step; rewrite decide_False by lia; finish.
Qed.

(** X24: once /dev/random is open, addEntropy0 always closes the descriptor,
    whether the request succeeded or not, and ignores the result of close.
    It raises nothing when the request succeeds (even if close fails), and
    when the request fails the class is that of the request's errno; but
    the text is taken from errno after close, so when close fails too the
    exception has the class of one error and the text of the other. *)
Theorem addEntropy0_outcome (randomData : jbyteArray) (fd : Z)
    (r1 r2 : sysret ()) (k1 k2 k3 : K) (w : World K) :
  faults w = [] →
  Z.of_nat (length randomData) < 2 ^ 31 →
  k_open (chars "/dev/random") O_WRONLY (kernel w) = (Ok fd, k1) →
  fd > 0 →
  let len := Z.of_nat (length randomData) in
  let request := {| entropy_count := to_jint (len ≪ 3);
                    buf_size := len;
                    buf := to_char <$> randomData |} in
  k_ioctl fd RNDADDENTROPY request k1 = (r1, k2) →
  k_close fd k2 = (r2, k3) →
  ∃ w',
    Posix.Java_com_aoapps_io_posix_linux_DevRandom_addEntropy0 randomData w
    = Some ((), w') ∧
    kernel w' = k3 ∧
    last (trace w') = Some (EvClose fd) ∧
    pending w'
    = match r1, r2 with
      | Ok _, _ => pending w
      | Err e1, Ok _ =>
          Some (Thrown (class_name (Posix.getErrorType e1)) (strerror e1))
      | Err e1, Err e2 =>
          Some (Thrown (class_name (Posix.getErrorType e1)) (strerror e2))
      end.
Proof.
  destruct w as [k e0 fs g p t]. tidy. intros -> Hlen Hk Hfd H1 H2.
  enter_addEntropy0 randomData. rewrite Hk. step. rewrite decide_True by done.
  rewrite (to_jint_small (Z.of_nat (length randomData)))
    by (unfold is_jint, in_range; lia).
  unfold ioctl, close. step. enter_syscall. rewrite H1.
  destruct r1 as [[]|e1]; steps; enter_syscall; rewrite H2;
    destruct r2 as [[]|e2]; steps;
    (eexists; split; [reflexivity|]); tidy;
    rewrite !last_snoc; done.
Qed.

End descriptors.

Section paths.
Context {K : Type} {kern : Kernel K} {fsk : KernelFiles K} {plat : Platform}
        {sys_stat : SysStat}.

(** X25: a native method sees of its path only the bytes the system call
    reads: the encoded string up to its first NUL.  Two Java strings with
    the same such bytes (one with something after a NUL, or with another
    code unit above 255 where the other has one) have the same effect: the
    same result, kernel, errno and exception. *)
Theorem only_the_c_path_matters (jfilename jfilename' : jstring) (a b : Z)
    (w : World K) :
  faults w = [] →
  Z.of_nat (length jfilename) < 2 ^ 31 - 1 →
  Z.of_nat (length jfilename') < 2 ^ 31 - 1 →
  c_path jfilename = c_path jfilename' →
  Posix.same_effect
    (Posix.Java_com_aoapps_io_posix_PosixFile_chown0 jfilename a b w)
    (Posix.Java_com_aoapps_io_posix_PosixFile_chown0 jfilename' a b w) ∧
  Posix.same_effect
    (Posix.Java_com_aoapps_io_posix_PosixFile_getStat0 jfilename w)
    (Posix.Java_com_aoapps_io_posix_PosixFile_getStat0 jfilename' w) ∧
  Posix.same_effect
    (Posix.Java_com_aoapps_io_posix_PosixFile_readLink0 jfilename w)
    (Posix.Java_com_aoapps_io_posix_PosixFile_readLink0 jfilename' w) ∧
  Posix.same_effect
    (Posix.Java_com_aoapps_io_posix_PosixFile_utime0 jfilename a b w)
    (Posix.Java_com_aoapps_io_posix_PosixFile_utime0 jfilename' a b w) ∧
  Posix.same_effect
    (Posix.Java_com_aoapps_io_posix_PosixFile_mknod0 jfilename a b w)
    (Posix.Java_com_aoapps_io_posix_PosixFile_mknod0 jfilename' a b w) ∧
  Posix.same_effect
    (Posix.Java_com_aoapps_io_posix_PosixFile_setMode0 jfilename a w)
    (Posix.Java_com_aoapps_io_posix_PosixFile_setMode0 jfilename' a w).
Proof.
  intros Hf Hlen Hlen' Hpath. repeat split.
  - rewrite !chown0_run, Hpath by done.
    by destruct (k_lchown _ _ _ _) as [[[]|e] k'].
  - rewrite !Posix_getStat0_run, Hpath by done.
    destruct (k_lstat _ _) as [buff|e]; [done|]. by destruct (decide _).
  - destruct (k_readlink (c_path jfilename) (kernel w)) as [target|e] eqn:Hk.
    + rewrite (readLink0_run jfilename target), (readLink0_run jfilename' target)
        by (done || by rewrite <- Hpath).
      done.
    + rewrite (readLink0_error jfilename e), (readLink0_error jfilename' e)
        by (done || by rewrite <- Hpath).
      done.
  - rewrite !utime0_run, Hpath by done.
    by destruct (k_utime _ _ _) as [[[]|e] k'].
  - rewrite !mknod0_run, Hpath by done.
    by destruct (k_mknod _ _ _ _) as [[[]|e] k'].
  - rewrite !setMode0_run, Hpath by done.
    by destruct (k_chmod _ _ _) as [[[]|e] k'].
Qed.

End paths.

(** * The further properties on Linux, run on the two kernels *)

#[local] Existing Instance linux_sys_stat.

Lemma getString8859_1Chars_failure_example :
  Z.of_nat (length (chars "/etc/motd")) < 2 ^ 31 - 1 ∧
  ∃ w',
    getString8859_1Chars (chars "/etc/motd") (world_with [true; false] disk0)
    = Some (None, w') ∧
    pending w' = Some (Thrown "java/lang/OutOfMemoryError" null_message) ∧
    errno w' = 12 ∧
    trace w' = [EvMalloc 10].
Proof.
  assert (Z.of_nat (length (chars "/etc/motd")) < 2 ^ 31 - 1) as Hlen
    by (by vm_compute).
  split; [done|].
  destruct (getString8859_1Chars_failure (chars "/etc/motd")
              (world_with [true; false] disk0) Hlen) as [_ Hmem].
  destruct (Hmem eq_refl) as (w' & Hrun & Hp & He & Ht).
  exists w'. by repeat split.
Defined.

Lemma chown0_outcome_example :
  (faults (world0 disk0) = [] ∧
   Z.of_nat (length (chars "/etc/motd")) < 2 ^ 31 - 1) ∧
  ∃ w',
    Posix.Java_com_aoapps_io_posix_PosixFile_chown0
      (chars "/etc/motd") (-2) 34 (world0 disk0) = Some ((), w') ∧
    pending w' = None ∧
    k_lstat (chars "/etc/motd") (kernel w')
    = Ok (attrs (set_owner 4294967294 34 plain_file)).
Proof.
  assert (Z.of_nat (length (chars "/etc/motd")) < 2 ^ 31 - 1) as Hlen
    by (by vm_compute).
  split; [done|].
  destruct (chown0_outcome (chars "/etc/motd") (-2) 34 (world0 disk0) eq_refl Hlen)
    as (owner & group & w' & Hrun & -> & -> & _ & _ & Hk & Hp).
  exists w'. split; [done|]. rewrite Hp, Hk. split; by vm_compute.
Defined.

Lemma utime0_outcome_example :
  (faults (world0 disk0) = [] ∧
   Z.of_nat (length (chars "/etc/nope")) < 2 ^ 31 - 1) ∧
  ∃ w',
    Posix.Java_com_aoapps_io_posix_PosixFile_utime0
      (chars "/etc/nope") 1000 2000 (world0 disk0) = Some ((), w') ∧
    pending w' = Some (Thrown "java/io/FileNotFoundException" (strerror 2)) ∧
    kernel w' = disk0.
Proof.
  assert (Z.of_nat (length (chars "/etc/nope")) < 2 ^ 31 - 1) as Hlen
    by (by vm_compute).
  split; [done|].
  destruct (utime0_outcome (chars "/etc/nope") 1000 2000 (world0 disk0)
              eq_refl Hlen) as (w' & Hrun & Hk & Hp).
  exists w'. split; [done|]. rewrite Hp, Hk. split; by vm_compute.
Defined.

Lemma mknod0_outcome_example :
  (faults (world0 disk0) = [] ∧
   Z.of_nat (length (chars "/dev/tty9")) < 2 ^ 31 - 1) ∧
  ∃ w',
    Posix.Java_com_aoapps_io_posix_PosixFile_mknod0
      (chars "/dev/tty9") 8630 1033 (world0 disk0) = Some ((), w') ∧
    pending w' = None ∧
    k_lstat (chars "/dev/tty9") (kernel w') = Ok (attrs (node_of_mode 8630 1033)).
Proof.
  assert (Z.of_nat (length (chars "/dev/tty9")) < 2 ^ 31 - 1) as Hlen
    by (by vm_compute).
  split; [done|].
  destruct (mknod0_outcome (chars "/dev/tty9") 8630 1033 (world0 disk0)
              eq_refl Hlen) as (m & d & w' & Hrun & -> & -> & _ & _ & Hk & Hp).
  exists w'. split; [done|]. rewrite Hp, Hk. split; by vm_compute.
Defined.

Lemma setMode0_outcome_example :
  (faults (world0 disk0) = [] ∧
   Z.of_nat (length (chars "/etc/motd")) < 2 ^ 31 - 1) ∧
  ∃ w',
    Posix.Java_com_aoapps_io_posix_PosixFile_setMode0
      (chars "/etc/motd") 384 (world0 disk0) = Some ((), w') ∧
    pending w' = None ∧
    st_mode <$> (match k_lstat (chars "/etc/motd") (kernel w') with
                 | Ok buff => Some buff | Err _ => None end) = Some 33152.
Proof.
  assert (Z.of_nat (length (chars "/etc/motd")) < 2 ^ 31 - 1) as Hlen
    by (by vm_compute).
  split; [done|].
  destruct (setMode0_outcome (chars "/etc/motd") 384 (world0 disk0)
              eq_refl Hlen) as (m & w' & Hrun & -> & _ & Hk & Hp).
  exists w'. split; [done|]. rewrite Hp, Hk. split; by vm_compute.
Defined.

Lemma symLink0_link0_outcome_example :
  (faults (world0 disk0) = [] ∧
   Z.of_nat (length (chars "/etc/new")) < 2 ^ 31 - 1 ∧
   Z.of_nat (length (chars "/etc/motd")) < 2 ^ 31 - 1) ∧
  (∃ w',
     Posix.Java_com_aoapps_io_posix_PosixFile_symLink0
       (chars "/etc/new") (chars "/etc/motd") (world0 disk0) = Some ((), w') ∧
     pending w' = None ∧
     k_readlink (chars "/etc/new") (kernel w') = Ok (chars "/etc/motd")) ∧
  (∃ w',
     Posix.Java_com_aoapps_io_posix_PosixFile_link0
       (chars "/etc/new") (chars "/etc/motd") (world0 disk0) = Some ((), w') ∧
     pending w' = None ∧
     k_lstat (chars "/etc/new") (kernel w') = Ok (attrs plain_file)).
Proof.
  assert (Z.of_nat (length (chars "/etc/new")) < 2 ^ 31 - 1) as Hlen
    by (by vm_compute).
  assert (Z.of_nat (length (chars "/etc/motd")) < 2 ^ 31 - 1) as Hlen'
    by (by vm_compute).
  split; [done|].
  destruct (symLink0_link0_outcome (chars "/etc/new") (chars "/etc/motd")
              (world0 disk0) eq_refl Hlen Hlen')
    as [(w1 & Hrun1 & Hk1 & Hp1) (w2 & Hrun2 & Hk2 & Hp2)].
  split.
  - exists w1. split; [done|]. rewrite Hp1, Hk1. split; by vm_compute.
  - exists w2. split; [done|]. rewrite Hp2, Hk2. split; by vm_compute.
Defined.

Lemma mkfifo0_mode_example :
  (faults (world0 disk0) = [] ∧
   Z.of_nat (length (chars "/tmp/pipe")) < 2 ^ 31 - 1 ∧
   S_IFIFO = com_aoapps_io_posix_PosixFile_IS_FIFO) ∧
  ∃ w',
    Posix.Java_com_aoapps_io_posix_PosixFile_mkfifo0
      (chars "/tmp/pipe") 420 (world0 disk0) = Some ((), w') ∧
    pending w' = None ∧
    k_lstat (chars "/tmp/pipe") (kernel w') = Ok (attrs (node_of_mode 4516 0)).
Proof.
  assert (Z.of_nat (length (chars "/tmp/pipe")) < 2 ^ 31 - 1) as Hlen
    by (by vm_compute).
  assert (S_IFIFO = com_aoapps_io_posix_PosixFile_IS_FIFO) as Hfifo
    by reflexivity.
  split; [done|].
  destruct (mkfifo0_mode (chars "/tmp/pipe") 420 (world0 disk0)
              eq_refl Hlen Hfifo) as (m & w' & Hrun & -> & Hk & Hp & _).
  exists w'. split; [done|]. rewrite Hp, Hk. split; by vm_compute.
Defined.


Lemma path_not_encoded_example :
  getString8859_1Chars (chars "/etc/motd") (world_with [false] disk0)
  = Some (None, mkWorld disk0 0 [] (garbage (world0 disk0)) (Some JvmThrown) []) ∧
  Posix.Java_com_aoapps_io_posix_PosixFile_chown0
    (chars "/etc/motd") 33 34 (world_with [false] disk0)
  = Some ((), mkWorld disk0 0 [] (garbage (world0 disk0)) (Some JvmThrown) []) ∧
  Posix.Java_com_aoapps_io_posix_PosixFile_readLink0
    (chars "/etc/motd") (world_with [false] disk0)
  = Some (None, mkWorld disk0 0 [] (garbage (world0 disk0)) (Some JvmThrown) []).
Proof.
  assert (getString8859_1Chars (chars "/etc/motd") (world_with [false] disk0)
          = Some (None, mkWorld disk0 0 [] (garbage (world0 disk0))
                          (Some JvmThrown) [])) as Hnull
    by reflexivity.
  split; [done|].
  destruct (path_not_encoded (chars "/etc/motd") (chars "/etc/new") 33 34
              (world_with [false] disk0) _ Hnull)
    as (Hchown & _ & _ & _ & _ & _ & _ & _ & _ & Hread).
  by split.
Defined.

Lemma second_path_not_encoded_example :
  (getString8859_1Chars (chars "/etc/new") (world_with [true; true; false] disk0)
   = Some (Some (latin1_buffer (chars "/etc/new")),
           mkWorld disk0 0 [false] (garbage (world0 disk0)) None [EvMalloc 9]) ∧
   getString8859_1Chars (chars "/etc/motd")
     (mkWorld disk0 0 [false] (garbage (world0 disk0)) None [EvMalloc 9])
   = Some (None, mkWorld disk0 0 [] (garbage (world0 disk0)) (Some JvmThrown)
                   [EvMalloc 9])) ∧
  Posix.Java_com_aoapps_io_posix_PosixFile_symLink0
    (chars "/etc/new") (chars "/etc/motd") (world_with [true; true; false] disk0)
  = Some ((), mkWorld disk0 0 [] (garbage (world0 disk0)) (Some JvmThrown)
                [EvMalloc 9]) ∧
  Posix.Java_com_aoapps_io_posix_PosixFile_link0
    (chars "/etc/new") (chars "/etc/motd") (world_with [true; true; false] disk0)
  = Some ((), mkWorld disk0 0 [] (garbage (world0 disk0)) (Some JvmThrown)
                [EvMalloc 9]).
Proof.
  assert (getString8859_1Chars (chars "/etc/new")
            (world_with [true; true; false] disk0)
          = Some (Some (latin1_buffer (chars "/etc/new")),
                  mkWorld disk0 0 [false] (garbage (world0 disk0)) None
                    [EvMalloc 9])) as Hfirst
    by (vm_compute; reflexivity).
  assert (getString8859_1Chars (chars "/etc/motd")
            (mkWorld disk0 0 [false] (garbage (world0 disk0)) None [EvMalloc 9])
          = Some (None, mkWorld disk0 0 [] (garbage (world0 disk0))
                          (Some JvmThrown) [EvMalloc 9])) as Hsecond
    by reflexivity.
  split; [done|].
  exact (second_path_not_encoded (chars "/etc/new") (chars "/etc/motd") _ _ _ _
           Hfirst Hsecond).
Defined.

Lemma buffer_not_allocated_example :
  (errno_distinct ∧
   faults (world_with [true; true; false] disk0) = [true; true; false] ∧
   Z.of_nat (length (chars "/etc/motd")) < 2 ^ 31 - 1) ∧
  Posix.Java_com_aoapps_io_posix_PosixFile_getStat0
    (chars "/etc/motd") (world_with [true; true; false] disk0)
  = Some (None,
          mkWorld disk0 12 [] (garbage (world0 disk0))
            (Some (Thrown "java/lang/OutOfMemoryError" (strerror 12)))
            [EvMalloc 10; EvMalloc 144]) ∧
  Posix.Java_com_aoapps_io_posix_PosixFile_readLink0
    (chars "/etc/motd") (world_with [true; true; false] disk0)
  = Some (None,
          mkWorld disk0 12 [] (garbage (world0 disk0))
            (Some (Thrown "java/lang/OutOfMemoryError" (strerror 12)))
            [EvMalloc 10; EvMalloc 4097]).
Proof.
  assert (Z.of_nat (length (chars "/etc/motd")) < 2 ^ 31 - 1) as Hlen
    by (by vm_compute).
  split; [split; [exact linux_errno_distinct|done]|].
  pose proof (buffer_not_allocated (chars "/etc/motd")
                (world_with [true; true; false] disk0)
                linux_errno_distinct eq_refl Hlen) as H.
  cbv zeta in H. destruct H as (Hstat & _ & Hread & _).
  split; [exact Hstat|exact Hread].
Defined.

Lemma structure_not_allocated_example :
  (errno_distinct ∧ faults (world_with [false] disk0) = [false]) ∧
  Posix.Java_com_aoapps_io_posix_PosixFile_utime0
    (chars "/etc/motd") 1000 2000 (world_with [false] disk0)
  = Some ((),
          mkWorld disk0 12 [] (garbage (world0 disk0))
            (Some (Thrown "java/lang/OutOfMemoryError" (strerror 12)))
            [EvMalloc 16]) ∧
  Posix.Java_com_aoapps_io_posix_linux_DevRandom_addEntropy0
    [1; 2; -3] (world_with [false] disk0)
  = Some ((),
          mkWorld disk0 12 [] (garbage (world0 disk0))
            (Some (Thrown "java/lang/OutOfMemoryError" (strerror 12)))
            [EvMalloc 11]).
Proof.
  split; [split; [exact linux_errno_distinct|done]|].
  pose proof (structure_not_allocated (chars "/etc/motd") 1000 2000 [1; 2; -3]
                (world_with [false] disk0) linux_errno_distinct eq_refl) as H.
  cbv zeta in H. destruct H as (Hutime & Hentropy).
  split; [exact Hutime|exact Hentropy].
Defined.

Lemma newString8859_1_unsigned_example :
  (c_str [72; -23; 0; 99] = Some [72; -23] ∧
   faults (world0 disk0) = [] ∧
   Z.of_nat (length [72; -23]) < 2 ^ 31) ∧
  ∃ w',
    newString8859_1 [72; -23; 0; 99] (world0 disk0) = Some (Some [72; 233], w') ∧
    trace w' = [].
Proof.
  assert (Z.of_nat (length [72; -23]) < 2 ^ 31) as Hlen by (by vm_compute).
  split; [done|].
  destruct (newString8859_1_unsigned [72; -23; 0; 99] [72; -23] (world0 disk0)
              eq_refl eq_refl Hlen)
    as (s & w' & Hrun & -> & _ & _ & _ & _ & Ht).
  exists w'. split; [exact Hrun|]. rewrite Ht. reflexivity.
Defined.

Lemma newString8859_1_failure_example :
  (c_str [72; 0] = Some [72] ∧
   faults (world_with [false] disk0) = [false] ∧
   Z.of_nat (length [72]) < 2 ^ 31) ∧
  ∃ w',
    newString8859_1 [72; 0] (world_with [false] disk0) = Some (None, w') ∧
    pending w' = Some JvmThrown.
Proof.
  assert (Z.of_nat (length [72]) < 2 ^ 31) as Hlen by (by vm_compute).
  split; [done|].
  destruct (newString8859_1_failure [72; 0] [72] (world_with [false] disk0)
              eq_refl eq_refl Hlen) as (w' & Hrun & _ & Hcase).
  exists w'. split; [exact Hrun|].
  destruct (decide (Z.of_nat (length [72]) > 512)) as [Hbig|_];
    [by vm_compute in Hbig|].
  by destruct Hcase.
Defined.

Lemma encode_decode_bytes_example :
  (faults (world0 disk0) = [] ∧
   (0 ∉ [47; 116; -23]) ∧
   Forall (λ c, to_char c = c) [47; 116; -23] ∧
   Z.of_nat (length [47; 116; -23]) < 2 ^ 31 - 1) ∧
  ∃ w1 w2,
    newString8859_1 ([47; 116; -23] ++ [0; 5; 5]) (world0 disk0)
    = Some (Some [47; 116; 233], w1) ∧
    getString8859_1Chars [47; 116; 233] w1 = Some (Some [47; 116; -23; 0], w2).
Proof.
  assert (0 ∉ [47; 116; -23]) as Hnul
    by (apply (bool_decide_unpack _); by vm_compute).
  assert (Forall (λ c, to_char c = c) [47; 116; -23]) as Hchars
    by (by repeat constructor).
  assert (Z.of_nat (length [47; 116; -23]) < 2 ^ 31 - 1) as Hlen
    by (by vm_compute).
  split; [done|].
  destruct (encode_decode_bytes [47; 116; -23] [5; 5] (world0 disk0)
              eq_refl Hnul Hchars Hlen)
    as (s & w1 & w2 & Hdecode & -> & Hencode & _).
  exists w1, w2. split; [exact Hdecode|exact Hencode].
Defined.


Lemma getStat0_existing_example :
  (faults (table_world owned_by_nobody []) = [] ∧
   Z.of_nat (length (chars "/srv/data")) < 2 ^ 31 - 1 ∧
   k_lstat (c_path (chars "/srv/data")) (kernel (table_world owned_by_nobody []))
   = Ok (attrs (set_owner 4294967294 4294967294 plain_file))) ∧
  ∃ st w',
    Posix.Java_com_aoapps_io_posix_PosixFile_getStat0
      (chars "/srv/data") (table_world owned_by_nobody []) = Some (Some st, w') ∧
    exists_ st = true ∧
    size st = 12 ∧
    uid st = -2 ∧
    modifyTime st = 1600000001000.
Proof.
  assert (Z.of_nat (length (chars "/srv/data")) < 2 ^ 31 - 1) as Hlen
    by (by vm_compute).
  assert (k_lstat (c_path (chars "/srv/data"))
            (kernel (table_world owned_by_nobody []))
          = Ok (attrs (set_owner 4294967294 4294967294 plain_file))) as Hk
    by (vm_compute; reflexivity).
  split; [done|].
  destruct (getStat0_existing (chars "/srv/data")
              (attrs (set_owner 4294967294 4294967294 plain_file))
              (table_world owned_by_nobody []) eq_refl Hlen Hk)
    as (st & w' & Hrun & Hexists & _ & _ & _ & _ & _ & _ & _ & Hsize & _ & _
        & Huid & _ & _ & Hmtime & _).
  exists st, w'. split; [exact Hrun|]. split; [exact Hexists|].
  split; [apply Hsize; by vm_compute|].
  split; [apply Huid; by vm_compute|].
  apply Hmtime. by vm_compute.
Defined.

Lemma getStat0_other_error_example :
  (faults (table_world failures []) = [] ∧
   Z.of_nat (length (chars "/root/x")) < 2 ^ 31 - 1 ∧
   k_lstat (c_path (chars "/root/x")) (kernel (table_world failures [])) = Err 13 ∧
   13 ≠ ENOENT ∧ 13 ≠ ENOTDIR) ∧
  ∃ w',
    Posix.Java_com_aoapps_io_posix_PosixFile_getStat0
      (chars "/root/x") (table_world failures []) = Some (None, w') ∧
    Unix.Java_com_aoindustries_io_unix_UnixFile_getStat0
      (chars "/root/x") (table_world failures []) = Some (None, w') ∧
    pending w' = Some (Thrown "java/lang/SecurityException" (strerror 13)).
Proof.
  assert (Z.of_nat (length (chars "/root/x")) < 2 ^ 31 - 1) as Hlen
    by (by vm_compute).
  assert (13 ≠ ENOENT) as H1 by (by vm_compute).
  assert (13 ≠ ENOTDIR) as H2 by (by vm_compute).
  assert (k_lstat (c_path (chars "/root/x")) (kernel (table_world failures []))
          = Err 13) as Hk
    by (vm_compute; reflexivity).
  split; [done|].
  destruct (getStat0_other_error (chars "/root/x") 13 (table_world failures [])
              eq_refl Hlen Hk H1 H2) as (w' & Hposix & Hunix & Hp & _).
  exists w'. split; [exact Hposix|]. split; [exact Hunix|exact Hp].
Defined.

Lemma getStat0_generations_agree_example :
  (faults (world0 disk0) = [] ∧
   Z.of_nat (length (chars "/etc/motd")) < 2 ^ 31 - 1) ∧
  ∃ r,
    Posix.Java_com_aoapps_io_posix_PosixFile_getStat0
      (chars "/etc/motd") (world0 disk0) = Some r ∧
    Unix.Java_com_aoindustries_io_unix_UnixFile_getStat0
      (chars "/etc/motd") (world0 disk0) = Some r.
Proof.
  assert (Z.of_nat (length (chars "/etc/motd")) < 2 ^ 31 - 1) as Hlen
    by (by vm_compute).
  split; [done|].
  exact (getStat0_generations_agree (chars "/etc/motd") (world0 disk0)
           eq_refl Hlen).
Defined.

Lemma getStat0_unassigned_locals_example :
  (faults (table_world failures [true; true; true; false])
   = [true; true; true; false] ∧
   Z.of_nat (length (chars "/root/x")) < 2 ^ 31 - 1 ∧
   k_lstat (c_path (chars "/root/x"))
     (kernel (table_world failures [true; true; true; false])) = Err 13 ∧
   13 ≠ ENOENT ∧ 13 ≠ ENOTDIR) ∧
  Posix.Java_com_aoapps_io_posix_PosixFile_getStat0
    (chars "/root/x") (table_world failures [true; true; true; false]) = None ∧
  Unix.Java_com_aoindustries_io_unix_UnixFile_getStat0
    (chars "/root/x") (table_world failures [true; true; true; false]) = None.
Proof.
  assert (Z.of_nat (length (chars "/root/x")) < 2 ^ 31 - 1) as Hlen
    by (by vm_compute).
  assert (13 ≠ ENOENT) as H1 by (by vm_compute).
  assert (13 ≠ ENOTDIR) as H2 by (by vm_compute).
  assert (k_lstat (c_path (chars "/root/x"))
            (kernel (table_world failures [true; true; true; false])) = Err 13)
    as Hk by (vm_compute; reflexivity).
  split; [done|].
  exact (getStat0_unassigned_locals (chars "/root/x") 13
           (table_world failures [true; true; true; false])
           eq_refl Hlen Hk H1 H2).
Defined.

Lemma getStat0_jvm_failure_example :
  (faults (world_with [true; true; true; true; false] disk0)
   = [true; true; true; true; false] ∧
   Z.of_nat (length (chars "/etc/motd")) < 2 ^ 31 - 1 ∧
   k_lstat (c_path (chars "/etc/motd"))
     (kernel (world_with [true; true; true; true; false] disk0))
   = Ok (attrs plain_file)) ∧
  ∃ w',
    Posix.Java_com_aoapps_io_posix_PosixFile_getStat0
      (chars "/etc/motd") (world_with [true; true; true; true; false] disk0)
    = Some (None, w') ∧
    pending w' = Some JvmThrown.
Proof.
  assert (Z.of_nat (length (chars "/etc/motd")) < 2 ^ 31 - 1) as Hlen
    by (by vm_compute).
  assert (k_lstat (c_path (chars "/etc/motd"))
            (kernel (world_with [true; true; true; true; false] disk0))
          = Ok (attrs plain_file)) as Hk
    by (vm_compute; reflexivity).
  split; [done|].
  destruct (getStat0_jvm_failure (chars "/etc/motd") (attrs plain_file)
              (world_with [true; true; true; true; false] disk0)
              (or_intror (or_introl eq_refl)) Hlen Hk)
    as (w' & Hrun & Hp & _).
  exists w'. split; [exact Hrun|exact Hp].
Defined.

Lemma readLink0_failure_example :
  (faults (world0 disk0) = [] ∧
   Z.of_nat (length (chars "/etc/motd")) < 2 ^ 31 - 1 ∧
   k_readlink (c_path (chars "/etc/motd")) (kernel (world0 disk0)) = Err 22) ∧
  ∃ w',
    Posix.Java_com_aoapps_io_posix_PosixFile_readLink0
      (chars "/etc/motd") (world0 disk0) = Some (None, w') ∧
    pending w' = Some (Thrown "java/lang/IllegalArgumentException" (strerror 22)).
Proof.
  assert (Z.of_nat (length (chars "/etc/motd")) < 2 ^ 31 - 1) as Hlen
    by (by vm_compute).
  assert (k_readlink (c_path (chars "/etc/motd")) (kernel (world0 disk0)) = Err 22)
    as Hk by (vm_compute; reflexivity).
  split; [done|].
  destruct (readLink0_failure (chars "/etc/motd") 22 (world0 disk0)
              eq_refl Hlen Hk) as (w' & Hrun & Hp & _).
  exists w'. split; [exact Hrun|exact Hp].
Defined.

Lemma mktemp0_returns_name_example :
  (faults (world0 disk0) = [] ∧
   Z.of_nat (length (chars "/tmp/f.XXXXXX")) < 2 ^ 31 - 1 ∧
   k_mkstemp (c_path (chars "/tmp/f.XXXXXX")) (kernel (world0 disk0))
   = (Ok (3, chars "/tmp/f.q7Zk2m"),
      (disk_create (chars "/tmp/f.q7Zk2m") plain_file disk0).2) ∧
   length (chars "/tmp/f.q7Zk2m") = length (c_path (chars "/tmp/f.XXXXXX")) ∧
   is_jint 3 ∧ 3 ≠ -1 ∧
   k_close 3 (disk_create (chars "/tmp/f.q7Zk2m") plain_file disk0).2
   = (Ok (), (disk_create (chars "/tmp/f.q7Zk2m") plain_file disk0).2)) ∧
  ∃ w',
    Posix.Java_com_aoapps_io_posix_PosixFile_mktemp0
      (chars "/tmp/f.XXXXXX") (world0 disk0)
    = Some (Some (chars "/tmp/f.q7Zk2m"), w') ∧
    pending w' = None ∧
    k_lstat (chars "/tmp/f.q7Zk2m") (kernel w') = Ok (attrs plain_file).
Proof.
  assert (Z.of_nat (length (chars "/tmp/f.XXXXXX")) < 2 ^ 31 - 1) as Hlen
    by (by vm_compute).
  assert (k_mkstemp (c_path (chars "/tmp/f.XXXXXX")) (kernel (world0 disk0))
          = (Ok (3, chars "/tmp/f.q7Zk2m"),
             (disk_create (chars "/tmp/f.q7Zk2m") plain_file disk0).2)) as Hk
    by (vm_compute; reflexivity).
  assert (length (chars "/tmp/f.q7Zk2m") = length (c_path (chars "/tmp/f.XXXXXX")))
    as Hname by (vm_compute; reflexivity).
  assert (is_jint 3) as Hfd by (by vm_compute).
  assert (3 ≠ -1) as Hfd' by (by vm_compute).
  assert (k_close 3 (disk_create (chars "/tmp/f.q7Zk2m") plain_file disk0).2
          = (Ok (), (disk_create (chars "/tmp/f.q7Zk2m") plain_file disk0).2))
    as Hc by (vm_compute; reflexivity).
  split; [done|].
  destruct (mktemp0_returns_name (chars "/tmp/f.XXXXXX") 3 (chars "/tmp/f.q7Zk2m")
              _ _ (world0 disk0) eq_refl Hlen Hk Hname Hfd Hfd' Hc)
    as (w' & Hrun & Hkernel & Hp & _).
  exists w'. split; [exact Hrun|]. rewrite Hp, Hkernel. split; by vm_compute.
Defined.

Lemma mktemp0_failure_example :
  (faults (table_world failures []) = [] ∧
   Z.of_nat (length (chars "/tmp/f.XXXXXX")) < 2 ^ 31 - 1) ∧
  Posix.Java_com_aoapps_io_posix_PosixFile_mktemp0
    (chars "/tmp/f.XXXXXX") (table_world failures [])
  = Some (None,
          mkWorld {| answers := failures; calls := 2 |} 5 [] (λ _, 0)
            (Some (Thrown "java/io/IOException" (strerror 5)))
            [EvMalloc 14; EvMalloc 14; EvClose 4]).
Proof.
  assert (Z.of_nat (length (chars "/tmp/f.XXXXXX")) < 2 ^ 31 - 1) as Hlen
    by (by vm_compute).
  assert (is_jint 4) as Hfd by (by vm_compute).
  assert (4 ≠ -1) as Hfd' by (by vm_compute).
  assert (k_mkstemp (c_path (chars "/tmp/f.XXXXXX"))
            (kernel (table_world failures []))
          = (Ok (4, chars "/tmp/f.q7Zk2m"), {| answers := failures; calls := 1 |}))
    as Hk by (vm_compute; reflexivity).
  assert (length (chars "/tmp/f.q7Zk2m") = length (c_path (chars "/tmp/f.XXXXXX")))
    as Hname by (vm_compute; reflexivity).
  assert (k_close 4 {| answers := failures; calls := 1 |}
          = (Err 5, {| answers := failures; calls := 2 |})) as Hc
    by (vm_compute; reflexivity).
  split; [done|].
  pose proof (mktemp0_failure (chars "/tmp/f.XXXXXX") (table_world failures [])
                eq_refl Hlen) as H.
  cbv zeta in H. destruct H as [_ Hclose].
  exact (Hclose 4 (chars "/tmp/f.q7Zk2m") {| answers := failures; calls := 1 |}
           5 {| answers := failures; calls := 2 |} Hk Hname Hfd Hfd' Hc).
Defined.

Lemma addEntropy0_not_opened_example :
  (faults (table_world descriptor_zero []) = [] ∧
   Z.of_nat (length [1; 2; -3]) < 2 ^ 31 ∧
   k_open (chars "/dev/random") O_WRONLY (kernel (table_world descriptor_zero []))
   = (Ok 0, {| answers := descriptor_zero; calls := 1 |}) ∧
   0 ≤ 0) ∧
  Posix.Java_com_aoapps_io_posix_linux_DevRandom_addEntropy0
    [1; 2; -3] (table_world descriptor_zero [])
  = Some ((),
          mkWorld {| answers := descriptor_zero; calls := 1 |} 0 [] (λ _, 0)
            (Some (Thrown "java/lang/RuntimeException" (strerror 0)))
            [EvMalloc 11; EvOpen (chars "/dev/random") 1]).
Proof.
  assert (Z.of_nat (length [1; 2; -3]) < 2 ^ 31) as Hlen by (by vm_compute).
  assert (0 ≤ 0) as Hfd by (by vm_compute).
  assert (k_open (chars "/dev/random") O_WRONLY
            (kernel (table_world descriptor_zero []))
          = (Ok 0, {| answers := descriptor_zero; calls := 1 |})) as Hk
    by (vm_compute; reflexivity).
  split; [done|].
  exact (addEntropy0_not_opened [1; 2; -3] (Ok 0)
           {| answers := descriptor_zero; calls := 1 |}
           (table_world descriptor_zero []) eq_refl Hlen Hk Hfd).
Defined.

Lemma addEntropy0_outcome_example :
  (faults (table_world failures []) = [] ∧
   Z.of_nat (length [1; 2; -3]) < 2 ^ 31 ∧
   k_open (chars "/dev/random") O_WRONLY (kernel (table_world failures []))
   = (Ok 4, {| answers := failures; calls := 1 |}) ∧
   4 > 0 ∧
   k_ioctl 4 RNDADDENTROPY
     {| entropy_count := to_jint (Z.of_nat (length [1; 2; -3]) ≪ 3);
        buf_size := Z.of_nat (length [1; 2; -3]);
        buf := to_char <$> [1; 2; -3] |}
     {| answers := failures; calls := 1 |}
   = (Err 1, {| answers := failures; calls := 2 |}) ∧
   k_close 4 {| answers := failures; calls := 2 |}
   = (Err 5, {| answers := failures; calls := 3 |})) ∧
  ∃ w',
    Posix.Java_com_aoapps_io_posix_linux_DevRandom_addEntropy0
      [1; 2; -3] (table_world failures []) = Some ((), w') ∧
    kernel w' = {| answers := failures; calls := 3 |} ∧
    pending w' = Some (Thrown "java/lang/SecurityException" (strerror 5)).
Proof.
  assert (Z.of_nat (length [1; 2; -3]) < 2 ^ 31) as Hlen by (by vm_compute).
  assert (4 > 0) as Hfd by (by vm_compute).
  assert (k_open (chars "/dev/random") O_WRONLY (kernel (table_world failures []))
          = (Ok 4, {| answers := failures; calls := 1 |})) as Hk
    by (vm_compute; reflexivity).
  assert (k_ioctl 4 RNDADDENTROPY
            {| entropy_count := to_jint (Z.of_nat (length [1; 2; -3]) ≪ 3);
               buf_size := Z.of_nat (length [1; 2; -3]);
               buf := to_char <$> [1; 2; -3] |}
            {| answers := failures; calls := 1 |}
          = (Err 1, {| answers := failures; calls := 2 |})) as H1
    by (vm_compute; reflexivity).
  assert (k_close 4 {| answers := failures; calls := 2 |}
          = (Err 5, {| answers := failures; calls := 3 |})) as H2
    by (vm_compute; reflexivity).
  split; [done|].
  destruct (addEntropy0_outcome [1; 2; -3] 4 (Err 1) (Err 5)
              {| answers := failures; calls := 1 |}
              {| answers := failures; calls := 2 |}
              {| answers := failures; calls := 3 |}
              (table_world failures []) eq_refl Hlen Hk Hfd H1 H2)
    as (w' & Hrun & Hkernel & _ & Hp).
  exists w'. split; [exact Hrun|]. split; [exact Hkernel|exact Hp].
Defined.

Lemma only_the_c_path_matters_example :
  (faults (world0 disk0) = [] ∧
   Z.of_nat (length (chars "/etc/motd")) < 2 ^ 31 - 1 ∧
   Z.of_nat (length (chars "/etc/motd" ++ [0; 47; 120])) < 2 ^ 31 - 1 ∧
   c_path (chars "/etc/motd") = c_path (chars "/etc/motd" ++ [0; 47; 120])) ∧
  Posix.same_effect
    (Posix.Java_com_aoapps_io_posix_PosixFile_chown0
       (chars "/etc/motd") 33 34 (world0 disk0))
    (Posix.Java_com_aoapps_io_posix_PosixFile_chown0
       (chars "/etc/motd" ++ [0; 47; 120]) 33 34 (world0 disk0)) ∧
  Posix.same_effect
    (Posix.Java_com_aoapps_io_posix_PosixFile_getStat0
       (chars "/etc/motd") (world0 disk0))
    (Posix.Java_com_aoapps_io_posix_PosixFile_getStat0
       (chars "/etc/motd" ++ [0; 47; 120]) (world0 disk0)).
Proof.
  assert (Z.of_nat (length (chars "/etc/motd")) < 2 ^ 31 - 1) as Hlen
    by (by vm_compute).
  assert (Z.of_nat (length (chars "/etc/motd" ++ [0; 47; 120])) < 2 ^ 31 - 1)
    as Hlen' by (by vm_compute).
  assert (c_path (chars "/etc/motd") = c_path (chars "/etc/motd" ++ [0; 47; 120]))
    as Hpath by (vm_compute; reflexivity).
  split; [done|].
  destruct (only_the_c_path_matters (chars "/etc/motd")
              (chars "/etc/motd" ++ [0; 47; 120]) 33 34 (world0 disk0)
              eq_refl Hlen Hlen' Hpath) as (Hchown & Hstat & _).
  split; [exact Hchown|exact Hstat].
Defined.
